(** * The plant brain of [new_server.py]: a shallow embedding

    The server keeps one [PlantBrain] object and runs the socket handler
    [sensor_data] once per incoming telemetry record.  This file embeds the
    handler, the weather cache [PlantBrain.get_weather] and
    [PlantBrain.calculate_vpd], and proves properties of them.

    Conventions of the embedding:
    - Python numbers are rationals ([Q]), arithmetic is exact; [np.exp] is a
      parameter of the development.
    - Values coming from JSON (the sensor record, the weather response) are
      kept dynamically typed ([value]); subscripting and arithmetic on them
      raise the exception Python raises.
    - A handler is a function from the brain to a result, the brain after it
      and the trace of effects it issued.  A raised exception keeps the
      mutations made before it, as in Python.
    - The wall clock and the HTTP collaborator are inputs of a cycle
      ([Env]): one field per call site of [time.time()], [time.strftime]
      and [requests.get]. *)

From Stdlib Require Import String Ascii QArith Qround ZArith Bool Lia Lqa Sorted List.
Import ListNotations.

Local Open Scope Q_scope.

(** ** Dynamically typed values *)

#[local] Unset Elimination Schemes.
Inductive value : Type :=
| VNone
| VBool (b : bool)
| VNum (q : Q)
| VStr (s : string)
| VList (l : list value)
| VDict (d : list (string * value)).
#[local] Set Elimination Schemes.

Inductive exn : Type :=
| KeyError
| IndexError
| TypeError
| AttributeError
| ZeroDivisionError
| ConnectionError
| JSONDecodeError.

Inductive result (A : Type) : Type :=
| Ok (a : A)
| Raise (e : exn).
Arguments Ok {A} a.
Arguments Raise {A} e.

(** Subscripts used by the program: a string key or a list position. *)
Inductive key : Type :=
| KStr (s : string)
| KInt (n : nat).

(** A dict is the list of its items; a key is looked up from the front. *)
Fixpoint lookup (k : string) (d : list (string * value)) : option value :=
  match d with
  | [] => None
  | (k', v) :: d' => if String.eqb k k' then Some v else lookup k d'
  end.

(** [v[k]] *)
Definition getitem (v : value) (k : key) : result value :=
  match v, k with
  | VDict d, KStr s =>
      match lookup s d with Some x => Ok x | None => Raise KeyError end
  | VDict _, KInt _ => Raise KeyError
  | VList l, KInt n =>
      match nth_error l n with Some x => Ok x | None => Raise IndexError end
  | VList _, KStr _ => Raise TypeError
  | VStr s, KInt n =>
      match String.get n s with
      | Some c => Ok (VStr (String c EmptyString))
      | None => Raise IndexError
      end
  | VStr _, KStr _ => Raise TypeError
  | _, _ => Raise TypeError
  end.

(** [v.get(k)]: only a dict has the method. *)
Definition dict_get (v : value) (k : string) : result value :=
  match v with
  | VDict d => match lookup k d with Some x => Ok x | None => Ok VNone end
  | _ => Raise AttributeError
  end.

(** The numeric reading of a value in arithmetic and ordering ([bool] is a
    number in Python); [None] for the values on which [+], [/] and [>]
    with a number raise [TypeError]. *)
Definition as_number (v : value) : option Q :=
  match v with
  | VNum q => Some q
  | VBool b => Some (if b then 1 else 0)
  | _ => None
  end.

Definition Qltb (a b : Q) : bool :=
  match a ?= b with Lt => true | _ => false end.

(** [v == n] for a number [n] *)
Definition eq_number (v : value) (n : Q) : bool :=
  match as_number v with Some q => Qeq_bool q n | None => false end.

(** [v == s] for a string [s] *)
Definition eq_string (v : value) (s : string) : bool :=
  match v with VStr s' => String.eqb s' s | _ => false end.

(** [v > n] for a number [n] *)
Definition gt_number (v : value) (n : Q) : result bool :=
  match as_number v with Some q => Ok (Qltb n q) | None => Raise TypeError end.

(** ** Numbers *)

(** [sum(buf)]: left to right from 0. *)
Fixpoint sum_from (acc : Q) (buf : list value) : result Q :=
  match buf with
  | [] => Ok acc
  | v :: buf' =>
      match as_number v with
      | Some q => sum_from (acc + q) buf'
      | None => Raise TypeError
      end
  end.

Definition py_sum (buf : list value) : result Q := sum_from 0 buf.

(** [sum(buf) / len(buf)] *)
Definition mean (buf : list value) : result Q :=
  match py_sum buf with
  | Raise e => Raise e
  | Ok s =>
      match buf with
      | [] => Raise ZeroDivisionError
      | _ => Ok (s / inject_Z (Z.of_nat (length buf)))
      end
  end.

(** Rounding to the nearest integer, ties to even. *)
Definition round_half_even (x : Q) : Z :=
  let f := Qfloor x in
  let r := x - inject_Z f in
  if Qltb r (1 # 2) then f
  else if Qltb (1 # 2) r then (f + 1)%Z
  else if Z.even f then f else (f + 1)%Z.

(** [round(x, ndigits)] *)
Definition py_round (x : Q) (ndigits : nat) : Q :=
  let scale := inject_Z (10 ^ Z.of_nat ndigits) in
  inject_Z (round_half_even (x * scale)) / scale.

(** ** The smoothing windows: [deque(maxlen=5)] *)

Definition maxlen : nat := 5.

(** [buf.append(x)] on a bounded deque: a full deque drops its oldest
    element, at the left end. *)
Definition append (buf : list value) (x : value) : list value :=
  let b := buf ++ [x] in
  if (maxlen <? length b)%nat then tl b else b.

(** ** The brain *)

Record PlantBrain : Type := mkBrain {
  soil_buffer : list value;
  temp_buffer : list value;
  light_buffer : list value;
  last_sent_temp : Q;
  last_sent_soil : Q;
  pump_status : bool;
  pump_lock : bool;
  last_pump_time : Q;
  alert_message : string;
  battery_level : Z;
  weather_condition : value;
  outside_temp : value;
  outside_humidity : value;
  last_weather_fetch : Q
}.

(** [PlantBrain.__init__] *)
Definition init : PlantBrain := {|
  soil_buffer := [];
  temp_buffer := [];
  light_buffer := [];
  last_sent_temp := - (999 # 1);
  last_sent_soil := - (999 # 1);
  pump_status := false;
  pump_lock := false;
  last_pump_time := 0;
  alert_message := "System Normal";
  battery_level := 100;
  weather_condition := VStr "Unknown";
  outside_temp := VNum 30;
  outside_humidity := VNum 70;
  last_weather_fetch := 0
|}.

Definition set_soil_buffer b (s : PlantBrain) :=
  mkBrain b (temp_buffer s) (light_buffer s) (last_sent_temp s)
    (last_sent_soil s) (pump_status s) (pump_lock s) (last_pump_time s)
    (alert_message s) (battery_level s) (weather_condition s)
    (outside_temp s) (outside_humidity s) (last_weather_fetch s).
Definition set_temp_buffer b (s : PlantBrain) :=
  mkBrain (soil_buffer s) b (light_buffer s) (last_sent_temp s)
    (last_sent_soil s) (pump_status s) (pump_lock s) (last_pump_time s)
    (alert_message s) (battery_level s) (weather_condition s)
    (outside_temp s) (outside_humidity s) (last_weather_fetch s).
Definition set_light_buffer b (s : PlantBrain) :=
  mkBrain (soil_buffer s) (temp_buffer s) b (last_sent_temp s)
    (last_sent_soil s) (pump_status s) (pump_lock s) (last_pump_time s)
    (alert_message s) (battery_level s) (weather_condition s)
    (outside_temp s) (outside_humidity s) (last_weather_fetch s).
Definition set_last_sent_temp x (s : PlantBrain) :=
  mkBrain (soil_buffer s) (temp_buffer s) (light_buffer s) x
    (last_sent_soil s) (pump_status s) (pump_lock s) (last_pump_time s)
    (alert_message s) (battery_level s) (weather_condition s)
    (outside_temp s) (outside_humidity s) (last_weather_fetch s).
Definition set_last_sent_soil x (s : PlantBrain) :=
  mkBrain (soil_buffer s) (temp_buffer s) (light_buffer s) (last_sent_temp s)
    x (pump_status s) (pump_lock s) (last_pump_time s)
    (alert_message s) (battery_level s) (weather_condition s)
    (outside_temp s) (outside_humidity s) (last_weather_fetch s).
Definition set_pump_status x (s : PlantBrain) :=
  mkBrain (soil_buffer s) (temp_buffer s) (light_buffer s) (last_sent_temp s)
    (last_sent_soil s) x (pump_lock s) (last_pump_time s)
    (alert_message s) (battery_level s) (weather_condition s)
    (outside_temp s) (outside_humidity s) (last_weather_fetch s).
Definition set_pump_lock x (s : PlantBrain) :=
  mkBrain (soil_buffer s) (temp_buffer s) (light_buffer s) (last_sent_temp s)
    (last_sent_soil s) (pump_status s) x (last_pump_time s)
    (alert_message s) (battery_level s) (weather_condition s)
    (outside_temp s) (outside_humidity s) (last_weather_fetch s).
Definition set_last_pump_time x (s : PlantBrain) :=
  mkBrain (soil_buffer s) (temp_buffer s) (light_buffer s) (last_sent_temp s)
    (last_sent_soil s) (pump_status s) (pump_lock s) x
    (alert_message s) (battery_level s) (weather_condition s)
    (outside_temp s) (outside_humidity s) (last_weather_fetch s).
Definition set_alert_message x (s : PlantBrain) :=
  mkBrain (soil_buffer s) (temp_buffer s) (light_buffer s) (last_sent_temp s)
    (last_sent_soil s) (pump_status s) (pump_lock s) (last_pump_time s)
    x (battery_level s) (weather_condition s)
    (outside_temp s) (outside_humidity s) (last_weather_fetch s).
Definition set_weather_condition x (s : PlantBrain) :=
  mkBrain (soil_buffer s) (temp_buffer s) (light_buffer s) (last_sent_temp s)
    (last_sent_soil s) (pump_status s) (pump_lock s) (last_pump_time s)
    (alert_message s) (battery_level s) x
    (outside_temp s) (outside_humidity s) (last_weather_fetch s).
Definition set_outside_temp x (s : PlantBrain) :=
  mkBrain (soil_buffer s) (temp_buffer s) (light_buffer s) (last_sent_temp s)
    (last_sent_soil s) (pump_status s) (pump_lock s) (last_pump_time s)
    (alert_message s) (battery_level s) (weather_condition s)
    x (outside_humidity s) (last_weather_fetch s).
Definition set_outside_humidity x (s : PlantBrain) :=
  mkBrain (soil_buffer s) (temp_buffer s) (light_buffer s) (last_sent_temp s)
    (last_sent_soil s) (pump_status s) (pump_lock s) (last_pump_time s)
    (alert_message s) (battery_level s) (weather_condition s)
    (outside_temp s) x (last_weather_fetch s).
Definition set_last_weather_fetch x (s : PlantBrain) :=
  mkBrain (soil_buffer s) (temp_buffer s) (light_buffer s) (last_sent_temp s)
    (last_sent_soil s) (pump_status s) (pump_lock s) (last_pump_time s)
    (alert_message s) (battery_level s) (weather_condition s)
    (outside_temp s) (outside_humidity s) x.

(** ** Effects *)

(** The record handed to [sio.emit('system_update', ...)].  The f-string
    [npk] is kept as its three components. *)
Record Sensors : Type := mkSensors {
  soil : Q;
  temp : Q;
  light : Q;
  npk : value * value * value
}.

Record Weather : Type := mkWeather {
  condition : value;
  w_temp : value;
  humidity : value;
  vpd : Q
}.

Record System : Type := mkSystem {
  pump_active : bool;
  algorithm_state : string;
  alert : string;
  payload_battery_level : Z
}.

Record Payload : Type := mkPayload {
  timestamp : string;
  sensors : Sensors;
  weather : Weather;
  system : System
}.

Inductive message : Type :=
| WeatherUpdated (cond temperature : value)
| WeatherUnavailable.

Inductive event : Type :=
| HttpGet
| Print (m : message)
| Emit (p : Payload).

(** What [requests.get(WEATHER_API_URL)] followed by [r.json()] yields. *)
Inductive http_result : Type :=
| ConnFail
| BodyNotJson
| BodyJson (data : value).

(** The readings a cycle takes from the outside world: [t_weather] is
    [time.time()] in [get_weather], [http] the outcome of its request,
    [t_edge] the [time.time()] stored on an Idle-to-Running edge, [t_check]
    the [time.time()] of the timeout test, [strftime] the formatted time of
    the payload.  Each is read only if its call site is reached. *)
Record Env : Type := mkEnv {
  t_weather : Q;
  http : http_result;
  t_edge : Q;
  t_check : Q;
  strftime : string
}.

Definition M (A : Type) : Type :=
  PlantBrain -> result A * PlantBrain * list event.

Definition ret {A} (a : A) : M A := fun s => (Ok a, s, []).

Definition bind {A B} (c : M A) (f : A -> M B) : M B :=
  fun s =>
    match c s with
    | (Ok a, s1, t1) =>
        match f a s1 with (r, s2, t2) => (r, s2, t1 ++ t2) end
    | (Raise e, s1, t1) => (Raise e, s1, t1)
    end.

Definition get : M PlantBrain := fun s => (Ok s, s, []).
Definition modify (f : PlantBrain -> PlantBrain) : M unit :=
  fun s => (Ok tt, f s, []).
Definition tell (e : event) : M unit := fun s => (Ok tt, s, [e]).
Definition lift {A} (r : result A) : M A := fun s => (r, s, []).

(** [try: body / except: handler] with a bare [except]. *)
Definition try_except {A} (body handler : M A) : M A :=
  fun s =>
    match body s with
    | (Ok a, s1, t1) => (Ok a, s1, t1)
    | (Raise _, s1, t1) =>
        match handler s1 with (r, s2, t2) => (r, s2, t1 ++ t2) end
    end.

Declare Scope monad_scope.
Delimit Scope monad_scope with monad.
Notation "x <- c ;; k" := (bind c (fun x => k))
  (at level 61, c at next level, right associativity) : monad_scope.
Notation "c ;; k" := (bind c (fun _ => k))
  (at level 61, right associativity) : monad_scope.
Local Open Scope monad_scope.

(** ** The program *)

Section Program.

(** [np.exp] *)
Variable np_exp : Q -> Q.

(** [PlantBrain.calculate_vpd]; the humidity is whatever the weather
    response stored. *)
Definition calculate_vpd (temp : Q) (humidity : value) : result Q :=
  if Qeq_bool (temp + 237.3) 0 then Raise ZeroDivisionError
  else
    let svp := 0.6108 * np_exp ((17.27 * temp) / (temp + 237.3)) in
    match as_number humidity with
    | None => Raise TypeError
    | Some h =>
        let avp := svp * (h / 100.0) in
        Ok (svp - avp)
    end.

(** [requests.get(WEATHER_API_URL)] then [r.json()] *)
Definition requests_get_json (resp : http_result) : M value :=
  tell HttpGet ;;
  match resp with
  | ConnFail => lift (Raise ConnectionError)
  | BodyNotJson => lift (Raise JSONDecodeError)
  | BodyJson data => ret data
  end.

(** The body of the [try] of [get_weather]. *)
Definition fetch_weather (resp : http_result) : M unit :=
  data <- requests_get_json resp ;;
  cod <- lift (dict_get data "cod") ;;
  if eq_number cod 200 then
    w <- lift (getitem data (KStr "weather")) ;;
    w0 <- lift (getitem w (KInt 0)) ;;
    c <- lift (getitem w0 (KStr "main")) ;;
    modify (set_weather_condition c) ;;
    m <- lift (getitem data (KStr "main")) ;;
    t <- lift (getitem m (KStr "temp")) ;;
    modify (set_outside_temp t) ;;
    m' <- lift (getitem data (KStr "main")) ;;
    h <- lift (getitem m' (KStr "humidity")) ;;
    modify (set_outside_humidity h) ;;
    tell (Print (WeatherUpdated c t))
  else ret tt.

(** [PlantBrain.get_weather], with [now] the reading of [time.time()]. *)
Definition get_weather (now : Q) (resp : http_result) : M unit :=
  self <- get ;;
  if Qltb (now - last_weather_fetch self) 600 then ret tt
  else
    try_except
      (fetch_weather resp)
      (modify (set_weather_condition (VStr "Clouds")) ;;
       tell (Print WeatherUnavailable)) ;;
    modify (set_last_weather_fetch now).

(** Step 3.1 of [sensor_data], the safety layer; returns [decision]. *)
Definition safety_layer (avg_soil avg_temp : Q) (data : value)
    (decision : string) : M string :=
  if Qltb 80 avg_soil then
    modify (set_pump_lock true) ;;
    modify (set_alert_message "Soil too wet! Pump disabled.") ;;
    ret "Saturation Lock"%string
  else if Qltb 35 avg_temp then
    modify (set_pump_lock true) ;;
    modify (set_alert_message "High Temp! Watering paused.") ;;
    ret "Heat Stress"%string
  else
    n <- lift (getitem data (KStr "nitrogen")) ;;
    n_high <- lift (gt_number n 200) ;;
    salty <- (if n_high then ret true
              else k <- lift (getitem data (KStr "potassium")) ;;
                   lift (gt_number k 200)) ;;
    if salty then
      modify (set_pump_lock true) ;;
      modify (set_alert_message "Nutrient Burn Risk! Flush soil.") ;;
      ret "Salinity Risk"%string
    else
      modify (set_pump_lock false) ;;
      modify (set_alert_message "System Normal") ;;
      ret decision.

(** The environment adjustment of step 3.2: threshold and decision. *)
Definition adjust_threshold (cond : value) (v : Q) (decision : string)
    : Q * string :=
  if eq_string cond "Rain" then (20.0, "Raining (Passive)"%string)
  else if Qltb 1.2 v then (50.0, "High Transpiration"%string)
  else (40.0, decision).

(** The pulse logic under the critical check: the value left in
    [pump_command]. *)
Definition pulse_logic (now_edge now_check : Q) : M bool :=
  self <- get ;;
  (if negb (pump_status self) then modify (set_last_pump_time now_edge)
   else ret tt) ;;
  self <- get ;;
  if Qltb 10 (now_check - last_pump_time self) then
    modify (set_alert_message "Pump Timeout (Safety)") ;;
    ret false
  else ret true.

(** Step 3.2, the intelligence layer; returns [decision], [pump_command]
    and [vpd] when the local was assigned. *)
Definition intelligence_layer (env : Env) (avg_soil avg_temp : Q)
    (decision : string) (pump_command : bool)
    : M (string * bool * option Q) :=
  self <- get ;;
  if negb (pump_lock self) then
    v <- lift (calculate_vpd avg_temp (outside_humidity self)) ;;
    let '(watering_threshold, decision) :=
      adjust_threshold (weather_condition self) v decision in
    if Qltb avg_soil watering_threshold then
      pump_command <- pulse_logic (t_edge env) (t_check env) ;;
      ret ("Critical: Pulse Irrigation"%string, pump_command, Some v)
    else ret (decision, pump_command, Some v)
  else ret (decision, pump_command, None).

(** Step 4: the payload, built after [pump_status] is stored. *)
Definition output_payload (env : Env) (data : value)
    (avg_soil avg_temp avg_light : Q) (decision : string) (v : option Q)
    : M Payload :=
  n <- lift (getitem data (KStr "nitrogen")) ;;
  p <- lift (getitem data (KStr "phosphorus")) ;;
  k <- lift (getitem data (KStr "potassium")) ;;
  self <- get ;;
  ret {|
    timestamp := strftime env;
    sensors := {| soil := py_round avg_soil 1;
                  temp := py_round avg_temp 1;
                  light := py_round avg_light 1;
                  npk := (n, p, k) |};
    weather := {| condition := weather_condition self;
                  w_temp := outside_temp self;
                  humidity := outside_humidity self;
                  vpd := py_round (match v with Some x => x | None => 0 end)
                           2 |};
    system := {| pump_active := pump_status self;
                 algorithm_state := decision;
                 alert := alert_message self;
                 payload_battery_level := 85 |}
  |}.

(** The [sensor_data] handler: one cycle. *)
Definition sensor_data (env : Env) (data : value) : M unit :=
  x <- lift (getitem data (KStr "soil_moisture")) ;;
  modify (fun s => set_soil_buffer (append (soil_buffer s) x) s) ;;
  x <- lift (getitem data (KStr "temperature")) ;;
  modify (fun s => set_temp_buffer (append (temp_buffer s) x) s) ;;
  x <- lift (getitem data (KStr "light_intensity")) ;;
  modify (fun s => set_light_buffer (append (light_buffer s) x) s) ;;
  plant <- get ;;
  if (length (soil_buffer plant) <? 2)%nat then ret tt
  else
    avg_soil <- lift (mean (soil_buffer plant)) ;;
    avg_temp <- lift (mean (temp_buffer plant)) ;;
    avg_light <- lift (mean (light_buffer plant)) ;;
    modify (set_last_sent_temp avg_temp) ;;
    modify (set_last_sent_soil avg_soil) ;;
    get_weather (t_weather env) (http env) ;;
    decision <- safety_layer avg_soil avg_temp data "Optimal" ;;
    r <- intelligence_layer env avg_soil avg_temp decision false ;;
    let '(decision, pump_command, v) := r in
    modify (set_pump_status pump_command) ;;
    p <- output_payload env data avg_soil avg_temp avg_light decision v ;;
    tell (Emit p).

(** Cycles in arrival order; the brain after them. *)
Fixpoint exec (cycles : list (Env * value)) (s : PlantBrain) : PlantBrain :=
  match cycles with
  | [] => s
  | (env, data) :: rest =>
      match sensor_data env data s with (_, s', _) => exec rest s' end
  end.

End Program.

(** ** Notions used in the statements *)

(** A channel's window after the values [vs] were appended, oldest first,
    to the empty deque of [__init__]. *)
Definition window (vs : list value) : list value := fold_left append vs [].

(** The last [k] elements of a list, in order. *)
Definition last_n {A} (k : nat) (l : list A) : list A :=
  skipn (length l - k) l.

(** The arithmetic mean of a non-empty list of numbers, summed in order. *)
Definition arithmetic_mean (qs : list Q) : Q :=
  fold_left Qplus qs 0 / inject_Z (Z.of_nat (length qs)).

(** The three components of a handler's outcome. *)
Definition result_of {A} (x : result A * PlantBrain * list event) : result A :=
  fst (fst x).
Definition state_of {A} (x : result A * PlantBrain * list event) : PlantBrain :=
  snd (fst x).
Definition trace_of {A} (x : result A * PlantBrain * list event) : list event :=
  snd x.

(** The number of external weather requests in a trace. *)
Fixpoint fetches (t : list event) : nat :=
  match t with
  | [] => 0
  | HttpGet :: t' => S (fetches t')
  | _ :: t' => fetches t'
  end.

(** The payloads published in a trace. *)
Fixpoint emitted (t : list event) : list Payload :=
  match t with
  | [] => []
  | Emit p :: t' => p :: emitted t'
  | _ :: t' => emitted t'
  end.

(** The clock readings of the calls of [get_weather], among [calls] made in
    order from [s], that issued an external request. *)
Fixpoint fetch_times (calls : list (Q * http_result)) (s : PlantBrain)
    : list Q :=
  match calls with
  | [] => []
  | (now, resp) :: rest =>
      let out := get_weather now resp s in
      (if (0 <? fetches (trace_of out))%nat then [now] else [])
        ++ fetch_times rest (state_of out)
  end.

(** An error response of the weather service: well-formed JSON whose
    status is not ok (what an invalid API key gets). *)
Definition resp_unauthorized : http_result :=
  BodyJson (VDict [("cod"%string, VNum (401 # 1));
                   ("message"%string, VStr "Invalid API key")]).

(** A response with status ok whose [main] object lacks [humidity]. *)
Definition resp_no_humidity : http_result :=
  BodyJson (VDict [("cod"%string, VNum (200 # 1));
                   ("weather"%string,
                     VList [VDict [("main"%string, VStr "Rain")]]);
                   ("main"%string, VDict [("temp"%string, VNum (25 # 1))])]).

(** [s'] differs from [s] at most in the four weather fields. *)
Definition same_except_weather (s s' : PlantBrain) : Prop :=
  soil_buffer s' = soil_buffer s
  /\ temp_buffer s' = temp_buffer s
  /\ light_buffer s' = light_buffer s
  /\ last_sent_temp s' = last_sent_temp s
  /\ last_sent_soil s' = last_sent_soil s
  /\ pump_status s' = pump_status s
  /\ pump_lock s' = pump_lock s
  /\ last_pump_time s' = last_pump_time s
  /\ alert_message s' = alert_message s
  /\ battery_level s' = battery_level s.

(** [s'] differs from [s] at most in the three smoothing windows. *)
Definition same_except_buffers (s s' : PlantBrain) : Prop :=
  s' = set_light_buffer (light_buffer s')
         (set_temp_buffer (temp_buffer s')
            (set_soil_buffer (soil_buffer s') s)).

(** The brain after the three appends of a cycle. *)
Definition observe (xs xt xl : value) (s : PlantBrain) : PlantBrain :=
  set_light_buffer (append (light_buffer s) xl)
    (set_temp_buffer (append (temp_buffer s) xt)
       (set_soil_buffer (append (soil_buffer s) xs) s)).

(** What the safety layer may leave behind: on an exception the brain it
    started from; otherwise a brain that differs in [pump_lock] and
    [alert_message] only, locked under one of the three safety labels or
    unlocked with the label it was given. *)
Definition safety_outcome (decision : string) (s : PlantBrain)
    (r : result string) (s' : PlantBrain) : Prop :=
  match r with
  | Raise _ => s' = s
  | Ok d =>
      s' = set_alert_message (alert_message s')
             (set_pump_lock (pump_lock s') s)
      /\ (pump_lock s' = true ->
          (d = "Saturation Lock" \/ d = "Heat Stress"
           \/ d = "Salinity Risk")%string)
      /\ (pump_lock s' = false ->
          d = decision /\ alert_message s' = "System Normal"%string)
  end.

(** What the intelligence layer may leave behind when it is entered with
    the label [d1] and the pump command false. *)
Definition intelligence_outcome (np_exp : Q -> Q) (env : Env)
    (avg_soil avg_temp : Q) (d1 : string) (s : PlantBrain)
    (r : result (string * bool * option Q)) (s' : PlantBrain) : Prop :=
  match r with
  | Raise _ => s' = s /\ pump_lock s = false
  | Ok (d2, cmd, vopt) =>
      (pump_lock s = true /\ d2 = d1 /\ cmd = false /\ vopt = None /\ s' = s)
      \/ (pump_lock s = false
          /\ exists v thr d,
              calculate_vpd np_exp avg_temp (outside_humidity s) = Ok v
              /\ vopt = Some v
              /\ adjust_threshold (weather_condition s) v d1 = (thr, d)
              /\ ((avg_soil < thr
                   /\ d2 = "Critical: Pulse Irrigation"%string
                   /\ pulse_logic (t_edge env) (t_check env) s
                      = (Ok cmd, s', []))
                  \/ (thr <= avg_soil /\ d2 = d /\ cmd = false /\ s' = s)))
  end.

(** A successfully processed cycle: every stage of [sensor_data] ran to
    its end and the record [p] was published.  [s'] is the brain after
    the cycle and [t] its trace. *)
Inductive processed (np_exp : Q -> Q) (env : Env) (data : value)
    (s : PlantBrain) : PlantBrain -> list event -> Payload -> Prop :=
| Processed (xs xt xl : value) (avg_soil avg_temp avg_light : Q)
    (s2 s3 s4 : PlantBrain) (tw : list event) (d1 d2 : string)
    (cmd : bool) (vopt : option Q) (vn vp vk : value) :
    getitem data (KStr "soil_moisture") = Ok xs ->
    getitem data (KStr "temperature") = Ok xt ->
    getitem data (KStr "light_intensity") = Ok xl ->
    (2 <= length (soil_buffer (observe xs xt xl s)))%nat ->
    mean (soil_buffer (observe xs xt xl s)) = Ok avg_soil ->
    mean (temp_buffer (observe xs xt xl s)) = Ok avg_temp ->
    mean (light_buffer (observe xs xt xl s)) = Ok avg_light ->
    get_weather (t_weather env) (http env)
      (set_last_sent_soil avg_soil
         (set_last_sent_temp avg_temp (observe xs xt xl s)))
    = (Ok tt, s2, tw) ->
    safety_layer avg_soil avg_temp data "Optimal" s2 = (Ok d1, s3, []) ->
    intelligence_layer np_exp env avg_soil avg_temp d1 false s3
    = (Ok (d2, cmd, vopt), s4, []) ->
    getitem data (KStr "nitrogen") = Ok vn ->
    getitem data (KStr "phosphorus") = Ok vp ->
    getitem data (KStr "potassium") = Ok vk ->
    processed np_exp env data s (set_pump_status cmd s4) (tw ++ [Emit
      {| timestamp := strftime env;
         sensors := {| soil := py_round avg_soil 1;
                       temp := py_round avg_temp 1;
                       light := py_round avg_light 1;
                       npk := (vn, vp, vk) |};
         weather := {| condition := weather_condition s4;
                       w_temp := outside_temp s4;
                       humidity := outside_humidity s4;
                       vpd := py_round
                                (match vopt with Some x => x | None => 0 end)
                                2 |};
         system := {| pump_active := cmd;
                      algorithm_state := d2;
                      alert := alert_message s4;
                      payload_battery_level := 85 |} |}])
      {| timestamp := strftime env;
         sensors := {| soil := py_round avg_soil 1;
                       temp := py_round avg_temp 1;
                       light := py_round avg_light 1;
                       npk := (vn, vp, vk) |};
         weather := {| condition := weather_condition s4;
                       w_temp := outside_temp s4;
                       humidity := outside_humidity s4;
                       vpd := py_round
                                (match vopt with Some x => x | None => 0 end)
                                2 |};
         system := {| pump_active := cmd;
                      algorithm_state := d2;
                      alert := alert_message s4;
                      payload_battery_level := 85 |} |}.

Definition critical : string := "Critical: Pulse Irrigation".

(** The cycle is processed and publishes the label [critical]: the pump is
    requested (and, by [critical_cycle] below, the lock is off). *)
Definition requests_pump (np_exp : Q -> Q) (env : Env) (data : value)
    (s : PlantBrain) : bool :=
  existsb (fun p => String.eqb (algorithm_state (system p)) critical)
    (emitted (trace_of (sensor_data np_exp env data s))).

(** Every cycle of the sequence, run in order from [s], requests the
    pump. *)
Fixpoint continuous_request (np_exp : Q -> Q) (cycles : list (Env * value))
    (s : PlantBrain) : bool :=
  match cycles with
  | [] => true
  | (env, data) :: rest =>
      requests_pump np_exp env data s
      && continuous_request np_exp rest
           (state_of (sensor_data np_exp env data s))
  end.

(** The time at which the activation running in a cycle started: the
    stored one when the pump is already running, else this cycle's own
    reading on the Idle-to-Running edge. *)
Definition activation_start (env : Env) (s : PlantBrain) : Q :=
  if pump_status s then last_pump_time s else t_edge env.

(** The three smoothing windows of a brain. *)
Definition buffers_of (s : PlantBrain)
    : list value * list value * list value :=
  (soil_buffer s, temp_buffer s, light_buffer s).

(** A handler that leaves the windows alone, however it ends. *)
Definition keeps_buffers {A} (c : M A) : Prop :=
  forall s, buffers_of (state_of (c s)) = buffers_of s.

(** The three channel samples of each record of a sequence of cycles, when
    every record carries them. *)
Fixpoint samples (cycles : list (Env * value))
    : option (list (value * value * value)) :=
  match cycles with
  | [] => Some []
  | (_, data) :: rest =>
      match getitem data (KStr "soil_moisture"),
            getitem data (KStr "temperature"),
            getitem data (KStr "light_intensity"), samples rest with
      | Ok xs, Ok xt, Ok xl, Some l => Some ((xs, xt, xl) :: l)
      | _, _, _, _ => None
      end
  end.

Definition soil_of (x : value * value * value) : value := fst (fst x).
Definition temp_of (x : value * value * value) : value := snd (fst x).
Definition light_of (x : value * value * value) : value := snd x.

(** The fields a sensor record is expected to carry, and the three of them
    that feed the windows. *)
Definition required_fields : list string :=
  ["soil_moisture"; "temperature"; "light_intensity"; "nitrogen";
   "phosphorus"; "potassium"]%string.

Definition channel_fields : list string :=
  ["soil_moisture"; "temperature"; "light_intensity"]%string.

(** A required field that is missing or not a number. *)
Definition invalid_field (data : value) (f : string) : bool :=
  match getitem data (KStr f) with
  | Raise _ => true
  | Ok v => match as_number v with Some _ => false | None => true end
  end.

Definition invalid_record (data : value) : bool :=
  existsb (invalid_field data) required_fields.

(** ** Inputs for running the model *)

(** A rational stand-in for [np.exp], the Taylor polynomial of degree 11,
    to run the handler on concrete records. *)
Fixpoint exp_terms (n : nat) (k : Z) (term x : Q) : Q :=
  match n with
  | O => 0
  | S n' => term + exp_terms n' (k + 1) (Qred (term * x / inject_Z k)) x
  end.

Definition exp_approx (x : Q) : Q := Qred (exp_terms 12 1 1 x).

Definition record (s t l n p k : Q) : value :=
  VDict [("soil_moisture"%string, VNum s); ("temperature"%string, VNum t);
         ("light_intensity"%string, VNum l); ("nitrogen"%string, VNum n);
         ("phosphorus"%string, VNum p); ("potassium"%string, VNum k)].

(** A record without [temperature]. *)
Definition record_no_temperature : value :=
  VDict [("soil_moisture"%string, VNum (50 # 1));
         ("light_intensity"%string, VNum (300 # 1));
         ("nitrogen"%string, VNum (50 # 1));
         ("phosphorus"%string, VNum (50 # 1));
         ("potassium"%string, VNum (50 # 1))].

(** A record whose [phosphorus] is a string. *)
Definition record_text_phosphorus : value :=
  VDict [("soil_moisture"%string, VNum (90 # 1));
         ("temperature"%string, VNum (30 # 1));
         ("light_intensity"%string, VNum (300 # 1));
         ("nitrogen"%string, VNum (50 # 1));
         ("phosphorus"%string, VStr "n/a");
         ("potassium"%string, VNum (50 # 1))].

(** A cycle whose clock reads [now] at every call site and whose weather
    request, if made, cannot connect. *)
Definition env_at (now : Q) : Env :=
  {| t_weather := now; http := ConnFail; t_edge := now; t_check := now;
     strftime := "12:00:00" |}.

(** The same with a weather response reporting [cond]. *)
Definition env_weather (now : Q) (cond : string) (t h : Q) : Env :=
  {| t_weather := now;
     http := BodyJson
               (VDict [("cod"%string, VNum (200 # 1));
                       ("weather"%string,
                         VList [VDict [("main"%string, VStr cond)]]);
                       ("main"%string,
                         VDict [("temp"%string, VNum t);
                                ("humidity"%string, VNum h)])]);
     t_edge := now; t_check := now; strftime := "12:00:00" |}.

(** A brain that has seen one sample per channel (soil 30, temperature 28,
    light 300), and a record repeating those samples with low nutrients:
    dry soil under a mild VPD. *)
Definition warm : PlantBrain :=
  observe (VNum (30 # 1)) (VNum (28 # 1)) (VNum (300 # 1)) init.

Definition dry_record : value :=
  record (30 # 1) (28 # 1) (300 # 1) (50 # 1) (50 # 1) (50 # 1).

(** A record of saturated soil, as in the scenario soil = [90, 88]. *)
Definition wet_record (soil_moisture : Q) : value :=
  record soil_moisture (30 # 1) (300 # 1) (50 # 1) (50 # 1) (50 # 1).

(** The first cycle on [warm] with [dry_record], at clock reading 0. *)
Abbreviation dry_cycle :=
  (sensor_data exp_approx (env_at 0) dry_record warm) (only parsing).

(** ** The other socket handlers *)

(** What the handlers outside the decision loop print. *)
Inductive console : Type :=
| ClientConnected (sid : string)
| ManualPumpActivation
| ClientDisconnected (sid : string).

(** An effect of the server: one of the decision loop or a console line
    of another handler. *)
Inductive output : Type :=
| Brain (e : event)
| Console (c : console).

(** [connect(sid, environ)] *)
Definition connect (sid : string) (s : PlantBrain)
    : result unit * PlantBrain * list output :=
  (Ok tt, s, [Console (ClientConnected sid)]).

(** [manual_control(sid, data)] *)
Definition manual_control (data : value) (s : PlantBrain)
    : result unit * PlantBrain * list output :=
  match getitem data (KStr "action") with
  | Raise e => (Raise e, s, [])
  | Ok action =>
      if eq_string action "pump_on"
      then (Ok tt, s, [Console ManualPumpActivation])
      else (Ok tt, s, [])
  end.

(** [disconnect(sid)] *)
Definition disconnect (sid : string) (s : PlantBrain)
    : result unit * PlantBrain * list output :=
  (Ok tt, s, [Console (ClientDisconnected sid)]).

(** An event delivered to the server, with what the handler reads from
    the outside world. *)
Inductive request : Type :=
| Connect (sid : string)
| SensorData (env : Env) (data : value)
| ManualControl (data : value)
| Disconnect (sid : string).

(** The handler the event is dispatched to, on the one [plant]. *)
Definition serve (np_exp : Q -> Q) (req : request) (s : PlantBrain)
    : result unit * PlantBrain * list output :=
  match req with
  | Connect sid => connect sid s
  | SensorData env data =>
      match sensor_data np_exp env data s with
      | (r, s', t) => (r, s', map Brain t)
      end
  | ManualControl data => manual_control data s
  | Disconnect sid => disconnect sid s
  end.

(** Events served in arrival order; an exception ends its own handler
    only.  Returns the brain after them and everything they output. *)
Fixpoint serve_all (np_exp : Q -> Q) (reqs : list request) (s : PlantBrain)
    : PlantBrain * list output :=
  match reqs with
  | [] => (s, [])
  | req :: rest =>
      match serve np_exp req s with
      | (_, s', t) =>
          match serve_all np_exp rest s' with
          | (s'', t') => (s'', t ++ t')
          end
      end
  end.

(** The sensor cycles among the events. *)
Fixpoint sensor_cycles (reqs : list request) : list (Env * value) :=
  match reqs with
  | [] => []
  | SensorData env data :: rest => (env, data) :: sensor_cycles rest
  | _ :: rest => sensor_cycles rest
  end.

(** The records published among the outputs. *)
Fixpoint published (t : list output) : list Payload :=
  match t with
  | [] => []
  | Brain (Emit p) :: t' => p :: published t'
  | _ :: t' => published t'
  end.

(** The records published by cycles run in order from [s]. *)
Fixpoint exec_emitted (np_exp : Q -> Q) (cycles : list (Env * value))
    (s : PlantBrain) : list Payload :=
  match cycles with
  | [] => []
  | (env, data) :: rest =>
      match sensor_data np_exp env data s with
      | (_, s', t) => emitted t ++ exec_emitted np_exp rest s'
      end
  end.

(** ** Further notions used in the statements *)

(** A handler that keeps the property [I] of the brain, however it ends. *)
Definition preserves (I : PlantBrain -> Prop) {A} (c : M A) : Prop :=
  forall s, I s -> I (state_of (c s)).

(** No window is over its capacity. *)
Definition windows_bounded (s : PlantBrain) : Prop :=
  (length (soil_buffer s) <= maxlen)%nat
  /\ (length (temp_buffer s) <= maxlen)%nat
  /\ (length (light_buffer s) <= maxlen)%nat.

(** The alert texts the program ever stores. *)
Definition known_alerts : list string :=
  ["System Normal"; "Soil too wet! Pump disabled.";
   "High Temp! Watering paused."; "Nutrient Burn Risk! Flush soil.";
   "Pump Timeout (Safety)"]%string.

(** The decision labels the program ever publishes. *)
Definition known_labels : list string :=
  ["Optimal"; "Saturation Lock"; "Heat Stress"; "Salinity Risk";
   "Raining (Passive)"; "High Transpiration";
   "Critical: Pulse Irrigation"]%string.

(** A value arithmetic accepts. *)
Definition is_number (v : value) : bool :=
  match as_number v with Some _ => true | None => false end.

(** The saturation vapour pressure of [calculate_vpd]. *)
Definition svp (np_exp : Q -> Q) (temp : Q) : Q :=
  0.6108 * np_exp ((17.27 * temp) / (temp + 237.3)).

(** A weather response with status ok and the three fields read. *)
Definition weather_ok (cond t h : value) : http_result :=
  BodyJson (VDict [("cod"%string, VNum (200 # 1));
                   ("weather"%string,
                     VList [VDict [("main"%string, cond)]]);
                   ("main"%string,
                     VDict [("temp"%string, t); ("humidity"%string, h)])]).

(** The pump is not recorded as running under a lock. *)
Definition pump_safe (s : PlantBrain) : Prop :=
  pump_status s = true -> pump_lock s = false.

(** The stored alert is one of the known texts. *)
Definition alert_known (s : PlantBrain) : Prop :=
  In (alert_message s) known_alerts.

(** A handler that issues at most [n] weather requests. *)
Definition fetch_le (n : nat) {A} (c : M A) : Prop :=
  forall s, (fetches (trace_of (c s)) <= n)%nat.

(** A record whose [temperature] is a string. *)
Definition record_text_temperature : value :=
  VDict [("soil_moisture"%string, VNum (30 # 1));
         ("temperature"%string, VStr "hot");
         ("light_intensity"%string, VNum (300 # 1));
         ("nitrogen"%string, VNum (50 # 1));
         ("phosphorus"%string, VNum (50 # 1));
         ("potassium"%string, VNum (50 # 1))].

(** * Properties *)

(** ** Comparisons *)

Lemma Qltb_true (a b : Q) : Qltb a b = true <-> a < b.
Proof.
  unfold Qltb. rewrite Qlt_alt.
  destruct (a ?= b); split; congruence.
Qed.

Lemma Qltb_false (a b : Q) : Qltb a b = false <-> b <= a.
Proof.
  rewrite <- not_true_iff_false, Qltb_true. split.
  - apply Qnot_lt_le.
  - apply Qle_not_lt.
Qed.

(** ** The smoothing windows *)

Lemma append_room (w : list value) (x : value) :
  (length w < maxlen)%nat -> append w x = w ++ [x].
Proof.
  intros H. unfold append.
  destruct (Nat.ltb_spec maxlen (length (w ++ [x]))) as [Hlt | _]; [ | easy].
  rewrite length_app in Hlt. simpl in Hlt. lia.
Qed.

Lemma append_full (w : list value) (x : value) :
  length w = maxlen -> append w x = tl w ++ [x].
Proof.
  intros H. unfold append.
  destruct (Nat.ltb_spec maxlen (length (w ++ [x]))) as [_ | Hge].
  - destruct w; [discriminate H | reflexivity].
  - rewrite length_app in Hge. simpl in Hge. lia.
Qed.

Lemma length_append (w : list value) (x : value) :
  (length w <= maxlen)%nat ->
  length (append w x) = Nat.min maxlen (S (length w)).
Proof.
  intros H. destruct (Nat.eq_dec (length w) maxlen) as [E | E].
  - rewrite append_full, length_app by exact E.
    destruct w; [discriminate E | ].
    simpl length in *. rewrite <- E. lia.
  - rewrite append_room, length_app by lia. simpl length. lia.
Qed.

Lemma append_last (w : list value) (x : value) :
  exists w', append w x = w' ++ [x].
Proof.
  destruct w as [ | y w].
  - exists []. reflexivity.
  - unfold append. destruct (maxlen <? length ((y :: w) ++ [x]))%nat.
    + exists w. reflexivity.
    + exists (y :: w). reflexivity.
Qed.

Lemma window_snoc (vs : list value) (x : value) :
  window (vs ++ [x]) = append (window vs) x.
Proof. unfold window. rewrite fold_left_app. reflexivity. Qed.

Lemma window_last_n (vs : list value) : window vs = last_n maxlen vs.
Proof.
  unfold last_n. pose proof (eq_refl : maxlen = 5%nat) as Hm.
  induction vs as [ | x vs IH] using rev_ind; [reflexivity | ].
  rewrite window_snoc, IH, length_app. simpl length.
  destruct (Nat.lt_ge_cases (length vs) maxlen) as [Hlt | Hge].
  - replace (length vs - maxlen)%nat with 0%nat by lia.
    replace (length vs + 1 - maxlen)%nat with 0%nat by lia.
    simpl skipn. apply append_room. exact Hlt.
  - assert (Hlen : length (skipn (length vs - maxlen) vs) = maxlen)
      by (rewrite length_skipn; lia).
    rewrite append_full by exact Hlen.
    replace (length vs + 1 - maxlen)%nat
      with (1 + (length vs - maxlen))%nat by lia.
    rewrite <- skipn_skipn.
    rewrite (skipn_app (length vs - maxlen)).
    replace (length vs - maxlen - length vs)%nat with 0%nat by lia.
    simpl skipn at 3.
    destruct (skipn (length vs - maxlen) vs); [ | reflexivity].
    simpl in Hlen. lia.
Qed.

Lemma sum_from_numbers (vs : list value) (qs : list Q) (acc : Q) :
  Forall2 (fun v q => as_number v = Some q) vs qs ->
  sum_from acc vs = Ok (fold_left Qplus qs acc).
Proof.
  intros H. revert acc.
  induction H as [ | v q vs qs Hv _ IH]; intros acc; simpl.
  - reflexivity.
  - rewrite Hv. apply IH.
Qed.

Lemma mean_numbers (vs : list value) (qs : list Q) :
  vs <> [] ->
  Forall2 (fun v q => as_number v = Some q) vs qs ->
  mean vs = Ok (arithmetic_mean qs).
Proof.
  intros Hne H. unfold mean, py_sum, arithmetic_mean.
  rewrite (sum_from_numbers vs qs 0 H).
  rewrite <- (Forall2_length H).
  destruct vs; [congruence | reflexivity].
Qed.

(** ** Running handlers *)

Lemma bind_ok {A B} (c : M A) (f : A -> M B) s a s1 t1 :
  c s = (Ok a, s1, t1) ->
  bind c f s = (result_of (f a s1), state_of (f a s1), t1 ++ trace_of (f a s1)).
Proof.
  intros H. unfold bind. rewrite H.
  destruct (f a s1) as [[r s2] t2]. reflexivity.
Qed.

Lemma bind_raise {A B} (c : M A) (f : A -> M B) s e s1 t1 :
  c s = (Raise e, s1, t1) -> bind c f s = (Raise e, s1, t1).
Proof. intros H. unfold bind. rewrite H. reflexivity. Qed.

Lemma bind_inv {A B} (c : M A) (f : A -> M B) s r s' t :
  bind c f s = (r, s', t) ->
  (exists a s1 t1 t2,
      c s = (Ok a, s1, t1) /\ f a s1 = (r, s', t2) /\ t = t1 ++ t2)
  \/ (exists e, c s = (Raise e, s', t) /\ r = Raise e).
Proof.
  unfold bind. destruct (c s) as [[[a | e] s1] t1].
  - destruct (f a s1) as [[r2 s2] t2] eqn:E. intros H. inversion H; subst.
    left. exists a, s1, t1, t2. auto.
  - intros H. inversion H; subst. right. exists e. auto.
Qed.

Lemma fetches_app (t1 t2 : list event) :
  fetches (t1 ++ t2) = (fetches t1 + fetches t2)%nat.
Proof.
  induction t1 as [ | e t1 IH]; [reflexivity | ].
  destruct e; simpl; rewrite IH; reflexivity.
Qed.

Lemma emitted_app (t1 t2 : list event) :
  emitted (t1 ++ t2) = emitted t1 ++ emitted t2.
Proof.
  induction t1 as [ | e t1 IH]; [reflexivity | ].
  destruct e; simpl; rewrite IH; reflexivity.
Qed.

(** ** The weather cache *)

(** Whatever the response, the [try] issues exactly one request, publishes
    nothing and touches the weather fields only. *)
Lemma fetch_weather_trace (resp : http_result) (s : PlantBrain) :
  fetches (trace_of (fetch_weather resp s)) = 1%nat
  /\ emitted (trace_of (fetch_weather resp s)) = [].
Proof.
  unfold fetch_weather, requests_get_json, bind, tell, lift, ret, modify.
  destruct resp as [ | | data]; simpl; auto.
  destruct (dict_get data "cod") as [cod | e]; simpl; auto.
  destruct (eq_number cod 200); simpl; auto.
  destruct (getitem data (KStr "weather")) as [w | e]; simpl; auto.
  destruct (getitem w (KInt 0)) as [w0 | e]; simpl; auto.
  destruct (getitem w0 (KStr "main")) as [c | e]; simpl; auto.
  destruct (getitem data (KStr "main")) as [m | e]; simpl; auto.
  destruct (getitem m (KStr "temp")) as [t | e]; simpl; auto.
  destruct (getitem m (KStr "humidity")) as [h | e]; simpl; auto.
Qed.

Lemma get_weather_cached (now : Q) (resp : http_result) (s : PlantBrain) :
  now - last_weather_fetch s < 600 ->
  get_weather now resp s = (Ok tt, s, []).
Proof.
  intros H. apply Qltb_true in H.
  unfold get_weather, bind, get, ret. simpl. rewrite H. reflexivity.
Qed.

Lemma get_weather_refresh (now : Q) (resp : http_result) (s : PlantBrain) :
  600 <= now - last_weather_fetch s ->
  result_of (get_weather now resp s) = Ok tt
  /\ last_weather_fetch (state_of (get_weather now resp s)) = now
  /\ fetches (trace_of (get_weather now resp s)) = 1%nat
  /\ emitted (trace_of (get_weather now resp s)) = [].
Proof.
  intros H. apply Qltb_false in H.
  destruct (fetch_weather_trace resp s) as [Hf He]. revert Hf He.
  unfold get_weather, bind, get, ret, try_except, modify, tell. simpl.
  rewrite H.
  destruct (fetch_weather resp s) as [[[[] | e] s1] t1]; simpl;
    intros Hf He; rewrite ?app_nil_r, ?fetches_app, ?emitted_app, ?Hf, ?He;
    auto.
Qed.

(** A failure that raises before any weather field is assigned (no
    connection, a body that is not JSON, a JSON body that is not an
    object): the handler of the [try] runs on an untouched brain. *)
Lemma get_weather_unreachable (now : Q) (resp : http_result) (s : PlantBrain) :
  600 <= now - last_weather_fetch s ->
  match resp with
  | ConnFail | BodyNotJson => True
  | BodyJson (VDict _) => False
  | BodyJson _ => True
  end ->
  get_weather now resp s
  = (Ok tt,
     set_last_weather_fetch now (set_weather_condition (VStr "Clouds") s),
     [HttpGet; Print WeatherUnavailable]).
Proof.
  intros H Hresp. apply Qltb_false in H.
  unfold get_weather, bind, get, ret, try_except, modify, tell. simpl.
  rewrite H.
  destruct resp as [ | | [ | b | q | x | l | d]]; try reflexivity.
  contradiction.
Qed.

Lemma fetch_times_spaced (calls : list (Q * http_result)) :
  forall s,
    Forall (fun a => last_weather_fetch s + 600 <= a) (fetch_times calls s)
    /\ StronglySorted (fun a b => a + 600 <= b) (fetch_times calls s).
Proof.
  induction calls as [ | [now resp] rest IH]; intros s; simpl.
  - split; constructor.
  - destruct (Qlt_le_dec (now - last_weather_fetch s) 600) as [Hlt | Hge].
    + rewrite (get_weather_cached now resp s Hlt). simpl. apply IH.
    + destruct (get_weather_refresh now resp s Hge) as (_ & Hlast & Hf & _).
      rewrite Hf. simpl.
      destruct (IH (state_of (get_weather now resp s))) as [Hall Hsorted].
      rewrite Hlast in Hall. split.
      * constructor; [lra | ].
        eapply Forall_impl; [ | exact Hall]. simpl. intros a Ha. lra.
      * constructor; assumption.
Qed.

(** C6 - The weather cache issues at most one external request per 600
    seconds, whether the refresh succeeds or fails: a call made less than
    600 s after the stored fetch time returns with the brain unchanged and
    no request; a call past the throttle issues exactly one request and
    stores its own time, whatever the response; of two calls less than
    600 s apart, the first past the throttle, only the first issues a
    request, while two such calls 601 s apart issue one request each; and
    over any sequence of calls the requests are at least 600 s apart. *)
Theorem weather_throttle :
  (forall now resp s,
      now - last_weather_fetch s < 600 ->
      get_weather now resp s = (Ok tt, s, []))
  /\ (forall now resp s,
         600 <= now - last_weather_fetch s ->
         fetches (trace_of (get_weather now resp s)) = 1%nat
         /\ last_weather_fetch (state_of (get_weather now resp s)) = now)
  /\ (forall now1 resp1 now2 resp2 s,
         600 <= now1 - last_weather_fetch s ->
         let out1 := get_weather now1 resp1 s in
         let out2 := get_weather now2 resp2 (state_of out1) in
         (now2 - now1 < 600 ->
          fetches (trace_of out1) = 1%nat
          /\ fetches (trace_of out2) = 0%nat
          /\ state_of out2 = state_of out1)
         /\ (now2 == now1 + 601 ->
             fetches (trace_of out1) = 1%nat
             /\ fetches (trace_of out2) = 1%nat))
  /\ (forall calls s,
         StronglySorted (fun a b => a + 600 <= b) (fetch_times calls s)).
Proof.
  split; [exact get_weather_cached | ].
  split; [intros now resp s H;
          destruct (get_weather_refresh now resp s H) as (_ & ? & ? & _);
          auto | ].
  split; [ | intros calls s; apply fetch_times_spaced].
  intros now1 resp1 now2 resp2 s H1. cbv zeta.
  destruct (get_weather_refresh now1 resp1 s H1) as (_ & Hlast & Hf & _).
  split.
  - intros Hclose.
    rewrite <- Hlast in Hclose at 1.
    rewrite (get_weather_cached now2 resp2 _ Hclose). auto.
  - intros Hfar.
    assert (Hge : 600 <= now2 - last_weather_fetch
                                  (state_of (get_weather now1 resp1 s)))
      by (rewrite Hlast; lra).
    destruct (get_weather_refresh now2 resp2 _ Hge) as (_ & _ & Hf2 & _).
    auto.
Qed.

(** C1 - On a response that fails with a status that is not ok the stored
    condition is NOT set to the fallback: from the initial brain it stays
    "Unknown" (only the fetch time advances); and on a status-ok response
    whose [main] lacks [humidity] the condition becomes "Clouds" but
    [outside_temp] has already been overwritten (25 instead of 30). *)
Theorem weather_failure_not_uniform :
  get_weather (1000 # 1) resp_unauthorized init
  = (Ok tt, set_last_weather_fetch (1000 # 1) init, [HttpGet])
  /\ weather_condition
       (state_of (get_weather (1000 # 1) resp_unauthorized init))
     = VStr "Unknown"
  /\ state_of (get_weather (1000 # 1) resp_no_humidity init)
     = set_last_weather_fetch (1000 # 1)
         (set_weather_condition (VStr "Clouds")
            (set_outside_temp (VNum (25 # 1)) init)).
Proof. repeat split. Qed.

(** ** The safety layer *)

Lemma eq_string_true (v : value) (s : string) :
  eq_string v s = true <-> v = VStr s.
Proof.
  destruct v; simpl; try (split; [discriminate | congruence]).
  rewrite String.eqb_eq. split; congruence.
Qed.

Lemma eq_string_false (v : value) (s : string) :
  eq_string v s = false <-> v <> VStr s.
Proof. rewrite <- not_true_iff_false, eq_string_true. tauto. Qed.

Lemma safety_layer_wet (avg_soil avg_temp : Q) data decision s :
  80 < avg_soil ->
  safety_layer avg_soil avg_temp data decision s
  = (Ok "Saturation Lock"%string,
     set_alert_message "Soil too wet! Pump disabled." (set_pump_lock true s),
     []).
Proof.
  intros H. apply Qltb_true in H. unfold safety_layer. rewrite H.
  reflexivity.
Qed.

Lemma safety_layer_hot (avg_soil avg_temp : Q) data decision s :
  avg_soil <= 80 -> 35 < avg_temp ->
  safety_layer avg_soil avg_temp data decision s
  = (Ok "Heat Stress"%string,
     set_alert_message "High Temp! Watering paused." (set_pump_lock true s),
     []).
Proof.
  intros H1 H2. apply Qltb_false in H1. apply Qltb_true in H2.
  unfold safety_layer. rewrite H1, H2. reflexivity.
Qed.

Lemma safety_layer_nutrients (avg_soil avg_temp : Q) data decision s
    (vn vk : value) (n k : Q) :
  avg_soil <= 80 -> avg_temp <= 35 ->
  getitem data (KStr "nitrogen") = Ok vn -> as_number vn = Some n ->
  getitem data (KStr "potassium") = Ok vk -> as_number vk = Some k ->
  safety_layer avg_soil avg_temp data decision s
  = if Qltb 200 n || Qltb 200 k then
      (Ok "Salinity Risk"%string,
       set_alert_message "Nutrient Burn Risk! Flush soil."
         (set_pump_lock true s),
       [])
    else
      (Ok decision, set_alert_message "System Normal" (set_pump_lock false s),
       []).
Proof.
  intros H1 H2 Hn Hqn Hk Hqk. apply Qltb_false in H1, H2.
  unfold safety_layer, bind, lift, gt_number, ret, modify.
  rewrite H1, H2, Hn, Hqn. simpl.
  destruct (Qltb 200 n); simpl; [reflexivity | ].
  rewrite Hk, Hqk. simpl. destruct (Qltb 200 k); reflexivity.
Qed.

(** The rules of the safety layer, first match first. *)
Lemma safety_layer_rules (avg_soil avg_temp : Q) (data : value)
    (s : PlantBrain) :
  (80 < avg_soil ->
   safety_layer avg_soil avg_temp data "Optimal" s
   = (Ok "Saturation Lock"%string,
      set_alert_message "Soil too wet! Pump disabled." (set_pump_lock true s),
      []))
  /\ (avg_soil <= 80 -> 35 < avg_temp ->
      safety_layer avg_soil avg_temp data "Optimal" s
      = (Ok "Heat Stress"%string,
         set_alert_message "High Temp! Watering paused."
           (set_pump_lock true s),
         []))
  /\ (forall vn vk n k,
         getitem data (KStr "nitrogen") = Ok vn -> as_number vn = Some n ->
         getitem data (KStr "potassium") = Ok vk -> as_number vk = Some k ->
         avg_soil <= 80 -> avg_temp <= 35 ->
         (200 < n \/ 200 < k ->
          safety_layer avg_soil avg_temp data "Optimal" s
          = (Ok "Salinity Risk"%string,
             set_alert_message "Nutrient Burn Risk! Flush soil."
               (set_pump_lock true s),
             []))
         /\ (n <= 200 -> k <= 200 ->
             safety_layer avg_soil avg_temp data "Optimal" s
             = (Ok "Optimal"%string,
                set_alert_message "System Normal" (set_pump_lock false s),
                [])))
  /\ safety_layer (85 # 1) (40 # 1) data "Optimal" s
     = (Ok "Saturation Lock"%string,
        set_alert_message "Soil too wet! Pump disabled."
          (set_pump_lock true s),
        []).
Proof.
  split; [apply safety_layer_wet | ].
  split; [apply safety_layer_hot | ].
  split; [ | apply safety_layer_wet; reflexivity].
  intros vn vk n k Hn Hqn Hk Hqk H1 H2.
  rewrite (safety_layer_nutrients _ _ _ _ _ vn vk n k H1 H2 Hn Hqn Hk Hqk).
  split.
  - intros [H | H]; apply Qltb_true in H; rewrite H;
      rewrite ?orb_true_r; reflexivity.
  - intros Hn' Hk'. apply Qltb_false in Hn', Hk'. rewrite Hn', Hk'.
    reflexivity.
Qed.

(** ** The intelligence layer and the pulse logic *)

Lemma pulse_logic_eq (now_edge now_check : Q) (s : PlantBrain) :
  pulse_logic now_edge now_check s
  = let s1 := if pump_status s then s else set_last_pump_time now_edge s in
    if Qltb 10 (now_check - last_pump_time s1)
    then (Ok false, set_alert_message "Pump Timeout (Safety)" s1, [])
    else (Ok true, s1, []).
Proof.
  unfold pulse_logic, bind, get, modify, ret.
  destruct (pump_status s); simpl;
    match goal with |- context [Qltb ?a ?b] => destruct (Qltb a b) end;
    reflexivity.
Qed.

Lemma adjust_threshold_cases (cond : value) (v : Q) (decision : string) :
  (cond = VStr "Rain" ->
   adjust_threshold cond v decision = (20.0, "Raining (Passive)"%string))
  /\ (cond <> VStr "Rain" -> 1.2 < v ->
      adjust_threshold cond v decision = (50.0, "High Transpiration"%string))
  /\ (cond <> VStr "Rain" -> v <= 1.2 ->
      adjust_threshold cond v decision = (40.0, decision)).
Proof.
  unfold adjust_threshold. repeat split.
  - intros H. apply eq_string_true in H. rewrite H. reflexivity.
  - intros H Hv. apply eq_string_false in H. apply Qltb_true in Hv.
    rewrite H, Hv. reflexivity.
  - intros H Hv. apply eq_string_false in H. apply Qltb_false in Hv.
    rewrite H, Hv. reflexivity.
Qed.

Section Intelligence.

Variable np_exp : Q -> Q.

Lemma intelligence_layer_locked env avg_soil avg_temp decision cmd s :
  pump_lock s = true ->
  intelligence_layer np_exp env avg_soil avg_temp decision cmd s
  = (Ok (decision, cmd, None), s, []).
Proof.
  intros H. unfold intelligence_layer, bind, get, ret. simpl. rewrite H.
  reflexivity.
Qed.

Lemma intelligence_layer_unlocked env avg_soil avg_temp decision cmd s v :
  pump_lock s = false ->
  calculate_vpd np_exp avg_temp (outside_humidity s) = Ok v ->
  intelligence_layer np_exp env avg_soil avg_temp decision cmd s
  = let '(thr, d) := adjust_threshold (weather_condition s) v decision in
    if Qltb avg_soil thr then
      let out := pulse_logic (t_edge env) (t_check env) s in
      (match result_of out with
       | Ok c => Ok ("Critical: Pulse Irrigation"%string, c, Some v)
       | Raise e => Raise e
       end, state_of out, trace_of out)
    else (Ok (d, cmd, Some v), s, []).
Proof.
  intros H Hv. unfold intelligence_layer, bind, get, ret, lift. simpl.
  rewrite H, Hv. simpl.
  destruct (adjust_threshold (weather_condition s) v decision) as [thr d].
  destruct (Qltb avg_soil thr); [ | reflexivity].
  rewrite pulse_logic_eq. cbv zeta.
  match goal with |- context [Qltb ?a ?b] => destruct (Qltb a b) end;
    reflexivity.
Qed.

(** The policy of the intelligence layer, entered with the label
    "Optimal" when the lock is off. *)
Lemma intelligence_layer_rules (env : Env) (avg_soil avg_temp : Q)
    (s : PlantBrain) :
  (pump_lock s = true ->
   forall decision,
     intelligence_layer np_exp env avg_soil avg_temp decision false s
     = (Ok (decision, false, None), s, []))
  /\ (pump_lock s = false ->
      forall v,
        calculate_vpd np_exp avg_temp (outside_humidity s) = Ok v ->
        exists thr d,
          adjust_threshold (weather_condition s) v "Optimal" = (thr, d)
          /\ (weather_condition s = VStr "Rain" ->
              thr = 20.0 /\ d = "Raining (Passive)"%string)
          /\ (weather_condition s <> VStr "Rain" -> 1.2 < v ->
              thr = 50.0 /\ d = "High Transpiration"%string)
          /\ (weather_condition s <> VStr "Rain" -> v <= 1.2 ->
              thr = 40.0 /\ d = "Optimal"%string)
          /\ (avg_soil < thr ->
              exists cmd s',
                pulse_logic (t_edge env) (t_check env) s = (Ok cmd, s', [])
                /\ intelligence_layer np_exp env avg_soil avg_temp "Optimal"
                     false s
                   = (Ok ("Critical: Pulse Irrigation"%string, cmd, Some v),
                      s', []))
          /\ (thr <= avg_soil ->
              intelligence_layer np_exp env avg_soil avg_temp "Optimal"
                false s
              = (Ok (d, false, Some v), s, [])
              /\ d <> "Critical: Pulse Irrigation"%string)).
Proof.
  split; [intros H decision; apply intelligence_layer_locked; exact H | ].
  intros Hlock v Hv.
  rewrite (intelligence_layer_unlocked _ _ _ _ _ _ v Hlock Hv).
  destruct (adjust_threshold_cases (weather_condition s) v "Optimal")
    as (Hrain & Hdry & Hdef).
  destruct (adjust_threshold (weather_condition s) v "Optimal") as [thr d]
    eqn:E.
  exists thr, d. split; [reflexivity | ].
  split; [intros H; specialize (Hrain H); inversion Hrain; auto | ].
  split; [intros H H'; specialize (Hdry H H'); inversion Hdry; auto | ].
  split; [intros H H'; specialize (Hdef H H'); inversion Hdef; auto | ].
  split.
  - intros Hlt. apply Qltb_true in Hlt. rewrite Hlt.
    rewrite pulse_logic_eq. cbv zeta.
    match goal with |- context [Qltb ?a ?b] => destruct (Qltb a b) end;
      simpl; eauto.
  - intros Hge. apply Qltb_false in Hge. rewrite Hge.
    split; [reflexivity | ].
    unfold adjust_threshold in E.
    destruct (eq_string (weather_condition s) "Rain");
      [inversion E; discriminate | ].
    destruct (Qltb 1.2 v); inversion E; discriminate.
Qed.

End Intelligence.

(** ** One cycle, stage by stage *)

Lemma bind_lift_ok {A B} (a : A) (f : A -> M B) s :
  bind (lift (Ok a)) f s = f a s.
Proof. unfold bind, lift. destruct (f a s) as [[r s'] t]. reflexivity. Qed.

Lemma bind_lift_raise {A B} (e : exn) (f : A -> M B) s :
  bind (lift (Raise e)) f s = (Raise e, s, []).
Proof. reflexivity. Qed.

Lemma bind_modify {B} (g : PlantBrain -> PlantBrain) (f : unit -> M B) s :
  bind (modify g) f s = f tt (g s).
Proof. unfold bind, modify. destruct (f tt (g s)) as [[r s'] t]. reflexivity. Qed.

Lemma bind_get {B} (f : PlantBrain -> M B) s : bind get f s = f s s.
Proof. unfold bind, get. destruct (f s s) as [[r s'] t]. reflexivity. Qed.

Lemma bind_ret {A B} (a : A) (f : A -> M B) s : bind (ret a) f s = f a s.
Proof. unfold bind, ret. destruct (f a s) as [[r s'] t]. reflexivity. Qed.

Lemma bind_assoc {A B C} (c : M A) (g : A -> M B) (f : B -> M C) s :
  bind (bind c g) f s = bind c (fun a => bind (g a) f) s.
Proof.
  unfold bind. destruct (c s) as [[[a | e] s1] t1]; [ | reflexivity].
  destruct (g a s1) as [[[b | e] s2] t2]; [ | reflexivity].
  destruct (f b s2) as [[r s3] t3]. rewrite app_assoc. reflexivity.
Qed.

Ltac run :=
  repeat (rewrite ?bind_assoc, ?bind_lift_ok, ?bind_lift_raise, ?bind_modify,
          ?bind_get, ?bind_ret; cbv beta).

(** [get_weather] never raises, publishes nothing and touches the weather
    fields only. *)
Lemma fetch_weather_frame (resp : http_result) (s : PlantBrain) :
  same_except_weather s (state_of (fetch_weather resp s)).
Proof.
  unfold fetch_weather, requests_get_json, bind, tell, lift, ret, modify.
  destruct resp as [ | | data]; simpl; [repeat split .. | ].
  destruct (dict_get data "cod") as [cod | e]; simpl; [ | repeat split].
  destruct (eq_number cod 200); simpl; [ | repeat split].
  destruct (getitem data (KStr "weather")) as [w | e]; simpl;
    [ | repeat split].
  destruct (getitem w (KInt 0)) as [w0 | e]; simpl; [ | repeat split].
  destruct (getitem w0 (KStr "main")) as [c | e]; simpl; [ | repeat split].
  destruct (getitem data (KStr "main")) as [m | e]; simpl; [ | repeat split].
  destruct (getitem m (KStr "temp")) as [t | e]; simpl; [ | repeat split].
  destruct (getitem m (KStr "humidity")) as [h | e]; simpl; repeat split.
Qed.

Lemma get_weather_frame (now : Q) (resp : http_result) (s : PlantBrain) :
  result_of (get_weather now resp s) = Ok tt
  /\ emitted (trace_of (get_weather now resp s)) = []
  /\ same_except_weather s (state_of (get_weather now resp s)).
Proof.
  pose proof (fetch_weather_frame resp s) as Hfr.
  destruct (fetch_weather_trace resp s) as [_ Hem]. revert Hfr Hem.
  unfold get_weather, bind, get, ret, try_except, modify, tell. simpl.
  destruct (Qltb (now - last_weather_fetch s) 600); simpl;
    [intros _ _; repeat split | ].
  destruct (fetch_weather resp s) as [[[[] | e] s1] t1]; simpl;
    intros Hfr Hem; rewrite ?app_nil_r, ?emitted_app, ?Hem;
    (split; [reflexivity | split; [reflexivity | exact Hfr]]).
Qed.

(** The safety layer publishes nothing and writes [pump_lock] and
    [alert_message] only; it returns the label it was given exactly when
    it unlocks. *)
Lemma safety_layer_inv (avg_soil avg_temp : Q) data decision s r s' t :
  safety_layer avg_soil avg_temp data decision s = (r, s', t) ->
  t = [] /\ safety_outcome decision s r s'.
Proof.
  assert (Hfin : forall r0 s0,
             safety_outcome decision s r0 s0 ->
             (r0, s0, @nil event) = (r, s', t) ->
             t = [] /\ safety_outcome decision s r s')
    by (intros r0 s0 H0 E; inversion E; subst; auto).
  unfold safety_layer.
  destruct (Qltb 80 avg_soil);
    [run; apply Hfin; simpl; intuition discriminate | ].
  destruct (Qltb 35 avg_temp);
    [run; apply Hfin; simpl; intuition discriminate | ].
  destruct (getitem data (KStr "nitrogen")) as [vn | e]; run;
    [ | apply Hfin; reflexivity].
  destruct (gt_number vn 200) as [[ | ] | e]; run;
    [ | | apply Hfin; reflexivity].
  - apply Hfin; simpl; intuition discriminate.
  - destruct (getitem data (KStr "potassium")) as [vk | e]; run;
      [ | apply Hfin; reflexivity].
    destruct (gt_number vk 200) as [[ | ] | e]; run;
      apply Hfin; simpl; intuition discriminate.
Qed.

(** *** Stages that leave the windows alone *)

Lemma keeps_ret {A} (a : A) : keeps_buffers (ret a).
Proof. intros s. reflexivity. Qed.

Lemma keeps_lift {A} (r : result A) : keeps_buffers (lift r).
Proof. intros s. reflexivity. Qed.

Lemma keeps_get : keeps_buffers get.
Proof. intros s. reflexivity. Qed.

Lemma keeps_tell (e : event) : keeps_buffers (tell e).
Proof. intros s. reflexivity. Qed.

Lemma keeps_modify (f : PlantBrain -> PlantBrain) :
  (forall s, buffers_of (f s) = buffers_of s) -> keeps_buffers (modify f).
Proof. intros H s. apply H. Qed.

Lemma keeps_bind {A B} (c : M A) (f : A -> M B) :
  keeps_buffers c -> (forall a, keeps_buffers (f a)) ->
  keeps_buffers (bind c f).
Proof.
  intros Hc Hf s. specialize (Hc s). unfold bind.
  destruct (c s) as [[[a | e] s1] t1]; [ | exact Hc].
  specialize (Hf a s1). destruct (f a s1) as [[r s2] t2].
  unfold state_of in *. simpl in *. congruence.
Qed.

Lemma keeps_try {A} (body handler : M A) :
  keeps_buffers body -> keeps_buffers handler ->
  keeps_buffers (try_except body handler).
Proof.
  intros Hb Hh s. specialize (Hb s). unfold try_except.
  destruct (body s) as [[[a | e] s1] t1]; [exact Hb | ].
  specialize (Hh s1). destruct (handler s1) as [[r s2] t2].
  unfold state_of in *. simpl in *. congruence.
Qed.

Ltac keeps :=
  repeat first
    [ apply keeps_ret | apply keeps_lift | apply keeps_get | apply keeps_tell
    | apply keeps_modify; intros ?; reflexivity
    | apply keeps_bind; [ | intros ? ]
    | apply keeps_try
    | match goal with
      | |- keeps_buffers (if ?b then _ else _) => destruct b
      | |- keeps_buffers (match ?x with _ => _ end) => destruct x
      end ].

Lemma get_weather_keeps now resp : keeps_buffers (get_weather now resp).
Proof. unfold get_weather, fetch_weather, requests_get_json. keeps. Qed.

Lemma safety_layer_keeps avg_soil avg_temp data decision :
  keeps_buffers (safety_layer avg_soil avg_temp data decision).
Proof. unfold safety_layer. keeps. Qed.

Lemma pulse_logic_keeps now_edge now_check :
  keeps_buffers (pulse_logic now_edge now_check).
Proof. unfold pulse_logic. keeps. Qed.

Lemma output_payload_keeps env data avg_soil avg_temp avg_light decision v :
  keeps_buffers
    (output_payload env data avg_soil avg_temp avg_light decision v).
Proof. unfold output_payload. keeps. Qed.

Section Cycle.

Variable np_exp : Q -> Q.

Lemma intelligence_layer_inv env avg_soil avg_temp d1 s r s' t :
  intelligence_layer np_exp env avg_soil avg_temp d1 false s = (r, s', t) ->
  t = [] /\ intelligence_outcome np_exp env avg_soil avg_temp d1 s r s'.
Proof.
  unfold intelligence_layer. run.
  destruct (pump_lock s) eqn:Hlock; cbv [negb]; cbv beta iota.
  - unfold ret. intros H. inversion H; subst. split; [reflexivity | ].
    simpl. left. auto.
  - destruct (calculate_vpd np_exp avg_temp (outside_humidity s))
      as [v | e] eqn:Hv; run.
    + destruct (adjust_threshold (weather_condition s) v d1) as [thr d]
        eqn:Hadj.
      destruct (Qltb avg_soil thr) eqn:Hlt; cbv beta iota.
      * apply Qltb_true in Hlt.
        pose proof (pulse_logic_eq (t_edge env) (t_check env) s) as Hp.
        cbv zeta in Hp.
        destruct (Qltb 10 _) in Hp;
          rewrite (bind_ok _ _ _ _ _ _ Hp);
          unfold ret, result_of, state_of, trace_of; simpl;
          intros H; inversion H; subst; (split; [reflexivity | ]);
          right; (split; [exact Hlock | ]); exists v, thr, d; auto 10.
      * apply Qltb_false in Hlt. unfold ret. intros H. inversion H; subst.
        split; [reflexivity | ]. right. split; [exact Hlock | ].
        exists v, thr, d. auto 10.
    + intros H. inversion H; subst. simpl. auto.
Qed.

Lemma bind_step {A B} (c : M A) (f : A -> M B) s a s1 t1 r s2 t2 :
  c s = (Ok a, s1, t1) -> f a s1 = (r, s2, t2) ->
  bind c f s = (r, s2, t1 ++ t2).
Proof. intros H1 H2. unfold bind. rewrite H1, H2. reflexivity. Qed.

Lemma bind_step_nil {A B} (c : M A) (f : A -> M B) s a s1 r s2 t2 :
  c s = (Ok a, s1, []) -> f a s1 = (r, s2, t2) ->
  bind c f s = (r, s2, t2).
Proof. intros H1 H2. unfold bind. rewrite H1, H2. reflexivity. Qed.

(** A cycle either publishes nothing, or runs every stage and publishes
    exactly one record as its last effect. *)
Lemma sensor_data_cases env data s :
  exists r s' t,
    sensor_data np_exp env data s = (r, s', t)
    /\ (emitted t = []
        \/ exists p,
            r = Ok tt /\ processed np_exp env data s s' t p
            /\ emitted t = [p]).
Proof.
  unfold sensor_data.
  destruct (getitem data (KStr "soil_moisture")) as [xs | e] eqn:Exs; run;
    [ | eauto 6].
  destruct (getitem data (KStr "temperature")) as [xt | e] eqn:Ext; run;
    [ | eauto 6].
  destruct (getitem data (KStr "light_intensity")) as [xl | e] eqn:Exl; run;
    [ | eauto 6].
  change (set_light_buffer _ _) with (observe xs xt xl s).
  destruct (Nat.ltb_spec (length (soil_buffer (observe xs xt xl s))) 2)
    as [Hlen | Hlen]; [unfold ret; eauto 6 | ].
  destruct (mean (soil_buffer (observe xs xt xl s))) as [avg_soil | e]
    eqn:Eas; run; [ | eauto 6].
  destruct (mean (temp_buffer (observe xs xt xl s))) as [avg_temp | e]
    eqn:Eat; run; [ | eauto 6].
  destruct (mean (light_buffer (observe xs xt xl s))) as [avg_light | e]
    eqn:Eal; run; [ | eauto 6].
  destruct (get_weather_frame (t_weather env) (http env)
              (set_last_sent_soil avg_soil
                 (set_last_sent_temp avg_temp (observe xs xt xl s))))
    as (Hrw & Hew & _).
  destruct (get_weather (t_weather env) (http env)
              (set_last_sent_soil avg_soil
                 (set_last_sent_temp avg_temp (observe xs xt xl s))))
    as [[rw s2] tw] eqn:Ew.
  unfold result_of, trace_of in Hrw, Hew. simpl in Hrw, Hew. subst rw.
  destruct (safety_layer avg_soil avg_temp data "Optimal" s2)
    as [[rs s3] ts] eqn:Es.
  destruct (safety_layer_inv _ _ _ _ _ _ _ _ Es) as [-> _].
  destruct rs as [d1 | e].
  2: { eexists _, _, _. split.
       - eapply bind_step; [exact Ew | ]. apply bind_raise. exact Es.
       - left. rewrite app_nil_r. exact Hew. }
  destruct (intelligence_layer np_exp env avg_soil avg_temp d1 false s3)
    as [[ri s4] ti] eqn:Ei.
  destruct (intelligence_layer_inv _ _ _ _ _ _ _ _ Ei) as [-> _].
  destruct ri as [[[d2 cmd] vopt] | e].
  2: { eexists _, _, _. split.
       - eapply bind_step; [exact Ew | ].
         eapply bind_step; [exact Es | ]. apply bind_raise. exact Ei.
       - left. rewrite app_nil_r. exact Hew. }
  unfold output_payload.
  destruct (getitem data (KStr "nitrogen")) as [vn | e] eqn:Evn.
  2: { eexists _, _, _. split.
       - eapply bind_step; [exact Ew | ].
         eapply bind_step; [exact Es | ].
         eapply bind_step; [exact Ei | ]. run. reflexivity.
       - left. rewrite app_nil_r. exact Hew. }
  destruct (getitem data (KStr "phosphorus")) as [vp | e] eqn:Evp.
  2: { eexists _, _, _. split.
       - eapply bind_step; [exact Ew | ].
         eapply bind_step; [exact Es | ].
         eapply bind_step; [exact Ei | ]. run. reflexivity.
       - left. rewrite app_nil_r. exact Hew. }
  destruct (getitem data (KStr "potassium")) as [vk | e] eqn:Evk.
  2: { eexists _, _, _. split.
       - eapply bind_step; [exact Ew | ].
         eapply bind_step; [exact Es | ].
         eapply bind_step; [exact Ei | ]. run. reflexivity.
       - left. rewrite app_nil_r. exact Hew. }
  eexists _, _, _. split.
  - eapply bind_step; [exact Ew | ].
    eapply bind_step; [exact Es | ].
    eapply bind_step; [exact Ei | ]. run. unfold tell. reflexivity.
  - right. eexists. simpl app.
    split; [reflexivity | ].
    split; [ | rewrite emitted_app, Hew; reflexivity].
    eapply Processed; eassumption.
Qed.

Lemma sensor_data_published env data s r s' t p :
  sensor_data np_exp env data s = (r, s', t) ->
  In p (emitted t) ->
  r = Ok tt /\ emitted t = [p] /\ processed np_exp env data s s' t p.
Proof.
  intros E Hin.
  destruct (sensor_data_cases env data s) as (r0 & s0 & t0 & E0 & H).
  rewrite E in E0. inversion E0; subst r0 s0 t0.
  destruct H as [Hnone | (q & Hr & Hproc & Hq)].
  - rewrite Hnone in Hin. contradiction.
  - rewrite Hq in Hin. destruct Hin as [<- | []]. auto.
Qed.

Lemma processed_run env data s s' t p :
  processed np_exp env data s s' t p ->
  sensor_data np_exp env data s = (Ok tt, s', t).
Proof.
  intros H. destruct H. unfold sensor_data.
  rewrite H, H0, H1. run.
  change (set_light_buffer _ _) with (observe xs xt xl s).
  destruct (Nat.ltb_spec (length (soil_buffer (observe xs xt xl s))) 2)
    as [Hlen | _]; [lia | ].
  rewrite H3, H4, H5. run.
  eapply bind_step; [eassumption | ].
  eapply bind_step_nil; [eassumption | ].
  eapply bind_step_nil; [eassumption | ].
  unfold output_payload. rewrite H9, H10, H11. run. reflexivity.
Qed.

Lemma pulse_logic_frame now_edge now_check s r s' t :
  pulse_logic now_edge now_check s = (r, s', t) ->
  s' = set_alert_message (alert_message s')
         (set_last_pump_time (last_pump_time s') s).
Proof.
  rewrite pulse_logic_eq. cbv zeta.
  destruct s as [? ? ? ? ? [ | ] ? ? ? ? ? ? ? ?]; simpl;
    destruct (Qltb 10 _); intros H; inversion H; subst; reflexivity.
Qed.

Lemma intelligence_frame env avg_soil avg_temp d1 s r s' :
  intelligence_outcome np_exp env avg_soil avg_temp d1 s r s' ->
  s' = set_alert_message (alert_message s')
         (set_last_pump_time (last_pump_time s') s).
Proof.
  assert (Hid : forall s0 : PlantBrain,
             s0 = set_alert_message (alert_message s0)
                    (set_last_pump_time (last_pump_time s0) s0))
    by (intros []; reflexivity).
  destruct r as [[[d2 cmd] vopt] | e]; simpl.
  - intros [(_ & _ & _ & _ & ->) | (_ & v & thr & d & _ & _ & _ & H)];
      [apply Hid | ].
    destruct H as [(_ & _ & Hp) | (_ & _ & _ & ->)]; [ | apply Hid].
    eapply pulse_logic_frame. exact Hp.
  - intros [-> _]. apply Hid.
Qed.

(** The fields of the brain across the stages of a processed cycle:
    [s1] before the weather refresh, [s2] after it, [s3] after the safety
    layer, [s4] after the intelligence layer. *)
Lemma stage_frames (s1 s2 s3 s4 : PlantBrain) :
  same_except_weather s1 s2 ->
  s3 = set_alert_message (alert_message s3)
         (set_pump_lock (pump_lock s3) s2) ->
  s4 = set_alert_message (alert_message s4)
         (set_last_pump_time (last_pump_time s4) s3) ->
  soil_buffer s4 = soil_buffer s1
  /\ temp_buffer s4 = temp_buffer s1
  /\ light_buffer s4 = light_buffer s1
  /\ pump_lock s4 = pump_lock s3
  /\ pump_status s3 = pump_status s1
  /\ last_pump_time s3 = last_pump_time s1
  /\ outside_humidity s4 = outside_humidity s2
  /\ outside_humidity s3 = outside_humidity s2
  /\ weather_condition s3 = weather_condition s2.
Proof.
  intros (Hb1 & Hb2 & Hb3 & _ & _ & Hps & _ & Hlp & _ & _) H3 H4.
  rewrite H4, H3. simpl. rewrite H3. simpl. auto 10.
Qed.

(** C8 - A cycle whose soil window holds fewer than 2 values when its
    length is tested (after this cycle's appends) returns at once: nothing is
    published, no weather request is made, and the brain after it is the
    brain before it with the three samples appended to their windows;
    pump state, lock, alert and weather snapshot are untouched. *)
Theorem warm_up_returns_early (env : Env) (data : value) (s : PlantBrain)
    (xs xt xl : value) :
  getitem data (KStr "soil_moisture") = Ok xs ->
  getitem data (KStr "temperature") = Ok xt ->
  getitem data (KStr "light_intensity") = Ok xl ->
  (length (append (soil_buffer s) xs) < 2)%nat ->
  sensor_data np_exp env data s = (Ok tt, observe xs xt xl s, [])
  /\ same_except_buffers s (observe xs xt xl s)
  /\ soil_buffer (observe xs xt xl s) = append (soil_buffer s) xs
  /\ temp_buffer (observe xs xt xl s) = append (temp_buffer s) xt
  /\ light_buffer (observe xs xt xl s) = append (light_buffer s) xl.
Proof.
  intros Hs Ht Hl Hlen. split; [ | repeat split].
  unfold sensor_data. rewrite Hs, Ht, Hl. run.
  change (set_light_buffer _ _) with (observe xs xt xl s).
  change (soil_buffer (observe xs xt xl s)) with (append (soil_buffer s) xs).
  destruct (Nat.ltb_spec (length (append (soil_buffer s) xs)) 2)
    as [_ | Hge]; [reflexivity | lia].
Qed.

(** C9 - In the record published by a processed cycle, [weather.vpd] is
    the VPD of the smoothed temperature and the stored outside humidity
    rounded to 2 decimals when the lock is off, and 0 when the lock is on
    (no VPD was computed). *)
Theorem published_vpd (env : Env) (data : value) (s : PlantBrain)
    (r : result unit) (s' : PlantBrain) (t : list event) (p : Payload) :
  sensor_data np_exp env data s = (r, s', t) ->
  In p (emitted t) ->
  (pump_lock s' = false ->
   exists avg_temp v,
     mean (temp_buffer s') = Ok avg_temp
     /\ calculate_vpd np_exp avg_temp (outside_humidity s') = Ok v
     /\ vpd (weather p) = py_round v 2)
  /\ (pump_lock s' = true -> vpd (weather p) == 0).
Proof.
  intros E Hin.
  destruct (sensor_data_published _ _ _ _ _ _ _ E Hin) as (_ & _ & Hproc).
  destruct Hproc as [xs xt xl avg_soil avg_temp avg_light s2 s3 s4 tw d1 d2
                       cmd vopt vn vp vk _ _ _ _ _ Hat _ Hw Hs Hi _ _ _].
  destruct (get_weather_frame (t_weather env) (http env)
              (set_last_sent_soil avg_soil
                 (set_last_sent_temp avg_temp (observe xs xt xl s))))
    as (_ & _ & Hfw).
  rewrite Hw in Hfw. unfold state_of in Hfw. simpl fst in Hfw.
  simpl snd in Hfw.
  destruct (safety_layer_inv _ _ _ _ _ _ _ _ Hs) as [_ (Hf3 & _)].
  destruct (intelligence_layer_inv _ _ _ _ _ _ _ _ Hi) as [_ Ho].
  pose proof (intelligence_frame _ _ _ _ _ _ _ Ho) as Hf4.
  destruct (stage_frames _ _ _ _ Hfw Hf3 Hf4)
    as (_ & Htb & _ & Hlock & _ & _ & Hh4 & Hh3 & _).
  simpl. rewrite Hlock, Htb. simpl temp_buffer.
  destruct Ho as [(Hl & _ & _ & -> & _)
                 | (Hl & v & thr & d & Hv & -> & _)]; rewrite Hl.
  - split; [discriminate | reflexivity].
  - split; [ | discriminate]. intros _. exists avg_temp, v.
    rewrite Hh4, <- Hh3. auto.
Qed.

(** C10 - After a processed cycle, a running pump means that the cycle
    published the label "Critical: Pulse Irrigation" and that the safety
    lock is off; the published [pump_active] is the stored pump status. *)
Theorem pump_runs_only_when_critical (env : Env) (data : value)
    (s : PlantBrain) (r : result unit) (s' : PlantBrain) (t : list event)
    (p : Payload) :
  sensor_data np_exp env data s = (r, s', t) ->
  In p (emitted t) ->
  pump_active (system p) = pump_status s'
  /\ (pump_status s' = true ->
      algorithm_state (system p) = "Critical: Pulse Irrigation"%string
      /\ pump_lock s' = false).
Proof.
  intros E Hin.
  destruct (sensor_data_published _ _ _ _ _ _ _ E Hin) as (_ & _ & Hproc).
  destruct Hproc as [xs xt xl avg_soil avg_temp avg_light s2 s3 s4 tw d1 d2
                       cmd vopt vn vp vk _ _ _ _ _ _ _ _ _ Hi _ _ _].
  destruct (intelligence_layer_inv _ _ _ _ _ _ _ _ Hi) as [_ Ho].
  pose proof (intelligence_frame _ _ _ _ _ _ _ Ho) as Hf4.
  apply (f_equal pump_lock) in Hf4. simpl in Hf4.
  simpl. split; [reflexivity | ]. intros ->. rewrite Hf4.
  destruct Ho as [(_ & _ & Hc & _)
                 | (Hl & v & thr & d & _ & _ & _
                    & [(_ & -> & _) | (_ & _ & Hc & _)])];
    try discriminate.
  auto.
Qed.

(** ** The pump across cycles *)

Lemma adjust_threshold_label (cond : value) (v thr : Q) (d : string) :
  adjust_threshold cond v "Optimal" = (thr, d) -> d <> critical.
Proof.
  unfold adjust_threshold.
  destruct (eq_string cond "Rain"); [intros H; inversion H; discriminate | ].
  destruct (Qltb 1.2 v); intros H; inversion H; discriminate.
Qed.

(** A cycle that publishes the label [critical] ran the pulse logic with
    the lock off: the activation start is stored, the pump runs unless
    more than 10 s have passed since that start, and in that case the
    alert is the timeout. *)
Lemma critical_cycle env data s :
  requests_pump np_exp env data s = true ->
  exists p s' t,
    sensor_data np_exp env data s = (Ok tt, s', t)
    /\ emitted t = [p]
    /\ algorithm_state (system p) = critical
    /\ pump_lock s' = false
    /\ last_pump_time s' = activation_start env s
    /\ pump_status s' = negb (Qltb 10 (t_check env - activation_start env s))
    /\ pump_active (system p) = pump_status s'
    /\ (pump_status s' = false ->
        alert (system p) = "Pump Timeout (Safety)"%string).
Proof.
  unfold requests_pump. rewrite existsb_exists.
  intros (p & Hin & Hlabel). apply String.eqb_eq in Hlabel.
  destruct (sensor_data np_exp env data s) as [[r s'] t] eqn:E.
  unfold trace_of in Hin. simpl in Hin.
  destruct (sensor_data_published _ _ _ _ _ _ _ E Hin) as (-> & Hem & Hproc).
  exists p, s', t. split; [reflexivity | ]. split; [exact Hem | ].
  split; [exact Hlabel | ].
  destruct Hproc as [xs xt xl avg_soil avg_temp avg_light s2 s3 s4 tw d1 d2
                       cmd vopt vn vp vk _ _ _ _ _ _ _ Hw Hs Hi _ _ _].
  simpl in Hlabel. unfold critical in Hlabel.
  destruct (get_weather_frame (t_weather env) (http env)
              (set_last_sent_soil avg_soil
                 (set_last_sent_temp avg_temp (observe xs xt xl s))))
    as (_ & _ & Hfw).
  rewrite Hw in Hfw. unfold state_of in Hfw. simpl fst in Hfw.
  simpl snd in Hfw.
  destruct (safety_layer_inv _ _ _ _ _ _ _ _ Hs) as [_ (Hf3 & Hlocked & Hfree)].
  destruct (intelligence_layer_inv _ _ _ _ _ _ _ _ Hi) as [_ Ho].
  pose proof (intelligence_frame _ _ _ _ _ _ _ Ho) as Hf4.
  destruct (stage_frames _ _ _ _ Hfw Hf3 Hf4)
    as (_ & _ & _ & Hlock & Hps & Hlp & _).
  simpl in Hps, Hlp.
  destruct Ho as [(Hl & -> & _)
                 | (Hl & v & thr & d & _ & _ & Hadj & Hbranch)].
  - exfalso. destruct (Hlocked Hl) as [-> | [-> | ->]]; discriminate Hlabel.
  - destruct (Hfree Hl) as [-> _].
    destruct Hbranch as [(_ & _ & Hp) | (_ & -> & _)];
      [ | exfalso; exact (adjust_threshold_label _ _ _ _ Hadj Hlabel)].
    simpl. rewrite Hlock. split; [exact Hl | ].
    rewrite pulse_logic_eq in Hp. cbv zeta in Hp.
    unfold activation_start. rewrite <- Hps, <- Hlp.
    destruct (pump_status s3);
      cbn [last_pump_time set_last_pump_time] in Hp;
      match type of Hp with context [Qltb ?a ?b] =>
        destruct (Qltb a b) eqn:Hq end;
      inversion Hp; subst; simpl; rewrite ?Hq;
      repeat split; try reflexivity; intros Hc; discriminate Hc.
Qed.

Lemma exec_app (pre post : list (Env * value)) (s : PlantBrain) :
  exec np_exp (pre ++ post) s = exec np_exp post (exec np_exp pre s).
Proof.
  revert s. induction pre as [ | [env data] pre IH]; intros s; simpl.
  - reflexivity.
  - destruct (sensor_data np_exp env data s) as [[r s'] t]. apply IH.
Qed.

Lemma continuous_request_app (pre post : list (Env * value)) (s : PlantBrain) :
  continuous_request np_exp (pre ++ post) s = true ->
  continuous_request np_exp pre s = true
  /\ continuous_request np_exp post (exec np_exp pre s) = true.
Proof.
  revert s. induction pre as [ | [env data] pre IH]; intros s; simpl.
  - auto.
  - rewrite !andb_true_iff. intros [Hreq Hrest].
    destruct (sensor_data np_exp env data s) as [[r s'] t].
    destruct (IH _ Hrest). auto.
Qed.

(** While every cycle requests the pump and is checked within 10 s of the
    start of the activation, the activation that started at time 0 is
    still the running one. *)
Lemma activation_kept (pre : list (Env * value)) :
  forall (s : PlantBrain) (env : Env),
    continuous_request np_exp pre s = true ->
    Forall (fun c => t_check (fst c) <= 10) pre ->
    activation_start (hd env (map fst pre)) s == 0 ->
    activation_start env (exec np_exp pre s) == 0.
Proof.
  induction pre as [ | [e0 d0] pre IH]; intros s env Hreq Hall Hstart.
  - exact Hstart.
  - simpl in Hreq, Hstart. apply andb_true_iff in Hreq.
    destruct Hreq as [Hreq Hrest].
    inversion Hall as [ | c l Hc Hall']; subst. simpl in Hc.
    destruct (critical_cycle _ _ _ Hreq)
      as (p & s' & t & E & _ & _ & _ & Hlast & Hstatus & _).
    simpl exec. rewrite E in *. unfold state_of in Hrest. simpl in Hrest.
    assert (Hrun : pump_status s' = true).
    { rewrite Hstatus. apply negb_true_iff, Qltb_false. lra. }
    apply IH; [exact Hrest | exact Hall' | ].
    unfold activation_start. rewrite Hrun, Hlast. exact Hstart.
Qed.

(** C2 - Let a sequence of cycles start from an idle pump with the first
    activation reading t = 0, every cycle requesting the pump with the
    lock off (it publishes the label "Critical: Pulse Irrigation").  As
    long as the cycles so far are checked at times t <= 10, the pump is
    active and the activation start stays 0.  The first cycle checked at
    t > 10 switches the pump off with the alert "Pump Timeout (Safety)";
    the pump being idle again, the next requesting cycle is an
    Idle-to-Running edge: it stores its own reading as the new activation
    start and runs the pump unless that cycle itself takes more than
    10 s. *)
Theorem pump_timeout (pre : list (Env * value)) (env : Env) (data : value)
    (s0 : PlantBrain) :
  pump_status s0 = false ->
  continuous_request np_exp (pre ++ [(env, data)]) s0 = true ->
  t_edge (hd env (map fst pre)) == 0 ->
  Forall (fun c => t_check (fst c) <= 10) pre ->
  exists p s' t,
    sensor_data np_exp env data (exec np_exp pre s0) = (Ok tt, s', t)
    /\ emitted t = [p]
    /\ (t_check env <= 10 ->
        pump_active (system p) = true
        /\ pump_status s' = true
        /\ last_pump_time s' == 0)
    /\ (10 < t_check env ->
        pump_active (system p) = false
        /\ alert (system p) = "Pump Timeout (Safety)"%string
        /\ pump_status s' = false
        /\ forall env2 data2,
            requests_pump np_exp env2 data2 s' = true ->
            last_pump_time (state_of (sensor_data np_exp env2 data2 s'))
            = t_edge env2
            /\ (pump_status (state_of (sensor_data np_exp env2 data2 s'))
                = true
                <-> t_check env2 - t_edge env2 <= 10)).
Proof.
  intros Hidle Hreq Hzero Hall.
  destruct (continuous_request_app _ _ _ Hreq) as [Hpre Hlast].
  simpl in Hlast. apply andb_true_iff in Hlast. destruct Hlast as [Hlast _].
  assert (Hstart : activation_start env (exec np_exp pre s0) == 0).
  { apply activation_kept; [exact Hpre | exact Hall | ].
    unfold activation_start. rewrite Hidle. exact Hzero. }
  destruct (critical_cycle _ _ _ Hlast)
    as (p & s' & t & E & Hem & _ & _ & Hlp & Hstatus & Hactive & Halert).
  exists p, s', t. split; [exact E | ]. split; [exact Hem | ]. split.
  - intros Hle.
    assert (Hrun : pump_status s' = true).
    { rewrite Hstatus. apply negb_true_iff, Qltb_false. lra. }
    rewrite Hactive, Hlp. auto.
  - intros Hgt.
    assert (Hoff : pump_status s' = false).
    { rewrite Hstatus. apply negb_false_iff, Qltb_true. lra. }
    rewrite Hactive. split; [exact Hoff | ]. split; [auto | ].
    split; [exact Hoff | ].
    intros env2 data2 Hreq2.
    destruct (critical_cycle _ _ _ Hreq2)
      as (p2 & s2 & t2 & E2 & _ & _ & _ & Hlp2 & Hstatus2 & _).
    rewrite E2. unfold state_of. simpl.
    unfold activation_start in Hlp2, Hstatus2. rewrite Hoff in Hlp2, Hstatus2.
    split; [exact Hlp2 | ].
    rewrite Hstatus2, negb_true_iff, Qltb_false. reflexivity.
Qed.

(** ** The windows across cycles *)

Lemma intelligence_layer_keeps env avg_soil avg_temp decision cmd :
  keeps_buffers
    (intelligence_layer np_exp env avg_soil avg_temp decision cmd).
Proof.
  unfold intelligence_layer. keeps.
Qed.

(** Whatever happens after the three appends, the windows of the brain
    after a cycle are those of [observe]. *)
Lemma sensor_data_buffers env data s xs xt xl :
  getitem data (KStr "soil_moisture") = Ok xs ->
  getitem data (KStr "temperature") = Ok xt ->
  getitem data (KStr "light_intensity") = Ok xl ->
  buffers_of (state_of (sensor_data np_exp env data s))
  = buffers_of (observe xs xt xl s).
Proof.
  intros Hs Ht Hl. unfold sensor_data. rewrite Hs, Ht, Hl. run.
  change (set_light_buffer _ _) with (observe xs xt xl s).
  set (s1 := observe xs xt xl s).
  match goal with |- buffers_of (state_of (?c s1)) = _ =>
    enough (keeps_buffers c) as H by apply H end.
  keeps;
    try apply get_weather_keeps; try apply safety_layer_keeps;
    try apply intelligence_layer_keeps; try apply output_payload_keeps.
Qed.

Lemma exec_buffers (cycles : list (Env * value)) :
  forall s l,
    samples cycles = Some l ->
    buffers_of (exec np_exp cycles s)
    = (fold_left append (map soil_of l) (soil_buffer s),
       fold_left append (map temp_of l) (temp_buffer s),
       fold_left append (map light_of l) (light_buffer s)).
Proof.
  induction cycles as [ | [env data] rest IH]; intros s l; simpl.
  - intros H. inversion H. reflexivity.
  - destruct (getitem data (KStr "soil_moisture")) as [xs | ] eqn:Hs;
      [ | discriminate].
    destruct (getitem data (KStr "temperature")) as [xt | ] eqn:Ht;
      [ | discriminate].
    destruct (getitem data (KStr "light_intensity")) as [xl | ] eqn:Hl;
      [ | discriminate].
    destruct (samples rest) as [l' | ]; [ | discriminate].
    intros H. inversion H; subst l. clear H.
    pose proof (sensor_data_buffers env data s xs xt xl Hs Ht Hl) as Hb.
    destruct (sensor_data np_exp env data s) as [[r s'] t].
    rewrite (IH s' l' eq_refl).
    unfold buffers_of, state_of in Hb. simpl in Hb.
    inversion Hb as [[Hb1 Hb2 Hb3]]. rewrite Hb1, Hb2, Hb3.
    reflexivity.
Qed.

Lemma last_n_min {A} (k : nat) (l : list A) :
  last_n (Nat.min k (length l)) l = last_n k l.
Proof. unfold last_n. f_equal. lia. Qed.

(** C7 - Each smoothing window is a FIFO of capacity 5: a full window
    drops its oldest value when a new one is appended.  After any number
    of appends it holds the last min(5, count) values in arrival order,
    and for a sequence of at least 2 numeric samples the mean computed by
    the engine is the arithmetic mean of exactly those values, whatever
    was appended before them.  Across cycles the three windows of the
    brain are the windows of the channel samples received so far, and a
    processed cycle publishes the means of its windows rounded to 1
    decimal. *)
Theorem smoothing_window_mean :
  (forall w x, length w = 5%nat -> append w x = tl w ++ [x])
  /\ (forall w x, (length w < 5)%nat -> append w x = w ++ [x])
  /\ (forall vs,
         window vs = last_n (Nat.min 5 (length vs)) vs
         /\ (length (window vs) <= 5)%nat)
  /\ (forall vs qs,
         (2 <= length vs)%nat ->
         Forall2 (fun v q => as_number v = Some q)
           (last_n (Nat.min 5 (length vs)) vs) qs ->
         length qs = Nat.min 5 (length vs)
         /\ mean (window vs) = Ok (arithmetic_mean qs))
  /\ (forall cycles l,
         samples cycles = Some l ->
         buffers_of (exec np_exp cycles init)
         = (window (map soil_of l), window (map temp_of l),
            window (map light_of l)))
  /\ (forall env data s r s' t p,
         sensor_data np_exp env data s = (r, s', t) ->
         In p (emitted t) ->
         exists avg_soil avg_temp avg_light,
           mean (soil_buffer s') = Ok avg_soil
           /\ mean (temp_buffer s') = Ok avg_temp
           /\ mean (light_buffer s') = Ok avg_light
           /\ soil (sensors p) = py_round avg_soil 1
           /\ temp (sensors p) = py_round avg_temp 1
           /\ light (sensors p) = py_round avg_light 1).
Proof.
  split; [exact append_full | ].
  split; [exact append_room | ].
  assert (Hwin : forall vs, window vs = last_n (Nat.min 5 (length vs)) vs)
    by (intros vs; rewrite last_n_min; apply window_last_n).
  split.
  { intros vs. split; [apply Hwin | ].
    rewrite Hwin. unfold last_n. rewrite length_skipn. lia. }
  split.
  { intros vs qs Hlen Hnum.
    assert (Hl : length (last_n (Nat.min 5 (length vs)) vs)
                 = Nat.min 5 (length vs))
      by (unfold last_n; rewrite length_skipn; lia).
    split; [rewrite <- (Forall2_length Hnum); exact Hl | ].
    rewrite Hwin. apply mean_numbers; [ | exact Hnum].
    intros Hnil. rewrite Hnil in Hl. simpl length in Hl. lia. }
  split; [intros cycles l Hl; apply (exec_buffers cycles init l Hl) | ].
  intros env data s r s' t p E Hin.
  destruct (sensor_data_published _ _ _ _ _ _ _ E Hin) as (_ & _ & Hproc).
  pose proof (sensor_data_buffers env data s) as Hb.
  rewrite E in Hb. unfold state_of in Hb. simpl in Hb.
  destruct Hproc as [xs xt xl avg_soil avg_temp avg_light s2 s3 s4 tw d1 d2
                       cmd vopt vn vp vk Hs Ht Hl _ Has Hat Hal _ _ _ _ _ _].
  specialize (Hb xs xt xl Hs Ht Hl). unfold buffers_of in Hb.
  inversion Hb as [[Hb1 Hb2 Hb3]].
  exists avg_soil, avg_temp, avg_light.
  cbn [soil_buffer temp_buffer light_buffer set_pump_status].
  rewrite Hb1, Hb2, Hb3. repeat split; assumption.
Qed.

(** ** The safety layer in a cycle *)

(** The means a processed cycle decides on are the means of the windows it
    leaves behind. *)
Lemma processed_means env data s s' t p :
  processed np_exp env data s s' t p ->
  exists avg_soil avg_temp s2 s3 s4 d1 cmd vopt,
    mean (soil_buffer s') = Ok avg_soil
    /\ mean (temp_buffer s') = Ok avg_temp
    /\ safety_layer avg_soil avg_temp data "Optimal" s2 = (Ok d1, s3, [])
    /\ intelligence_layer np_exp env avg_soil avg_temp d1 false s3
       = (Ok (algorithm_state (system p), cmd, vopt), s4, [])
    /\ s' = set_pump_status cmd s4
    /\ alert (system p) = alert_message s4.
Proof.
  intros Hproc.
  pose proof (processed_run _ _ _ _ _ _ Hproc) as E.
  pose proof (sensor_data_buffers env data s) as Hb.
  rewrite E in Hb. unfold state_of in Hb. simpl in Hb.
  destruct Hproc as [xs xt xl avg_soil avg_temp avg_light s2 s3 s4 tw d1 d2
                       cmd vopt vn vp vk Hs Ht Hl _ Has Hat _ _ Hsafe Hi
                       _ _ _].
  specialize (Hb xs xt xl Hs Ht Hl). unfold buffers_of in Hb.
  inversion Hb as [[Hb1 Hb2 Hb3]].
  exists avg_soil, avg_temp, s2, s3, s4, d1, cmd, vopt.
  cbn [soil_buffer temp_buffer set_pump_status] in Hb1, Hb2 |- *.
  rewrite Hb1, Hb2. simpl. auto 10.
Qed.

(** C4 - The safety layer applies the first rule that matches, in the
    order saturation, heat stress, salinity, and otherwise unlocks with the
    label left at "Optimal"; a later rule is applied only when every
    earlier condition is false.  With avg_soil = 85 and avg_temp = 40 the
    label is "Saturation Lock".  In the record a processed cycle publishes
    the label and the alert are those of the first matching rule, on the
    means of the windows. *)
Theorem safety_rule_order :
  (forall avg_soil avg_temp data s,
      (80 < avg_soil ->
       safety_layer avg_soil avg_temp data "Optimal" s
       = (Ok "Saturation Lock"%string,
          set_alert_message "Soil too wet! Pump disabled."
            (set_pump_lock true s),
          []))
      /\ (avg_soil <= 80 -> 35 < avg_temp ->
          safety_layer avg_soil avg_temp data "Optimal" s
          = (Ok "Heat Stress"%string,
             set_alert_message "High Temp! Watering paused."
               (set_pump_lock true s),
             []))
      /\ (forall vn vk n k,
             getitem data (KStr "nitrogen") = Ok vn ->
             as_number vn = Some n ->
             getitem data (KStr "potassium") = Ok vk ->
             as_number vk = Some k ->
             avg_soil <= 80 -> avg_temp <= 35 ->
             (200 < n \/ 200 < k ->
              safety_layer avg_soil avg_temp data "Optimal" s
              = (Ok "Salinity Risk"%string,
                 set_alert_message "Nutrient Burn Risk! Flush soil."
                   (set_pump_lock true s),
                 []))
             /\ (n <= 200 -> k <= 200 ->
                 safety_layer avg_soil avg_temp data "Optimal" s
                 = (Ok "Optimal"%string,
                    set_alert_message "System Normal" (set_pump_lock false s),
                    [])))
      /\ safety_layer (85 # 1) (40 # 1) data "Optimal" s
         = (Ok "Saturation Lock"%string,
            set_alert_message "Soil too wet! Pump disabled."
              (set_pump_lock true s),
            []))
  /\ (forall env data s r s' t p avg_soil avg_temp,
         sensor_data np_exp env data s = (r, s', t) ->
         In p (emitted t) ->
         mean (soil_buffer s') = Ok avg_soil ->
         mean (temp_buffer s') = Ok avg_temp ->
         (80 < avg_soil ->
          pump_lock s' = true
          /\ algorithm_state (system p) = "Saturation Lock"%string
          /\ alert (system p) = "Soil too wet! Pump disabled."%string)
         /\ (avg_soil <= 80 -> 35 < avg_temp ->
             pump_lock s' = true
             /\ algorithm_state (system p) = "Heat Stress"%string
             /\ alert (system p) = "High Temp! Watering paused."%string)
         /\ (forall vn vk n k,
                getitem data (KStr "nitrogen") = Ok vn ->
                as_number vn = Some n ->
                getitem data (KStr "potassium") = Ok vk ->
                as_number vk = Some k ->
                avg_soil <= 80 -> avg_temp <= 35 ->
                (200 < n \/ 200 < k ->
                 pump_lock s' = true
                 /\ algorithm_state (system p) = "Salinity Risk"%string
                 /\ alert (system p)
                    = "Nutrient Burn Risk! Flush soil."%string)
                /\ (n <= 200 -> k <= 200 -> pump_lock s' = false))).
Proof.
  split; [exact safety_layer_rules | ].
  intros env data s r s' t p avg_soil avg_temp E Hin Hms Hmt.
  destruct (sensor_data_published _ _ _ _ _ _ _ E Hin) as (_ & _ & Hproc).
  destruct (processed_means _ _ _ _ _ _ Hproc)
    as (a & b & s2 & s3 & s4 & d1 & cmd & vopt & Ha & Hb & Hsafe & Hi & -> & Hal).
  rewrite Hms in Ha. rewrite Hmt in Hb.
  inversion Ha; subst a. inversion Hb; subst b. clear Ha Hb.
  destruct (intelligence_layer_inv _ _ _ _ _ _ _ _ Hi) as [_ Ho].
  pose proof (intelligence_frame _ _ _ _ _ _ _ Ho) as Hf4.
  apply (f_equal pump_lock) in Hf4. simpl in Hf4.
  cbn [pump_lock set_pump_status]. rewrite Hal, Hf4.
  assert (Hlocked : forall d al,
             (Ok d1, s3, @nil event)
             = (Ok d, set_alert_message al (set_pump_lock true s2), []) ->
             pump_lock s3 = true
             /\ algorithm_state (system p) = d
             /\ alert_message s4 = al).
  { intros d al Heq. inversion Heq; subst d1 s3. clear Heq.
    rewrite intelligence_layer_locked in Hi by reflexivity.
    inversion Hi. auto. }
  destruct (safety_layer_rules avg_soil avg_temp data s2)
    as (Hwet & Hhot & Hsalt & _).
  split; [intros H; apply Hlocked; rewrite <- Hsafe; apply Hwet; exact H | ].
  split; [intros H1 H2; apply Hlocked; rewrite <- Hsafe; apply Hhot;
          assumption | ].
  intros vn vk n k Hn Hqn Hk Hqk H1 H2.
  destruct (Hsalt vn vk n k Hn Hqn Hk Hqk H1 H2) as [Hrisk Hfree].
  split.
  - intros H. apply Hlocked. rewrite <- Hsafe. apply Hrisk. exact H.
  - intros Hn' Hk'. rewrite (Hfree Hn' Hk') in Hsafe.
    inversion Hsafe. reflexivity.
Qed.

(** ** The intelligence layer in a cycle *)

(** The pulse logic entered with the request: the command stays true
    unless more than 10 s have passed since the start of the activation. *)
Lemma pulse_logic_command (env : Env) (s : PlantBrain) :
  let s1 := if pump_status s then s else set_last_pump_time (t_edge env) s in
  (t_check env - activation_start env s <= 10 ->
   pulse_logic (t_edge env) (t_check env) s = (Ok true, s1, []))
  /\ (10 < t_check env - activation_start env s ->
      pulse_logic (t_edge env) (t_check env) s
      = (Ok false, set_alert_message "Pump Timeout (Safety)" s1, [])).
Proof.
  cbv zeta. rewrite pulse_logic_eq. cbv zeta. unfold activation_start.
  destruct (pump_status s); cbn [last_pump_time set_last_pump_time]; split;
    intros H;
    [apply Qltb_false in H | apply Qltb_true in H
    | apply Qltb_false in H | apply Qltb_true in H];
    rewrite H; reflexivity.
Qed.

(** C5 - With the lock off (the safety layer then left the label at
    "Optimal") the intelligence layer computes the VPD from the smoothed
    temperature and the stored outside humidity, takes the threshold 20.0
    and the label "Raining (Passive)" when the stored condition is "Rain",
    else 50.0 and "High Transpiration" when the VPD exceeds 1.2, else keeps
    40.0 and the label.  Exactly when avg_soil is below the threshold the
    pump is requested under the label "Critical: Pulse Irrigation": the
    pump command is then true, and only the timeout of the pulse logic
    (more than 10 s since the start of the activation) turns it back to
    false, with the alert "Pump Timeout (Safety)".  When avg_soil is not
    below the threshold the pump command is false, the label is the
    adjusted one and the brain is untouched.  With the lock on the layer
    does nothing: the label and the false pump command pass through and
    no VPD is computed.  The record a processed cycle publishes and the
    pump status it stores follow the same rule on the mean of the soil
    window. *)
Theorem intelligence_layer_policy :
  (forall env avg_soil avg_temp s,
      (pump_lock s = true ->
       forall decision,
         intelligence_layer np_exp env avg_soil avg_temp decision false s
         = (Ok (decision, false, None), s, []))
      /\ (pump_lock s = false ->
          forall v,
            calculate_vpd np_exp avg_temp (outside_humidity s) = Ok v ->
            exists thr d,
              adjust_threshold (weather_condition s) v "Optimal" = (thr, d)
              /\ (weather_condition s = VStr "Rain" ->
                  thr = 20.0 /\ d = "Raining (Passive)"%string)
              /\ (weather_condition s <> VStr "Rain" -> 1.2 < v ->
                  thr = 50.0 /\ d = "High Transpiration"%string)
              /\ (weather_condition s <> VStr "Rain" -> v <= 1.2 ->
                  thr = 40.0 /\ d = "Optimal"%string)
              /\ (avg_soil < thr ->
                  (t_check env - activation_start env s <= 10 ->
                   intelligence_layer np_exp env avg_soil avg_temp
                     "Optimal" false s
                   = (Ok ("Critical: Pulse Irrigation"%string, true, Some v),
                      (if pump_status s then s
                       else set_last_pump_time (t_edge env) s),
                      []))
                  /\ (10 < t_check env - activation_start env s ->
                      intelligence_layer np_exp env avg_soil avg_temp
                        "Optimal" false s
                      = (Ok ("Critical: Pulse Irrigation"%string, false,
                             Some v),
                         set_alert_message "Pump Timeout (Safety)"
                           (if pump_status s then s
                            else set_last_pump_time (t_edge env) s),
                         [])))
              /\ (thr <= avg_soil ->
                  intelligence_layer np_exp env avg_soil avg_temp "Optimal"
                    false s
                  = (Ok (d, false, Some v), s, [])
                  /\ d <> "Critical: Pulse Irrigation"%string)))
  /\ (forall env data s r s' t p avg_soil avg_temp,
         sensor_data np_exp env data s = (r, s', t) ->
         In p (emitted t) ->
         mean (soil_buffer s') = Ok avg_soil ->
         mean (temp_buffer s') = Ok avg_temp ->
         (pump_lock s' = true ->
          pump_active (system p) = false /\ pump_status s' = false)
         /\ (pump_lock s' = false ->
             exists v thr d,
               calculate_vpd np_exp avg_temp (outside_humidity s') = Ok v
               /\ adjust_threshold (weather_condition s') v "Optimal"
                  = (thr, d)
               /\ (avg_soil < thr ->
                   algorithm_state (system p)
                   = "Critical: Pulse Irrigation"%string
                   /\ (t_check env - activation_start env s <= 10 ->
                       pump_active (system p) = true
                       /\ pump_status s' = true)
                   /\ (10 < t_check env - activation_start env s ->
                       pump_active (system p) = false
                       /\ pump_status s' = false
                       /\ alert (system p)
                          = "Pump Timeout (Safety)"%string))
               /\ (thr <= avg_soil ->
                   algorithm_state (system p) = d
                   /\ d <> "Critical: Pulse Irrigation"%string
                   /\ pump_active (system p) = false
                   /\ pump_status s' = false))).
Proof.
  split.
  { intros env avg_soil avg_temp s.
    destruct (intelligence_layer_rules np_exp env avg_soil avg_temp s)
      as [Hlocked Hfree].
    split; [exact Hlocked | ].
    intros Hlock v Hv.
    destruct (Hfree Hlock v Hv)
      as (thr & d & Hadj & Hrain & Hdry & Hdef & _ & Hge).
    exists thr, d.
    split; [exact Hadj | ]. split; [exact Hrain | ].
    split; [exact Hdry | ]. split; [exact Hdef | ].
    split; [ | exact Hge].
    intros Hlt. apply Qltb_true in Hlt.
    rewrite (intelligence_layer_unlocked _ _ _ _ _ _ _ v Hlock Hv).
    rewrite Hadj, Hlt.
    destruct (pulse_logic_command env s) as [Hrun Hout]. cbv zeta in *.
    split; intros H; [rewrite (Hrun H) | rewrite (Hout H)]; reflexivity. }
  intros env data s r s' t p avg_soil avg_temp E Hin Hms Hmt.
  destruct (sensor_data_published _ _ _ _ _ _ _ E Hin) as (Hr & Hem & Hproc).
  assert (Hact : pump_active (system p) = pump_status s')
    by (destruct Hproc; reflexivity).
  rewrite Hact.
  assert (Hreq : algorithm_state (system p)
                 = "Critical: Pulse Irrigation"%string ->
                 pump_status s'
                 = negb (Qltb 10 (t_check env - activation_start env s))
                 /\ (pump_status s' = false ->
                     alert (system p) = "Pump Timeout (Safety)"%string)).
  { intros Hlab.
    assert (Hrp : requests_pump np_exp env data s = true).
    { unfold requests_pump. rewrite E. unfold trace_of. simpl snd.
      rewrite Hem. simpl. rewrite Hlab. reflexivity. }
    destruct (critical_cycle _ _ _ Hrp)
      as (p0 & s0 & t0 & E0 & Hem0 & _ & _ & _ & Hstatus & _ & Halert).
    rewrite E in E0. inversion E0; subst s0 t0. clear E0.
    rewrite Hem in Hem0. inversion Hem0; subst p0. auto. }
  destruct (processed_means _ _ _ _ _ _ Hproc)
    as (a & b & s2 & s3 & s4 & d1 & cmd & vopt & Ha & Hb & Hsafe & Hi
        & Hs' & _).
  rewrite Hms in Ha. rewrite Hmt in Hb.
  inversion Ha; subst a. inversion Hb; subst b. clear Ha Hb.
  destruct (safety_layer_inv _ _ _ _ _ _ _ _ Hsafe) as [_ (_ & _ & Hfree)].
  destruct (intelligence_layer_inv _ _ _ _ _ _ _ _ Hi) as [_ Ho].
  pose proof (intelligence_frame _ _ _ _ _ _ _ Ho) as Hf4.
  pose proof (f_equal pump_lock Hf4) as Hlock.
  pose proof (f_equal outside_humidity Hf4) as Hhum.
  pose proof (f_equal weather_condition Hf4) as Hcond.
  simpl in Hlock, Hhum, Hcond.
  assert (Hst : pump_status s' = cmd) by (rewrite Hs'; reflexivity).
  assert (Hl' : pump_lock s' = pump_lock s3)
    by (rewrite Hs'; simpl; exact Hlock).
  assert (Hh' : outside_humidity s' = outside_humidity s3)
    by (rewrite Hs'; simpl; exact Hhum).
  assert (Hc' : weather_condition s' = weather_condition s3)
    by (rewrite Hs'; simpl; exact Hcond).
  rewrite Hl', Hh', Hc'.
  destruct Ho as [(Hl & _ & Hcmd & _)
                 | (Hl & v & thr & d & Hv & _ & Hadj & Hbranch)]; rewrite Hl.
  - split; [ | discriminate]. intros _. rewrite Hst, Hcmd. auto.
  - split; [discriminate | ]. intros _.
    destruct (Hfree Hl) as [-> _].
    exists v, thr, d. split; [exact Hv | ]. split; [exact Hadj | ].
    pose proof (adjust_threshold_label _ _ _ _ Hadj) as Hd.
    destruct Hbranch as [(Hlt & Hlab & _) | (Hge & Hlab & Hcmd & _)].
    + split; [ | intros Hge; exfalso; apply (Qlt_not_le _ _ Hlt Hge)].
      intros _. split; [exact Hlab | ].
      destruct (Hreq Hlab) as [Hstatus Halert].
      split; intros H.
      * apply Qltb_false in H. rewrite H in Hstatus. simpl in Hstatus. auto.
      * apply Qltb_true in H. rewrite H in Hstatus. simpl in Hstatus. auto.
    + split; [intros Hlt; exfalso; apply (Qlt_not_le _ _ Hlt Hge) | ].
      intros _. rewrite Hst, Hcmd. auto.
Qed.

(** ** Records with a missing or non-numeric field *)

Lemma sum_from_last (w : list value) (x : value) (acc a : Q) :
  sum_from acc (w ++ [x]) = Ok a -> as_number x <> None.
Proof.
  revert acc. induction w as [ | y w IH]; intros acc; simpl.
  - destruct (as_number x); [discriminate | intros H; discriminate H].
  - destruct (as_number y); [apply IH | intros H; discriminate H].
Qed.

Lemma mean_append (w : list value) (x : value) (a : Q) :
  mean (append w x) = Ok a -> as_number x <> None.
Proof.
  destruct (append_last w x) as [w' ->]. unfold mean, py_sum.
  destruct (sum_from 0 (w' ++ [x])) as [q | e] eqn:E; [ | discriminate].
  intros _. exact (sum_from_last _ _ _ _ E).
Qed.

Lemma sum_from_raises (buf : list value) (acc : Q) (e : exn) :
  sum_from acc buf = Raise e -> e = TypeError.
Proof.
  revert acc. induction buf as [ | y buf IH]; intros acc; simpl.
  - discriminate.
  - destruct (as_number y); [apply IH | intros H; inversion H; reflexivity].
Qed.

Lemma mean_append_raises (w : list value) (x : value) (e : exn) :
  mean (append w x) = Raise e -> e = TypeError.
Proof.
  destruct (append_last w x) as [w' ->]. unfold mean, py_sum.
  destruct (sum_from 0 (w' ++ [x])) as [q | e0] eqn:E.
  - destruct w'; discriminate.
  - intros H. inversion H; subst. exact (sum_from_raises _ _ _ E).
Qed.

(** C3 (amended) - A record that lacks a required field never gets an
    output record published.  Only when [soil_moisture], the first field
    read, cannot be read is the cycle rejected before any mutation: the
    handler raises with the brain untouched.  When [temperature] or
    [light_intensity] cannot be read the handler raises after it has
    appended the samples read before (soil, or soil and temperature) and
    has changed nothing else.  When the three channel fields are present
    and one of them is not a number, the three samples are appended and
    nothing else is changed, requested or published; the handler then
    raises [TypeError], unless the soil window still holds fewer than 2
    values, in which case it returns normally.  A failed field access
    raises [KeyError] or [TypeError]. *)
Theorem invalid_record_unpublished (env : Env) (data : value)
    (s : PlantBrain) :
  (forall f e,
      In f required_fields ->
      getitem data (KStr f) = Raise e ->
      emitted (trace_of (sensor_data np_exp env data s)) = [])
  /\ (forall e,
         getitem data (KStr "soil_moisture") = Raise e ->
         sensor_data np_exp env data s = (Raise e, s, []))
  /\ (forall xs e,
         getitem data (KStr "soil_moisture") = Ok xs ->
         getitem data (KStr "temperature") = Raise e ->
         sensor_data np_exp env data s
         = (Raise e, set_soil_buffer (append (soil_buffer s) xs) s, []))
  /\ (forall xs xt e,
         getitem data (KStr "soil_moisture") = Ok xs ->
         getitem data (KStr "temperature") = Ok xt ->
         getitem data (KStr "light_intensity") = Raise e ->
         sensor_data np_exp env data s
         = (Raise e,
            set_temp_buffer (append (temp_buffer s) xt)
              (set_soil_buffer (append (soil_buffer s) xs) s),
            []))
  /\ (forall xs xt xl,
         getitem data (KStr "soil_moisture") = Ok xs ->
         getitem data (KStr "temperature") = Ok xt ->
         getitem data (KStr "light_intensity") = Ok xl ->
         as_number xs = None \/ as_number xt = None \/ as_number xl = None ->
         ((length (append (soil_buffer s) xs) < 2)%nat ->
          sensor_data np_exp env data s = (Ok tt, observe xs xt xl s, []))
         /\ ((2 <= length (append (soil_buffer s) xs))%nat ->
             sensor_data np_exp env data s
             = (Raise TypeError, observe xs xt xl s, [])))
  /\ (forall f e,
         getitem data (KStr f) = Raise e -> e = KeyError \/ e = TypeError).
Proof.
  split.
  { destruct (sensor_data_cases env data s)
      as (r & s' & t & E & [Hnone | (p & _ & Hproc & _)]);
      rewrite E; unfold trace_of; simpl snd; [intros; exact Hnone | ].
    destruct Hproc as [xs xt xl avg_soil avg_temp avg_light s2 s3 s4 tw d1 d2
                         cmd vopt vn vp vk Hs Ht Hl _ _ _ _ _ _ _
                         Hn Hp Hk].
    intros f e Hin Hf. exfalso. simpl in Hin.
    repeat (destruct Hin as [<- | Hin]; [congruence | ]). exact Hin. }
  split.
  { intros e H. unfold sensor_data. rewrite H. reflexivity. }
  split.
  { intros xs e Hs Ht. unfold sensor_data. rewrite Hs, Ht. run.
    reflexivity. }
  split.
  { intros xs xt e Hs Ht Hl. unfold sensor_data. rewrite Hs, Ht, Hl. run.
    reflexivity. }
  split.
  { intros xs xt xl Hs Ht Hl Hbad.
    unfold sensor_data. rewrite Hs, Ht, Hl. run.
    change (set_light_buffer _ _) with (observe xs xt xl s).
    change (soil_buffer (observe xs xt xl s))
      with (append (soil_buffer s) xs).
    change (temp_buffer (observe xs xt xl s))
      with (append (temp_buffer s) xt).
    change (light_buffer (observe xs xt xl s))
      with (append (light_buffer s) xl).
    destruct (Nat.ltb_spec (length (append (soil_buffer s) xs)) 2)
      as [Hlt | Hge]; (split; intros Hlen; [ | ]); try lia;
      try reflexivity.
    destruct (mean (append (soil_buffer s) xs)) as [a | e] eqn:Ea; run;
      [ | rewrite (mean_append_raises _ _ _ Ea); reflexivity].
    destruct (mean (append (temp_buffer s) xt)) as [b | e] eqn:Eb; run;
      [ | rewrite (mean_append_raises _ _ _ Eb); reflexivity].
    destruct (mean (append (light_buffer s) xl)) as [c | e] eqn:Ec; run;
      [ | rewrite (mean_append_raises _ _ _ Ec); reflexivity].
    exfalso. apply mean_append in Ea, Eb, Ec.
    destruct Hbad as [H | [H | H]]; contradiction. }
  intros f e. destruct data as [ | b | q | x | l | d]; simpl;
    try solve [intros H; inversion H; auto].
  destruct (lookup f d); intros H; inversion H; auto.
Qed.

End Cycle.

(** ** Concrete runs *)

Lemma outcome_eta {A} (x : result A * PlantBrain * list event) :
  x = (result_of x, state_of x, trace_of x).
Proof. destruct x as [[r s] t]. reflexivity. Qed.

(** Soil [90, 88], temperature [30, 30], N = P = K = 50: the cycle locks
    on saturation and the pump stays off. *)
Example scenario_saturation :
  let out := sensor_data exp_approx (env_at 0) (wet_record (88 # 1))
               (state_of (sensor_data exp_approx (env_at 0)
                            (wet_record (90 # 1)) init)) in
  pump_lock (state_of out) = true
  /\ pump_status (state_of out) = false
  /\ map (fun p => (algorithm_state (system p), alert (system p),
                    pump_active (system p)))
       (emitted (trace_of out))
     = [("Saturation Lock"%string, "Soil too wet! Pump disabled."%string,
         false)].
Proof. vm_compute. auto. Qed.

(** Soil [30, 30], temperature [28, 28], humidity 70, no rain: the
    threshold stays 40, the pump is requested and starts. *)
Example scenario_dry :
  pump_lock (state_of dry_cycle) = false
  /\ pump_status (state_of dry_cycle) = true
  /\ map (fun p => (algorithm_state (system p), pump_active (system p),
                    Qeq_bool (vpd (weather p)) 1.13))
       (emitted (trace_of dry_cycle))
     = [("Critical: Pulse Irrigation"%string, true, true)].
Proof. vm_compute. auto. Qed.

(** The same soil under rain: threshold 20, no request. *)
Example scenario_rain :
  let out := sensor_data exp_approx
               (env_weather (1000 # 1) "Rain" (25 # 1) (80 # 1))
               dry_record warm in
  pump_status (state_of out) = false
  /\ map (fun p => (algorithm_state (system p), pump_active (system p)))
       (emitted (trace_of out))
     = [("Raining (Passive)"%string, false)].
Proof. vm_compute. auto. Qed.

(** A string in [phosphorus] goes unnoticed: the record is published with
    it. *)
Example text_phosphorus_published :
  invalid_record record_text_phosphorus = true
  /\ map (fun p => npk (sensors p))
       (emitted
          (trace_of
             (sensor_data exp_approx (env_at 0) record_text_phosphorus
                (state_of (sensor_data exp_approx (env_at 0)
                             record_text_phosphorus init)))))
     = [(VNum (50 # 1), VStr "n/a", VNum (50 # 1))].
Proof. vm_compute. auto. Qed.

(** C3 (counterexample) - A record without [temperature] is an invalid
    record, yet the handler has already appended its soil sample when the
    missing field is read: the brain is mutated and the [KeyError] leaves
    the handler. *)
Lemma invalid_record_mutates_buffer :
  invalid_record record_no_temperature = true
  /\ sensor_data exp_approx (env_at 0) record_no_temperature init
     = (Raise KeyError, set_soil_buffer [VNum (50 # 1)] init, [])
  /\ soil_buffer (set_soil_buffer [VNum (50 # 1)] init) <> soil_buffer init.
Proof. repeat split. discriminate. Qed.

(** ** The theorems at concrete inputs *)

Lemma weather_throttle_witness :
  get_weather (100 # 1) ConnFail init = (Ok tt, init, [])
  /\ fetches (trace_of (get_weather (1000 # 1) resp_unauthorized init)) = 1%nat
  /\ fetches
       (trace_of
          (get_weather (1001 # 1) ConnFail
             (state_of (get_weather (1000 # 1) ConnFail init)))) = 0%nat
  /\ fetches
       (trace_of
          (get_weather (1601 # 1) ConnFail
             (state_of (get_weather (1000 # 1) ConnFail init)))) = 1%nat.
Proof.
  destruct weather_throttle as (Hcached & Hfetch & Hpair & _).
  split; [apply Hcached; reflexivity | ].
  split; [apply Hfetch; vm_compute; discriminate | ].
  split.
  - apply (Hpair (1000 # 1) ConnFail (1001 # 1) ConnFail init);
      [vm_compute; discriminate | reflexivity].
  - apply (Hpair (1000 # 1) ConnFail (1601 # 1) ConnFail init);
      [vm_compute; discriminate | reflexivity].
Defined.

Lemma safety_rule_order_witness :
  safety_layer (85 # 1) (40 # 1) dry_record "Optimal" init
  = (Ok "Saturation Lock"%string,
     set_alert_message "Soil too wet! Pump disabled."
       (set_pump_lock true init), [])
  /\ safety_layer (50 # 1) (40 # 1) dry_record "Optimal" init
     = (Ok "Heat Stress"%string,
        set_alert_message "High Temp! Watering paused."
          (set_pump_lock true init), [])
  /\ safety_layer (50 # 1) (30 # 1)
       (record (50 # 1) (30 # 1) (300 # 1) (50 # 1) (50 # 1) (250 # 1))
       "Optimal" init
     = (Ok "Salinity Risk"%string,
        set_alert_message "Nutrient Burn Risk! Flush soil."
          (set_pump_lock true init), [])
  /\ safety_layer (50 # 1) (30 # 1) dry_record "Optimal" init
     = (Ok "Optimal"%string,
        set_alert_message "System Normal" (set_pump_lock false init), [])
  /\ match emitted (trace_of dry_cycle) with
     | p :: _ => pump_lock (state_of dry_cycle) = false
     | [] => False
     end.
Proof.
  destruct (safety_rule_order exp_approx) as [Hlayer Hcycle].
  split.
  { destruct (Hlayer (85 # 1) (40 # 1) dry_record init) as (H & _).
    apply H. reflexivity. }
  split.
  { destruct (Hlayer (50 # 1) (40 # 1) dry_record init) as (_ & H & _).
    apply H; [vm_compute; discriminate | reflexivity]. }
  split.
  { destruct (Hlayer (50 # 1) (30 # 1)
                (record (50 # 1) (30 # 1) (300 # 1) (50 # 1) (50 # 1)
                   (250 # 1)) init) as (_ & _ & H & _).
    apply (H (VNum (50 # 1)) (VNum (250 # 1)) (50 # 1) (250 # 1));
      try reflexivity; try (vm_compute; discriminate).
    right. reflexivity. }
  split.
  { destruct (Hlayer (50 # 1) (30 # 1) dry_record init) as (_ & _ & H & _).
    apply (H (VNum (50 # 1)) (VNum (50 # 1)) (50 # 1) (50 # 1));
      try reflexivity; vm_compute; discriminate. }
  destruct (emitted (trace_of dry_cycle)) as [ | p l] eqn:E;
    [revert E; vm_compute; discriminate | ].
  destruct (Hcycle (env_at 0) dry_record warm (result_of dry_cycle)
              (state_of dry_cycle) (trace_of dry_cycle) p (60 # 2) (56 # 2))
    as (_ & _ & H).
  - apply (outcome_eta dry_cycle).
  - rewrite E. left. reflexivity.
  - vm_compute. reflexivity.
  - vm_compute. reflexivity.
  - apply (H (VNum (50 # 1)) (VNum (50 # 1)) (50 # 1) (50 # 1));
      try reflexivity; vm_compute; discriminate.
Defined.

Lemma intelligence_layer_policy_witness :
  intelligence_layer exp_approx (env_at 0) (30 # 1) (28 # 1) "Heat Stress"
    false (set_pump_lock true init)
  = (Ok ("Heat Stress"%string, false, None), set_pump_lock true init, [])
  /\ match calculate_vpd exp_approx (28 # 1) (outside_humidity init) with
     | Ok v =>
         adjust_threshold (weather_condition init) v "Optimal"
         = (40.0, "Optimal"%string)
         /\ intelligence_layer exp_approx (env_at 0) (30 # 1) (28 # 1)
              "Optimal" false init
            = (Ok ("Critical: Pulse Irrigation"%string, true, Some v),
               set_last_pump_time 0 init, [])
         /\ intelligence_layer exp_approx (env_at (11 # 1)) (30 # 1) (28 # 1)
              "Optimal" false
              (set_pump_status true init)
            = (Ok ("Critical: Pulse Irrigation"%string, false, Some v),
               set_alert_message "Pump Timeout (Safety)"
                 (set_pump_status true init), [])
     | Raise _ => False
     end
  /\ match emitted (trace_of dry_cycle) with
     | p :: _ =>
         algorithm_state (system p) = "Critical: Pulse Irrigation"%string
         /\ pump_active (system p) = true
         /\ pump_status (state_of dry_cycle) = true
     | [] => False
     end.
Proof.
  destruct (intelligence_layer_policy exp_approx) as [Hlayer Hcycle].
  split.
  { apply (Hlayer (env_at 0) (30 # 1) (28 # 1) (set_pump_lock true init)).
    reflexivity. }
  split.
  { assert (Hmild :
             match calculate_vpd exp_approx (28 # 1) (outside_humidity init)
             with Ok v => v <= 1.2 | Raise _ => False end)
      by (vm_compute; discriminate).
    destruct (calculate_vpd exp_approx (28 # 1) (outside_humidity init))
      as [v | e] eqn:Hv; [ | contradiction].
    destruct (Hlayer (env_at 0) (30 # 1) (28 # 1) init) as [_ H].
    destruct (H eq_refl v Hv) as (thr & d & Hadj & _ & _ & Hdef & Hlt & _).
    destruct (Hdef ltac:(discriminate) Hmild) as [-> ->].
    split; [exact Hadj | ].
    split.
    - refine (proj1 (Hlt _) _); [reflexivity | vm_compute; discriminate].
    - destruct (Hlayer (env_at (11 # 1)) (30 # 1) (28 # 1)
                  (set_pump_status true init)) as [_ H'].
      destruct (H' eq_refl v Hv) as (thr' & d' & Hadj' & _ & _ & _ & Hlt' & _).
      change (weather_condition (set_pump_status true init))
        with (weather_condition init) in Hadj'.
      rewrite Hadj in Hadj'. inversion Hadj'; subst thr' d'.
      refine (proj2 (Hlt' _) _); reflexivity. }
  destruct (emitted (trace_of dry_cycle)) as [ | p l] eqn:E;
    [revert E; vm_compute; discriminate | ].
  destruct (Hcycle (env_at 0) dry_record warm (result_of dry_cycle)
              (state_of dry_cycle) (trace_of dry_cycle) p (60 # 2) (56 # 2))
    as [_ H].
  - apply (outcome_eta dry_cycle).
  - rewrite E. left. reflexivity.
  - vm_compute. reflexivity.
  - vm_compute. reflexivity.
  - assert (Hthr :
             forall v thr d,
               calculate_vpd exp_approx (56 # 2)
                 (outside_humidity (state_of dry_cycle)) = Ok v ->
               adjust_threshold (weather_condition (state_of dry_cycle)) v
                 "Optimal" = (thr, d) ->
               60 # 2 < thr).
    { vm_compute. intros v thr d Hv. inversion Hv; subst v. clear Hv.
      intros Hadj. inversion Hadj. reflexivity. }
    destruct (H ltac:(vm_compute; reflexivity))
      as (v & thr & d & Hv & Hadj & Hlt & _).
    destruct (Hlt (Hthr v thr d Hv Hadj)) as (Hlab & Hrun & _).
    destruct (Hrun ltac:(vm_compute; discriminate)) as [Hp Hs].
    auto.
Defined.

Lemma smoothing_window_mean_witness :
  let vs := map (fun n => VNum (inject_Z n)) [10; 20; 30; 40; 50; 60; 70]%Z in
  window vs = map (fun n => VNum (inject_Z n)) [30; 40; 50; 60; 70]%Z
  /\ mean (window vs)
     = Ok (arithmetic_mean (map inject_Z [30; 40; 50; 60; 70]%Z)).
Proof.
  destruct (smoothing_window_mean exp_approx) as (_ & _ & Hwin & Hmean & _).
  intros vs. split.
  - rewrite (proj1 (Hwin vs)). reflexivity.
  - apply (Hmean vs (map inject_Z [30; 40; 50; 60; 70]%Z)).
    + vm_compute. lia.
    + repeat constructor.
Defined.

Lemma warm_up_returns_early_witness :
  sensor_data exp_approx (env_at 0) dry_record init = (Ok tt, warm, [])
  /\ same_except_buffers init warm
  /\ soil_buffer warm = append (soil_buffer init) (VNum (30 # 1))
  /\ temp_buffer warm = append (temp_buffer init) (VNum (28 # 1))
  /\ light_buffer warm = append (light_buffer init) (VNum (300 # 1)).
Proof.
  apply (warm_up_returns_early exp_approx (env_at 0) dry_record init
           (VNum (30 # 1)) (VNum (28 # 1)) (VNum (300 # 1)));
    try reflexivity.
  vm_compute. lia.
Defined.

Lemma published_vpd_witness :
  match emitted (trace_of dry_cycle) with
  | p :: _ =>
      (pump_lock (state_of dry_cycle) = false ->
       exists avg_temp v,
         mean (temp_buffer (state_of dry_cycle)) = Ok avg_temp
         /\ calculate_vpd exp_approx avg_temp
              (outside_humidity (state_of dry_cycle)) = Ok v
         /\ vpd (weather p) = py_round v 2)
      /\ (pump_lock (state_of dry_cycle) = true -> vpd (weather p) == 0)
  | [] => False
  end.
Proof.
  destruct (emitted (trace_of dry_cycle)) as [ | p l] eqn:E;
    [revert E; vm_compute; discriminate | ].
  apply (published_vpd exp_approx (env_at 0) dry_record warm
           (result_of dry_cycle) (state_of dry_cycle) (trace_of dry_cycle) p).
  - apply (outcome_eta dry_cycle).
  - rewrite E. left. reflexivity.
Defined.

Lemma pump_runs_only_when_critical_witness :
  match emitted (trace_of dry_cycle) with
  | p :: _ =>
      pump_active (system p) = pump_status (state_of dry_cycle)
      /\ (pump_status (state_of dry_cycle) = true ->
          algorithm_state (system p) = "Critical: Pulse Irrigation"%string
          /\ pump_lock (state_of dry_cycle) = false)
  | [] => False
  end.
Proof.
  destruct (emitted (trace_of dry_cycle)) as [ | p l] eqn:E;
    [revert E; vm_compute; discriminate | ].
  apply (pump_runs_only_when_critical exp_approx (env_at 0) dry_record warm
           (result_of dry_cycle) (state_of dry_cycle) (trace_of dry_cycle) p).
  - apply (outcome_eta dry_cycle).
  - rewrite E. left. reflexivity.
Defined.

Lemma invalid_record_unpublished_witness :
  emitted
    (trace_of (sensor_data exp_approx (env_at 0) record_no_temperature warm))
  = []
  /\ sensor_data exp_approx (env_at 0) (VDict []) warm
     = (Raise KeyError, warm, [])
  /\ sensor_data exp_approx (env_at 0) record_no_temperature warm
     = (Raise KeyError,
        set_soil_buffer (append (soil_buffer warm) (VNum (50 # 1))) warm, [])
  /\ sensor_data exp_approx (env_at 0) record_text_temperature init
     = (Ok tt,
        observe (VNum (30 # 1)) (VStr "hot") (VNum (300 # 1)) init, [])
  /\ sensor_data exp_approx (env_at 0) record_text_temperature warm
     = (Raise TypeError,
        observe (VNum (30 # 1)) (VStr "hot") (VNum (300 # 1)) warm, []).
Proof.
  split.
  { destruct (invalid_record_unpublished exp_approx (env_at 0)
                record_no_temperature warm) as (H & _).
    apply (H "temperature"%string KeyError); try reflexivity.
    simpl. auto. }
  split.
  { destruct (invalid_record_unpublished exp_approx (env_at 0) (VDict [])
                warm) as (_ & H & _).
    apply H. reflexivity. }
  split.
  { destruct (invalid_record_unpublished exp_approx (env_at 0)
                record_no_temperature warm) as (_ & _ & H & _).
    apply H; reflexivity. }
  split.
  - destruct (invalid_record_unpublished exp_approx (env_at 0)
                record_text_temperature init) as (_ & _ & _ & _ & H & _).
    destruct (H (VNum (30 # 1)) (VStr "hot") (VNum (300 # 1)) eq_refl eq_refl
                eq_refl (or_intror (or_introl eq_refl))) as [Hcold _].
    apply Hcold. vm_compute. lia.
  - destruct (invalid_record_unpublished exp_approx (env_at 0)
                record_text_temperature warm) as (_ & _ & _ & _ & H & _).
    destruct (H (VNum (30 # 1)) (VStr "hot") (VNum (300 # 1)) eq_refl eq_refl
                eq_refl (or_intror (or_introl eq_refl))) as [_ Hwarm].
    apply Hwarm. vm_compute. lia.
Defined.

Lemma pump_timeout_witness :
  exists p s' t,
    sensor_data exp_approx (env_at (11 # 1)) dry_record
      (exec exp_approx [(env_at 0, dry_record); (env_at (5 # 1), dry_record)]
         warm)
    = (Ok tt, s', t)
    /\ emitted t = [p]
    /\ (t_check (env_at (11 # 1)) <= 10 ->
        pump_active (system p) = true
        /\ pump_status s' = true
        /\ last_pump_time s' == 0)
    /\ (10 < t_check (env_at (11 # 1)) ->
        pump_active (system p) = false
        /\ alert (system p) = "Pump Timeout (Safety)"%string
        /\ pump_status s' = false
        /\ forall env2 data2,
            requests_pump exp_approx env2 data2 s' = true ->
            last_pump_time (state_of (sensor_data exp_approx env2 data2 s'))
            = t_edge env2
            /\ (pump_status (state_of (sensor_data exp_approx env2 data2 s'))
                = true
                <-> t_check env2 - t_edge env2 <= 10)).
Proof.
  apply (pump_timeout exp_approx
           [(env_at 0, dry_record); (env_at (5 # 1), dry_record)]
           (env_at (11 # 1)) dry_record warm).
  - reflexivity.
  - vm_compute. reflexivity.
  - reflexivity.
  - repeat constructor; vm_compute; discriminate.
Defined.

(** * Further properties *)

(** ** The weather cache, path by path *)

(** X1 - Past the throttle, a response with status 200 that carries
    [weather[0].main], [main.temp] and [main.humidity] replaces the stored
    condition, temperature and humidity by those values as they are
    (numbers or not), stores the call's time and prints the update after
    the one request. *)
Theorem weather_refresh_success (now : Q) (data cod w w0 c m t h : value)
    (s : PlantBrain) :
  600 <= now - last_weather_fetch s ->
  dict_get data "cod" = Ok cod ->
  eq_number cod 200 = true ->
  getitem data (KStr "weather") = Ok w ->
  getitem w (KInt 0) = Ok w0 ->
  getitem w0 (KStr "main") = Ok c ->
  getitem data (KStr "main") = Ok m ->
  getitem m (KStr "temp") = Ok t ->
  getitem m (KStr "humidity") = Ok h ->
  get_weather now (BodyJson data) s
  = (Ok tt,
     set_last_weather_fetch now
       (set_outside_humidity h
          (set_outside_temp t (set_weather_condition c s))),
     [HttpGet; Print (WeatherUpdated c t)]).
Proof.
  intros Hnow Hcod H200 Hw Hw0 Hc Hm Ht Hh. apply Qltb_false in Hnow.
  unfold get_weather, try_except, fetch_weather, requests_get_json.
  run. rewrite Hnow.
  unfold bind, tell, ret, lift, modify.
  rewrite Hcod, H200, Hw, Hw0, Hc, Hm, Ht, Hh. reflexivity.
Qed.

(** X2 - Past the throttle, when the body of the [try] raises, whatever
    the exception, the call still returns normally with the condition
    "Clouds", the stored humidity untouched and the call's time stored;
    exactly one request was issued and the warning is the last thing
    printed. *)
Theorem weather_refresh_exception (now : Q) (resp : http_result)
    (s : PlantBrain) (e : exn) :
  600 <= now - last_weather_fetch s ->
  result_of (fetch_weather resp s) = Raise e ->
  let out := get_weather now resp s in
  result_of out = Ok tt
  /\ weather_condition (state_of out) = VStr "Clouds"
  /\ outside_humidity (state_of out) = outside_humidity s
  /\ last_weather_fetch (state_of out) = now
  /\ fetches (trace_of out) = 1%nat
  /\ exists t, trace_of out = t ++ [Print WeatherUnavailable].
Proof.
  intros Hnow Hraise. apply Qltb_false in Hnow. cbv zeta.
  destruct (fetch_weather_trace resp s) as [Hf _].
  assert (Hhum : outside_humidity (state_of (fetch_weather resp s))
                 = outside_humidity s).
  { revert Hraise.
    unfold fetch_weather, requests_get_json, bind, tell, lift, ret, modify.
    destruct resp as [ | | data]; simpl; try reflexivity.
    destruct (dict_get data "cod") as [cod | ]; simpl; try reflexivity.
    destruct (eq_number cod 200); simpl; try reflexivity.
    destruct (getitem data (KStr "weather")) as [w | ]; simpl;
      try reflexivity.
    destruct (getitem w (KInt 0)) as [w0 | ]; simpl; try reflexivity.
    destruct (getitem w0 (KStr "main")) as [c | ]; simpl; try reflexivity.
    destruct (getitem data (KStr "main")) as [m | ]; simpl; try reflexivity.
    destruct (getitem m (KStr "temp")) as [t | ]; simpl; try reflexivity.
    destruct (getitem m (KStr "humidity")) as [h | ]; simpl;
      [discriminate | reflexivity]. }
  revert Hraise Hf Hhum.
  unfold get_weather, try_except. run. rewrite Hnow.
  unfold bind, modify, tell.
  destruct (fetch_weather resp s) as [[[[] | e'] s1] t1];
    unfold result_of, state_of, trace_of; simpl;
    intros Hraise Hf Hhum; [discriminate Hraise | ].
  rewrite app_nil_r, fetches_app, Hf. repeat split; auto.
  exists t1. reflexivity.
Qed.

(** X3 - Past the throttle, a JSON object whose [cod] is not 200 (absent
    included) is neither a success nor an exception: the stored condition,
    temperature and humidity stay as they were, nothing is printed, and
    only the fetch time advances. *)
Theorem weather_refresh_not_ok (now : Q) (data cod : value) (s : PlantBrain) :
  600 <= now - last_weather_fetch s ->
  dict_get data "cod" = Ok cod ->
  eq_number cod 200 = false ->
  get_weather now (BodyJson data) s
  = (Ok tt, set_last_weather_fetch now s, [HttpGet]).
Proof.
  intros Hnow Hcod H200. apply Qltb_false in Hnow.
  unfold get_weather, try_except, fetch_weather, requests_get_json.
  run. rewrite Hnow.
  unfold bind, tell, ret, lift, modify. rewrite Hcod, H200. reflexivity.
Qed.

(** X4 - Whatever the clock and the response, [get_weather] returns
    normally, issues at most one request, publishes no record and leaves
    the windows, the last-sent values, the pump status, the lock, the
    activation time, the alert and the battery level as they were; the
    stored fetch time is the old one or the call's. *)
Theorem weather_refresh_frame (now : Q) (resp : http_result) (s : PlantBrain) :
  let out := get_weather now resp s in
  result_of out = Ok tt
  /\ (fetches (trace_of out) <= 1)%nat
  /\ emitted (trace_of out) = []
  /\ same_except_weather s (state_of out)
  /\ (last_weather_fetch (state_of out) = last_weather_fetch s
      \/ last_weather_fetch (state_of out) = now).
Proof.
  cbv zeta. destruct (get_weather_frame now resp s) as (Hr & He & Hf).
  split; [exact Hr | ].
  destruct (Qlt_le_dec (now - last_weather_fetch s) 600) as [Hlt | Hge].
  - rewrite (get_weather_cached now resp s Hlt) in *.
    unfold trace_of, state_of. simpl. auto 10.
  - destruct (get_weather_refresh now resp s Hge) as (_ & Hl & Hn & _).
    rewrite Hn. auto 10.
Qed.

(** ** The vapour pressure deficit *)

Section Vpd.

Variable np_exp : Q -> Q.

Lemma calculate_vpd_value (temp : Q) (humidity : value) (h : Q) :
  ~ temp + 237.3 == 0 ->
  as_number humidity = Some h ->
  calculate_vpd np_exp temp humidity
  = Ok (svp np_exp temp - svp np_exp temp * (h / 100.0)).
Proof.
  intros Hdom Hh. unfold calculate_vpd.
  destruct (Qeq_bool (temp + 237.3) 0) eqn:E;
    [apply Qeq_bool_eq in E; contradiction | ].
  rewrite Hh. reflexivity.
Qed.

(** X5 - [calculate_vpd] divides by [temp + 237.3] before it looks at the
    humidity: at temp = -237.3 it raises [ZeroDivisionError] whatever the
    humidity is; elsewhere a humidity that is not a number raises
    [TypeError], and a numeric one gives svp * (1 - humidity / 100). *)
Theorem calculate_vpd_cases (temp : Q) (humidity : value) :
  (temp + 237.3 == 0 ->
   calculate_vpd np_exp temp humidity = Raise ZeroDivisionError)
  /\ (~ temp + 237.3 == 0 -> as_number humidity = None ->
      calculate_vpd np_exp temp humidity = Raise TypeError)
  /\ (~ temp + 237.3 == 0 ->
      forall h, as_number humidity = Some h ->
        exists v,
          calculate_vpd np_exp temp humidity = Ok v
          /\ v == svp np_exp temp * (1 - h / 100)).
Proof.
  unfold calculate_vpd. repeat split.
  - intros H. apply Qeq_eq_bool in H. rewrite H. reflexivity.
  - intros H Hh.
    destruct (Qeq_bool (temp + 237.3) 0) eqn:E;
      [apply Qeq_bool_eq in E; contradiction | ].
    rewrite Hh. reflexivity.
  - intros H h Hh.
    destruct (Qeq_bool (temp + 237.3) 0) eqn:E;
      [apply Qeq_bool_eq in E; contradiction | ].
    rewrite Hh. eexists. split; [reflexivity | ].
    fold (svp np_exp temp).
    generalize (svp np_exp temp). intros S. field.
Qed.

Hypothesis np_exp_positive : forall x, 0 < np_exp x.

Lemma svp_positive (temp : Q) : 0 < svp np_exp temp.
Proof.
  unfold svp.
  apply Qmult_lt_0_compat; [reflexivity | apply np_exp_positive].
Qed.

(** X6 - For a positive exponential, the deficit computed for a humidity
    between 0 and 100 lies between 0 and the saturation pressure, is 0 at
    humidity 100 and the whole saturation pressure at humidity 0, and at a
    given temperature a higher humidity never gives a higher deficit. *)
Theorem calculate_vpd_bounds (temp : Q) (humidity : value) (h v : Q) :
  as_number humidity = Some h ->
  calculate_vpd np_exp temp humidity = Ok v ->
  (0 <= h -> h <= 100 -> 0 <= v /\ v <= svp np_exp temp)
  /\ (h == 100 -> v == 0)
  /\ (h == 0 -> v == svp np_exp temp)
  /\ (forall humidity' h' v',
         as_number humidity' = Some h' ->
         calculate_vpd np_exp temp humidity' = Ok v' ->
         h <= h' -> v' <= v).
Proof.
  intros Hh Hv.
  assert (Hdom : ~ temp + 237.3 == 0).
  { intros H. apply Qeq_eq_bool in H. unfold calculate_vpd in Hv.
    rewrite H in Hv. discriminate Hv. }
  rewrite (calculate_vpd_value temp humidity h Hdom Hh) in Hv.
  inversion Hv as [Hv']. clear Hv Hv'.
  pose proof (svp_positive temp) as HS.
  split; [ | split; [ | split]].
  - intros H0 H100.
    assert (0 <= svp np_exp temp * (h / 100.0)).
    { apply Qmult_le_0_compat; [lra | ].
      apply Qle_shift_div_l; [reflexivity | lra]. }
    assert (svp np_exp temp * (h / 100.0) <= svp np_exp temp * 1).
    { apply Qmult_le_l; [exact HS | ].
      apply Qle_shift_div_r; [reflexivity | lra]. }
    lra.
  - intros H100. rewrite H100. field.
  - intros H0. rewrite H0. field.
  - intros humidity' h' v' Hh' Hv' Hle.
    rewrite (calculate_vpd_value temp humidity' h' Hdom Hh') in Hv'.
    inversion Hv' as [Hv'']. clear Hv' Hv''.
    assert (svp np_exp temp * (h / 100.0)
            <= svp np_exp temp * (h' / 100.0)).
    { apply Qmult_le_l; [exact HS | ].
      apply Qmult_le_compat_r; [exact Hle | ].
      apply Qinv_le_0_compat. discriminate. }
    lra.
Qed.

End Vpd.

(** ** Properties kept by every handler *)

Lemma preserves_ret I {A} (a : A) : preserves I (ret a).
Proof. intros s H. exact H. Qed.

Lemma preserves_lift I {A} (r : result A) : preserves I (lift r).
Proof. intros s H. exact H. Qed.

Lemma preserves_get I : preserves I get.
Proof. intros s H. exact H. Qed.

Lemma preserves_tell I (e : event) : preserves I (tell e).
Proof. intros s H. exact H. Qed.

Lemma preserves_modify (I : PlantBrain -> Prop) (f : PlantBrain -> PlantBrain) :
  (forall s, I s -> I (f s)) -> preserves I (modify f).
Proof. intros H s Hs. apply H. exact Hs. Qed.

Lemma preserves_bind I {A B} (c : M A) (f : A -> M B) :
  preserves I c -> (forall a, preserves I (f a)) -> preserves I (bind c f).
Proof.
  intros Hc Hf s Hs. specialize (Hc s Hs). unfold bind.
  destruct (c s) as [[[a | e] s1] t1]; [ | exact Hc].
  specialize (Hf a s1 Hc). destruct (f a s1) as [[r s2] t2]. exact Hf.
Qed.

Lemma preserves_try I {A} (body handler : M A) :
  preserves I body -> preserves I handler ->
  preserves I (try_except body handler).
Proof.
  intros Hb Hh s Hs. specialize (Hb s Hs). unfold try_except.
  destruct (body s) as [[[a | e] s1] t1]; [exact Hb | ].
  specialize (Hh s1 Hb). destruct (handler s1) as [[r s2] t2]. exact Hh.
Qed.

(** Structural steps; [tac] closes the obligation of a field update. *)
Ltac preserve tac :=
  repeat first
    [ apply preserves_ret | apply preserves_lift | apply preserves_get
    | apply preserves_tell
    | apply preserves_modify; intros ? ?; solve [tac]
    | apply preserves_bind; [ | intros ? ]
    | apply preserves_try
    | match goal with
      | |- preserves _ (if ?b then _ else _) => destruct b
      | |- preserves _ (match ?x with _ => _ end) => destruct x
      end ].

Lemma length_append_le (w : list value) (x : value) :
  (length w <= maxlen)%nat -> (length (append w x) <= maxlen)%nat.
Proof. intros H. rewrite length_append by exact H. lia. Qed.

Section Server.

Variable np_exp : Q -> Q.

Lemma sensor_data_windows_bounded env data :
  preserves windows_bounded (sensor_data np_exp env data).
Proof.
  unfold sensor_data, output_payload, intelligence_layer, pulse_logic,
    safety_layer, get_weather, fetch_weather, requests_get_json.
  preserve ltac:(first
    [ assumption
    | match goal with
      | H : windows_bounded _ |- _ =>
          destruct H as (H1 & H2 & H3); unfold windows_bounded;
          cbn [soil_buffer temp_buffer light_buffer set_soil_buffer
               set_temp_buffer set_light_buffer];
          repeat split; try assumption; apply length_append_le; assumption
      end ]).
Qed.

Lemma serve_state (req : request) (s : PlantBrain) :
  snd (fst (serve np_exp req s))
  = match req with
    | SensorData env data => state_of (sensor_data np_exp env data s)
    | _ => s
    end.
Proof.
  destruct req as [sid | env data | data | sid]; try reflexivity.
  - simpl. destruct (sensor_data np_exp env data s) as [[r s'] t].
    reflexivity.
  - unfold serve, manual_control.
    destruct (getitem data (KStr "action")) as [a | e]; [ | reflexivity].
    destruct (eq_string a "pump_on"); reflexivity.
Qed.

Lemma published_brain (t : list event) : published (map Brain t) = emitted t.
Proof. induction t as [ | [ | m | p] t IH]; simpl; congruence. Qed.

Lemma serve_published (req : request) (s : PlantBrain) :
  published (snd (serve np_exp req s))
  = match req with
    | SensorData env data => emitted (trace_of (sensor_data np_exp env data s))
    | _ => []
    end.
Proof.
  destruct req as [sid | env data | data | sid]; try reflexivity.
  - simpl. destruct (sensor_data np_exp env data s) as [[r s'] t].
    apply published_brain.
  - unfold serve, manual_control.
    destruct (getitem data (KStr "action")) as [a | e]; [ | reflexivity].
    destruct (eq_string a "pump_on"); reflexivity.
Qed.

Lemma published_app (t1 t2 : list output) :
  published (t1 ++ t2) = published t1 ++ published t2.
Proof.
  induction t1 as [ | [[ | m | p] | c] t1 IH]; simpl; congruence.
Qed.

(** X7 - Connecting, disconnecting and manual control never change the
    brain and publish no record, whether the manual request is well formed
    or raises: after any sequence of events the brain is the one the sensor
    records alone produce, and the published records are theirs. *)
Theorem only_sensor_data_acts (reqs : list request) (s : PlantBrain) :
  fst (serve_all np_exp reqs s) = exec np_exp (sensor_cycles reqs) s
  /\ published (snd (serve_all np_exp reqs s))
     = exec_emitted np_exp (sensor_cycles reqs) s.
Proof.
  revert s. induction reqs as [ | req reqs IH]; intros s; [split; reflexivity | ].
  pose proof (serve_state req s) as Hs.
  pose proof (serve_published req s) as Hp.
  simpl serve_all.
  destruct (serve np_exp req s) as [[r s'] t].
  simpl in Hs, Hp.
  destruct (IH s') as [IH1 IH2].
  destruct (serve_all np_exp reqs s') as [s'' t'']. simpl in IH1, IH2 |- *.
  rewrite published_app, Hp, IH1, IH2. subst s'.
  destruct req as [sid | env data | data | sid]; simpl; try (split; reflexivity).
  destruct (sensor_data np_exp env data s) as [[r0 s0] t0].
  split; reflexivity.
Qed.

(** X8 - No window ever holds more than 5 values: whatever events arrive,
    records with missing or ill-typed fields included, windows within
    capacity stay within capacity. *)
Theorem windows_stay_bounded (reqs : list request) (s : PlantBrain) :
  windows_bounded s -> windows_bounded (fst (serve_all np_exp reqs s)).
Proof.
  revert s. induction reqs as [ | req reqs IH]; intros s Hs; [exact Hs | ].
  pose proof (serve_state req s) as Heq.
  simpl serve_all.
  destruct (serve np_exp req s) as [[r s'] t].
  simpl in Heq.
  specialize (IH s').
  destruct (serve_all np_exp reqs s') as [s'' t'']. simpl in IH |- *.
  apply IH. subst s'.
  destruct req as [sid | env data | data | sid]; try exact Hs.
  apply sensor_data_windows_bounded. exact Hs.
Qed.

End Server.

Lemma get_weather_fetches_le (now : Q) (resp : http_result)
    (s : PlantBrain) :
  (fetches (trace_of (get_weather now resp s)) <= 1)%nat.
Proof.
  destruct (Qlt_le_dec (now - last_weather_fetch s) 600) as [Hlt | Hge].
  - rewrite (get_weather_cached now resp s Hlt). unfold trace_of. simpl. lia.
  - destruct (get_weather_refresh now resp s Hge) as (_ & _ & Hn & _).
    rewrite Hn. lia.
Qed.

(** ** The published record and the brain behind it *)

Section Published.

Variable np_exp : Q -> Q.

(** Everything a published cycle went through, in terms of the brain it
    started from. *)
Lemma published_anatomy env data s r s' t p :
  sensor_data np_exp env data s = (r, s', t) ->
  In p (emitted t) ->
  exists xs xt xl avg_soil avg_temp avg_light s2 s3 s4 tw d1 cmd vopt vn vp vk,
    mean (append (soil_buffer s) xs) = Ok avg_soil
    /\ mean (append (temp_buffer s) xt) = Ok avg_temp
    /\ mean (append (light_buffer s) xl) = Ok avg_light
    /\ same_except_weather
         (set_last_sent_soil avg_soil
            (set_last_sent_temp avg_temp (observe xs xt xl s))) s2
    /\ safety_outcome "Optimal" s2 (Ok d1) s3
    /\ intelligence_outcome np_exp env avg_soil avg_temp d1 s3
         (Ok (algorithm_state (system p), cmd, vopt)) s4
    /\ s4 = set_alert_message (alert_message s4)
              (set_last_pump_time (last_pump_time s4) s3)
    /\ s' = set_pump_status cmd s4
    /\ r = Ok tt
    /\ t = tw ++ [Emit p] /\ emitted tw = [] /\ (fetches tw <= 1)%nat
    /\ p = {| timestamp := strftime env;
              sensors := {| soil := py_round avg_soil 1;
                            temp := py_round avg_temp 1;
                            light := py_round avg_light 1;
                            npk := (vn, vp, vk) |};
              weather := {| condition := weather_condition s4;
                            w_temp := outside_temp s4;
                            humidity := outside_humidity s4;
                            vpd := py_round
                                     (match vopt with
                                      | Some x => x
                                      | None => 0
                                      end) 2 |};
              system := {| pump_active := cmd;
                           algorithm_state := algorithm_state (system p);
                           alert := alert_message s4;
                           payload_battery_level := 85 |} |}.
Proof.
  intros E Hin.
  destruct (sensor_data_published _ _ _ _ _ _ _ _ E Hin) as (Hr & _ & Hproc).
  destruct Hproc as [xs xt xl avg_soil avg_temp avg_light s2 s3 s4 tw d1 d2
                       cmd vopt vn vp vk _ _ _ _ Has Hat Hal Hw Hs Hi _ _ _].
  destruct (get_weather_frame (t_weather env) (http env)
              (set_last_sent_soil avg_soil
                 (set_last_sent_temp avg_temp (observe xs xt xl s))))
    as (_ & Hew & Hfw).
  pose proof (get_weather_fetches_le (t_weather env) (http env)
                (set_last_sent_soil avg_soil
                   (set_last_sent_temp avg_temp (observe xs xt xl s))))
    as Hfet.
  rewrite Hw in Hew, Hfw, Hfet.
  unfold state_of, trace_of in Hew, Hfw, Hfet. simpl in Hew, Hfw, Hfet.
  destruct (safety_layer_inv _ _ _ _ _ _ _ _ Hs) as [_ Hso].
  destruct (intelligence_layer_inv _ _ _ _ _ _ _ _ _ Hi) as [_ Hio].
  pose proof (intelligence_frame _ _ _ _ _ _ _ _ Hio) as Hf4.
  exists xs, xt, xl, avg_soil, avg_temp, avg_light, s2, s3, s4, tw, d1, cmd,
    vopt, vn, vp, vk.
  simpl. auto 20.
Qed.

(** The fields of the brain across the stages after the appends. *)
Lemma stage_fields (s1 s2 s3 s4 : PlantBrain) :
  same_except_weather s1 s2 ->
  s3 = set_alert_message (alert_message s3)
         (set_pump_lock (pump_lock s3) s2) ->
  s4 = set_alert_message (alert_message s4)
         (set_last_pump_time (last_pump_time s4) s3) ->
  buffers_of s4 = buffers_of s1
  /\ last_sent_soil s4 = last_sent_soil s1
  /\ last_sent_temp s4 = last_sent_temp s1
  /\ battery_level s4 = battery_level s1
  /\ pump_status s4 = pump_status s1
  /\ pump_lock s4 = pump_lock s3
  /\ last_pump_time s3 = last_pump_time s1
  /\ weather_condition s4 = weather_condition s3
  /\ outside_humidity s4 = outside_humidity s3.
Proof.
  intros (Hb1 & Hb2 & Hb3 & Hlt & Hls & Hps & _ & Hlp & _ & Hbat) H3 H4.
  rewrite H4, H3. unfold buffers_of. simpl. rewrite H3. simpl.
  rewrite Hb1, Hb2, Hb3. auto 10.
Qed.

(** X9 - The record a cycle publishes mirrors the brain the cycle leaves:
    its weather block is the stored snapshot, its alert and pump flag are
    the stored ones, its sensor block is the stored last-sent means, which
    are the means of the windows, rounded to 1 decimal.  Its battery level
    is the constant 85, while the stored one is not touched. *)
Theorem published_record_mirrors_brain (env : Env) (data : value)
    (s : PlantBrain) (r : result unit) (s' : PlantBrain) (t : list event)
    (p : Payload) :
  sensor_data np_exp env data s = (r, s', t) ->
  In p (emitted t) ->
  condition (weather p) = weather_condition s'
  /\ w_temp (weather p) = outside_temp s'
  /\ humidity (weather p) = outside_humidity s'
  /\ alert (system p) = alert_message s'
  /\ pump_active (system p) = pump_status s'
  /\ mean (soil_buffer s') = Ok (last_sent_soil s')
  /\ mean (temp_buffer s') = Ok (last_sent_temp s')
  /\ soil (sensors p) = py_round (last_sent_soil s') 1
  /\ temp (sensors p) = py_round (last_sent_temp s') 1
  /\ payload_battery_level (system p) = 85%Z
  /\ battery_level s' = battery_level s.
Proof.
  intros E Hin.
  destruct (published_anatomy _ _ _ _ _ _ _ E Hin)
    as (xs & xt & xl & avg_soil & avg_temp & avg_light & s2 & s3 & s4 & tw
        & d1 & cmd & vopt & vn & vp & vk & Has & Hat & Hal & Hfw & Hso & Hio
        & Hf4 & -> & _ & _ & _ & _ & ->).
  destruct Hso as (Hf3 & _).
  destruct (stage_fields _ _ _ _ Hfw Hf3 Hf4)
    as (Hb & Hls & Hlt & Hbat & _).
  unfold buffers_of in Hb. simpl in Hb, Hls, Hlt, Hbat.
  inversion Hb as [[Hb1 Hb2 Hb3]].
  simpl. rewrite Hb1, Hb2, Hls, Hlt, Hbat. auto 20.
Qed.

(** X10 - While the pump is recorded as running after a published cycle,
    the lock is off and no more than 10 s separate that cycle's timeout
    test from the stored activation time, whatever the brain was before
    and whatever the clock readings are. *)
Theorem running_pump_within_pulse (env : Env) (data : value)
    (s : PlantBrain) (r : result unit) (s' : PlantBrain) (t : list event)
    (p : Payload) :
  sensor_data np_exp env data s = (r, s', t) ->
  In p (emitted t) ->
  pump_status s' = true ->
  pump_lock s' = false /\ t_check env - last_pump_time s' <= 10.
Proof.
  intros E Hin.
  destruct (published_anatomy _ _ _ _ _ _ _ E Hin)
    as (xs & xt & xl & avg_soil & avg_temp & avg_light & s2 & s3 & s4 & tw
        & d1 & cmd & vopt & vn & vp & vk & _ & _ & _ & Hfw & Hso & Hio
        & Hf4 & -> & _ & _ & _ & _ & _).
  destruct Hso as (Hf3 & _).
  destruct (stage_fields _ _ _ _ Hfw Hf3 Hf4)
    as (_ & _ & _ & _ & _ & Hlock & _).
  simpl. intros ->. rewrite Hlock.
  destruct Hio as [(_ & _ & Hc & _)
                  | (Hl & v & thr & d & _ & _ & _
                     & [(_ & _ & Hp) | (_ & _ & Hc & _)])];
    try discriminate Hc.
  split; [exact Hl | ].
  rewrite pulse_logic_eq in Hp. cbv zeta in Hp.
  match type of Hp with context [Qltb ?a ?b] =>
    destruct (Qltb a b) eqn:Hq end; inversion Hp as [[Hs4]].
  apply Qltb_false in Hq.
  destruct (pump_status s3); exact Hq.
Qed.

(** X11 - The activation time is written only on an Idle-to-Running edge:
    across a published cycle it becomes the cycle's edge reading when the
    pump was idle and the cycle's label is "Critical: Pulse Irrigation",
    and keeps its value in every other case, a running pump and a timeout
    included. *)
Theorem activation_time_set_on_edge_only (env : Env) (data : value)
    (s : PlantBrain) (r : result unit) (s' : PlantBrain) (t : list event)
    (p : Payload) :
  sensor_data np_exp env data s = (r, s', t) ->
  In p (emitted t) ->
  (pump_status s = false ->
   algorithm_state (system p) = critical ->
   last_pump_time s' = t_edge env)
  /\ (pump_status s = true -> last_pump_time s' = last_pump_time s)
  /\ (algorithm_state (system p) <> critical ->
      last_pump_time s' = last_pump_time s).
Proof.
  intros E Hin.
  destruct (published_anatomy _ _ _ _ _ _ _ E Hin)
    as (xs & xt & xl & avg_soil & avg_temp & avg_light & s2 & s3 & s4 & tw
        & d1 & cmd & vopt & vn & vp & vk & _ & _ & _ & Hfw & Hso & Hio
        & Hf4 & -> & _ & _ & _ & _ & _).
  destruct Hso as (Hf3 & Hlocked & Hfree).
  destruct (stage_fields _ _ _ _ Hfw Hf3 Hf4)
    as (_ & _ & _ & _ & Hps & _ & Hlp & _).
  pose proof (f_equal pump_status Hf4) as Hps4.
  simpl in Hps, Hlp, Hps4. rewrite Hps4 in Hps. simpl.
  assert (Hkeep : s4 = s3 -> last_pump_time s4 = last_pump_time s)
    by (intros ->; exact Hlp).
  destruct Hio as [(Hl & Hd & _ & _ & Heq)
                  | (Hl & v & thr & d & _ & _ & Hadj
                     & [(_ & Hd & Hp) | (_ & Hd & _ & Heq)])].
  - destruct (Hlocked Hl) as [H | [H | H]]; rewrite H in Hd;
      (split; [intros _ Hc; rewrite Hd in Hc; discriminate Hc | ]);
      split; intros _; apply Hkeep; exact Heq.
  - rewrite pulse_logic_eq in Hp. cbv zeta in Hp. rewrite Hps in Hp.
    split; [ | split].
    + intros Hidle _. rewrite Hidle in Hp. clear Hf4 Hps4 Hkeep.
      destruct (Qltb 10 _) in Hp; inversion Hp; subst; reflexivity.
    + intros Hrun. rewrite Hrun in Hp. clear Hf4 Hps4 Hkeep.
      destruct (Qltb 10 _) in Hp; inversion Hp; subst; simpl; exact Hlp.
    + intros Hne. contradiction.
  - destruct (Hfree Hl) as [-> _].
    pose proof (adjust_threshold_label _ _ _ _ Hadj) as Hne.
    split; [intros _ Hc; rewrite Hd in Hc; contradiction | ].
    split; intros _; apply Hkeep; exact Heq.
Qed.

Lemma adjust_threshold_bound (cond : value) (v thr : Q) (d0 d : string) :
  adjust_threshold cond v d0 = (thr, d) ->
  thr <= 50
  /\ (cond = VStr "Rain" -> thr == 20)
  /\ (d = "Raining (Passive)" \/ d = "High Transpiration" \/ d = d0)%string.
Proof.
  unfold adjust_threshold.
  destruct (eq_string cond "Rain") eqn:Hc.
  - intros H. inversion H; subst.
    repeat split; [vm_compute; discriminate | auto].
  - apply eq_string_false in Hc.
    destruct (Qltb 1.2 v); intros H; inversion H; subst;
      (repeat split; [vm_compute; discriminate | contradiction | auto]).
Qed.

(** X12 - A published label is one of the seven the program knows, and
    the pump is reported active only on a smoothed soil value below 50,
    the highest threshold there is, and below 20 while the stored weather
    condition is "Rain". *)
Theorem pump_needs_dry_soil (env : Env) (data : value) (s : PlantBrain)
    (r : result unit) (s' : PlantBrain) (t : list event) (p : Payload) :
  sensor_data np_exp env data s = (r, s', t) ->
  In p (emitted t) ->
  In (algorithm_state (system p)) known_labels
  /\ (pump_active (system p) = true ->
      last_sent_soil s' < 50
      /\ (weather_condition s' = VStr "Rain" -> last_sent_soil s' < 20)).
Proof.
  intros E Hin.
  destruct (published_anatomy _ _ _ _ _ _ _ E Hin)
    as (xs & xt & xl & avg_soil & avg_temp & avg_light & s2 & s3 & s4 & tw
        & d1 & cmd & vopt & vn & vp & vk & _ & _ & _ & Hfw & Hso & Hio
        & Hf4 & -> & _ & _ & _ & _ & Hp).
  destruct Hso as (Hf3 & Hlocked & Hfree).
  destruct (stage_fields _ _ _ _ Hfw Hf3 Hf4)
    as (_ & Hls & _ & _ & _ & _ & _ & Hcond & _).
  simpl in Hls. cbn [last_sent_soil weather_condition set_pump_status].
  rewrite Hls, Hcond.
  assert (Hact : pump_active (system p) = cmd) by (rewrite Hp; reflexivity).
  rewrite Hact. clear Hp Hact.
  destruct Hio as [(Hl & -> & -> & _)
                  | (Hl & v & thr & d & _ & _ & Hadj & Hbranch)].
  - split; [ | discriminate].
    destruct (Hlocked Hl) as [-> | [-> | ->]]; simpl; auto 10.
  - destruct (Hfree Hl) as [-> _].
    destruct (adjust_threshold_bound _ _ _ _ _ Hadj) as (H50 & Hrain & Hd).
    destruct Hbranch as [(Hlt & -> & _) | (_ & -> & -> & _)].
    + split; [simpl; auto 10 | ]. intros _. split; [lra | ].
      intros Hc. specialize (Hrain Hc). lra.
    + split; [ | discriminate].
      destruct Hd as [-> | [-> | ->]]; simpl; auto 10.
Qed.

Lemma sum_from_numbers_only (buf : list value) (acc a : Q) :
  sum_from acc buf = Ok a -> forallb is_number buf = true.
Proof.
  revert acc. induction buf as [ | v buf IH]; intros acc; simpl;
    [reflexivity | ].
  unfold is_number. destruct (as_number v); [apply IH | discriminate].
Qed.

Lemma mean_numbers_only (buf : list value) (a : Q) :
  mean buf = Ok a -> forallb is_number buf = true.
Proof.
  unfold mean, py_sum.
  destruct (sum_from 0 buf) as [q | e] eqn:E; [ | discriminate].
  intros _. exact (sum_from_numbers_only _ _ _ E).
Qed.

(** X13 - Nothing is published while a window holds a value that is not
    a number: after a published cycle every value of the three windows is
    numeric.  Since samples are appended unchecked, a bad sample blocks
    publication until it is evicted. *)
Theorem published_windows_numeric (env : Env) (data : value)
    (s : PlantBrain) (r : result unit) (s' : PlantBrain) (t : list event)
    (p : Payload) :
  sensor_data np_exp env data s = (r, s', t) ->
  In p (emitted t) ->
  forallb is_number (soil_buffer s') = true
  /\ forallb is_number (temp_buffer s') = true
  /\ forallb is_number (light_buffer s') = true.
Proof.
  intros E Hin.
  destruct (published_anatomy _ _ _ _ _ _ _ E Hin)
    as (xs & xt & xl & avg_soil & avg_temp & avg_light & s2 & s3 & s4 & tw
        & d1 & cmd & vopt & vn & vp & vk & Has & Hat & Hal & Hfw & Hso & Hio
        & Hf4 & -> & _).
  destruct Hso as (Hf3 & _).
  destruct (stage_fields _ _ _ _ Hfw Hf3 Hf4) as (Hb & _).
  unfold buffers_of in Hb. simpl in Hb. inversion Hb as [[Hb1 Hb2 Hb3]].
  simpl. rewrite Hb1, Hb2, Hb3.
  repeat split; eapply mean_numbers_only; eassumption.
Qed.

(** X14 - A cycle is published with the lock off only if the stored
    outside humidity is a number and the smoothed temperature is not
    -237.3: the weather response is stored unchecked, and with a
    non-numeric humidity in the brain every unlocked cycle ends in an
    exception instead of a record. *)
Theorem unlocked_record_needs_vpd (env : Env) (data : value)
    (s : PlantBrain) (r : result unit) (s' : PlantBrain) (t : list event)
    (p : Payload) :
  sensor_data np_exp env data s = (r, s', t) ->
  In p (emitted t) ->
  pump_lock s' = false ->
  is_number (outside_humidity s') = true
  /\ ~ last_sent_temp s' + 237.3 == 0.
Proof.
  intros E Hin.
  destruct (published_anatomy _ _ _ _ _ _ _ E Hin)
    as (xs & xt & xl & avg_soil & avg_temp & avg_light & s2 & s3 & s4 & tw
        & d1 & cmd & vopt & vn & vp & vk & _ & _ & _ & Hfw & Hso & Hio
        & Hf4 & -> & _).
  destruct Hso as (Hf3 & _).
  destruct (stage_fields _ _ _ _ Hfw Hf3 Hf4)
    as (_ & _ & Hlt & _ & _ & Hlock & _ & _ & Hhum).
  simpl in Hlt. simpl. rewrite Hlock, Hlt, Hhum. intros Hl.
  destruct Hio as [(Hl' & _) | (_ & v & thr & d & Hv & _)];
    [congruence | ].
  unfold calculate_vpd in Hv. unfold is_number.
  destruct (Qeq_bool (avg_temp + 237.3) 0) eqn:Hq; [discriminate Hv | ].
  apply Qeq_bool_neq in Hq.
  destruct (as_number (outside_humidity s3)); [auto | discriminate Hv].
Qed.

End Published.

(** ** Properties kept across every event *)

Section Invariants.

Variable np_exp : Q -> Q.

Lemma sensor_data_alert_known env data :
  preserves alert_known (sensor_data np_exp env data).
Proof.
  unfold sensor_data, output_payload, intelligence_layer, pulse_logic,
    safety_layer, get_weather, fetch_weather, requests_get_json.
  preserve ltac:(first [assumption | unfold alert_known; simpl; auto 10]).
Qed.

Lemma finish_state env data avg_soil avg_temp avg_light d v cmd s :
  state_of
    ((modify (set_pump_status cmd) ;;
      p <- output_payload env data avg_soil avg_temp avg_light d v ;;
      tell (Emit p)) s)
  = set_pump_status cmd s.
Proof.
  unfold output_payload. run.
  destruct (getitem data (KStr "nitrogen")); run; [ | reflexivity].
  destruct (getitem data (KStr "phosphorus")); run; [ | reflexivity].
  destruct (getitem data (KStr "potassium")); run; reflexivity.
Qed.

Lemma bind_state {A B} (c : M A) (f : A -> M B) s a s1 t1 :
  c s = (Ok a, s1, t1) -> state_of (bind c f s) = state_of (f a s1).
Proof.
  intros H. unfold bind. rewrite H. destruct (f a s1) as [[r s2] t2].
  reflexivity.
Qed.

Lemma bind_state_raise {A B} (c : M A) (f : A -> M B) s e s1 t1 :
  c s = (Raise e, s1, t1) -> state_of (bind c f s) = s1.
Proof. intros H. unfold bind. rewrite H. reflexivity. Qed.

(** A cycle keeps the pump safe wherever it stops: before the safety layer
    nothing of the pump is touched, an exception of the intelligence layer
    leaves the lock off, and once the layers are through the pump status
    is stored before anything else can raise. *)
Lemma sensor_data_pump_safe env data :
  preserves pump_safe (sensor_data np_exp env data).
Proof.
  intros s Hsafe. unfold sensor_data.
  destruct (getitem data (KStr "soil_moisture")) as [xs | e]; run;
    [ | exact Hsafe].
  destruct (getitem data (KStr "temperature")) as [xt | e]; run;
    [ | exact Hsafe].
  destruct (getitem data (KStr "light_intensity")) as [xl | e]; run;
    [ | exact Hsafe].
  change (set_light_buffer _ _) with (observe xs xt xl s).
  destruct (length (soil_buffer (observe xs xt xl s)) <? 2)%nat;
    [exact Hsafe | ].
  destruct (mean (soil_buffer (observe xs xt xl s))) as [avg_soil | e]; run;
    [ | exact Hsafe].
  destruct (mean (temp_buffer (observe xs xt xl s))) as [avg_temp | e]; run;
    [ | exact Hsafe].
  destruct (mean (light_buffer (observe xs xt xl s))) as [avg_light | e]; run;
    [ | exact Hsafe].
  destruct (get_weather_frame (t_weather env) (http env)
              (set_last_sent_soil avg_soil
                 (set_last_sent_temp avg_temp (observe xs xt xl s))))
    as (Hrw & _ & Hfw).
  destruct (get_weather (t_weather env) (http env)
              (set_last_sent_soil avg_soil
                 (set_last_sent_temp avg_temp (observe xs xt xl s))))
    as [[rw s2] tw] eqn:Ew.
  unfold result_of, state_of in Hrw, Hfw. simpl in Hrw, Hfw. subst rw.
  rewrite (bind_state _ _ _ _ _ _ Ew).
  assert (Hsafe2 : pump_safe s2).
  { destruct Hfw as (_ & _ & _ & _ & _ & Hps & Hpl & _).
    unfold pump_safe. rewrite Hps, Hpl. exact Hsafe. }
  destruct (safety_layer avg_soil avg_temp data "Optimal" s2)
    as [[rs s3] ts] eqn:Es.
  destruct (safety_layer_inv _ _ _ _ _ _ _ _ Es) as [_ Hso].
  destruct rs as [d1 | e];
    [ | rewrite (bind_state_raise _ _ _ _ _ _ Es); simpl in Hso;
        rewrite Hso; exact Hsafe2].
  rewrite (bind_state _ _ _ _ _ _ Es).
  destruct (intelligence_layer np_exp env avg_soil avg_temp d1 false s3)
    as [[ri s4] ti] eqn:Ei.
  destruct (intelligence_layer_inv _ _ _ _ _ _ _ _ _ Ei) as [_ Hio].
  pose proof (intelligence_frame _ _ _ _ _ _ _ _ Hio) as Hf4.
  apply (f_equal pump_lock) in Hf4. simpl in Hf4.
  destruct ri as [[[d2 cmd] vopt] | e].
  - rewrite (bind_state _ _ _ _ _ _ Ei). cbv beta iota.
    rewrite finish_state. unfold pump_safe. simpl. intros ->.
    rewrite Hf4.
    destruct Hio as [(_ & _ & Hc & _)
                    | (Hl & v & thr & d & _ & _ & _
                       & [_ | (_ & _ & Hc & _)])];
      try discriminate Hc; exact Hl.
  - rewrite (bind_state_raise _ _ _ _ _ _ Ei).
    destruct Hio as [_ Hl]. intros _. rewrite Hf4. exact Hl.
Qed.

Lemma serve_preserves (I : PlantBrain -> Prop) :
  (forall env data, preserves I (sensor_data np_exp env data)) ->
  forall reqs s, I s -> I (fst (serve_all np_exp reqs s)).
Proof.
  intros Hcycle reqs.
  induction reqs as [ | req reqs IH]; intros s Hs; [exact Hs | ].
  pose proof (serve_state np_exp req s) as Heq.
  simpl serve_all.
  destruct (serve np_exp req s) as [[r s'] t]. simpl in Heq.
  specialize (IH s').
  destruct (serve_all np_exp reqs s') as [s'' t'']. simpl in IH |- *.
  apply IH. subst s'.
  destruct req as [sid | env data | data | sid]; try exact Hs.
  apply Hcycle. exact Hs.
Qed.

(** X15 - The pump is never left recorded as running under a lock: if it
    is not so before, it is not so after any sequence of events, the
    cycles that end in an exception halfway included. *)
Theorem pump_never_runs_locked (reqs : list request) (s : PlantBrain) :
  pump_safe s -> pump_safe (fst (serve_all np_exp reqs s)).
Proof. apply serve_preserves. exact sensor_data_pump_safe. Qed.

(** X16 - The stored alert is always one of the five texts of the
    program: whatever events arrive, a known alert stays a known alert. *)
Theorem alert_stays_known (reqs : list request) (s : PlantBrain) :
  alert_known s -> alert_known (fst (serve_all np_exp reqs s)).
Proof. apply serve_preserves. exact sensor_data_alert_known. Qed.

End Invariants.

(** ** The effects of one cycle *)

Lemma fetch_le_ret n {A} (a : A) : fetch_le n (ret a).
Proof. intros s. simpl. lia. Qed.

Lemma fetch_le_lift n {A} (r : result A) : fetch_le n (lift r).
Proof. intros s. simpl. lia. Qed.

Lemma fetch_le_get n : fetch_le n get.
Proof. intros s. simpl. lia. Qed.

Lemma fetch_le_modify n f : fetch_le n (modify f).
Proof. intros s. simpl. lia. Qed.

Lemma fetch_le_emit n p : fetch_le n (tell (Emit p)).
Proof. intros s. simpl. lia. Qed.

Lemma fetch_le_print n m : fetch_le n (tell (Print m)).
Proof. intros s. simpl. lia. Qed.

Lemma fetch_le_get_weather now resp : fetch_le 1 (get_weather now resp).
Proof. intros s. apply get_weather_fetches_le. Qed.

Lemma fetch_le_bind_quiet n {A B} (c : M A) (f : A -> M B) :
  fetch_le 0 c -> (forall a, fetch_le n (f a)) -> fetch_le n (bind c f).
Proof.
  intros Hc Hf s. specialize (Hc s). unfold bind.
  destruct (c s) as [[[a | e] s1] t1]; unfold trace_of in *; simpl in *;
    [ | lia].
  specialize (Hf a s1). destruct (f a s1) as [[r s2] t2].
  simpl in *. rewrite fetches_app. lia.
Qed.

Lemma fetch_le_bind_then_quiet n {A B} (c : M A) (f : A -> M B) :
  fetch_le n c -> (forall a, fetch_le 0 (f a)) -> fetch_le n (bind c f).
Proof.
  intros Hc Hf s. specialize (Hc s). unfold bind.
  destruct (c s) as [[[a | e] s1] t1]; unfold trace_of in *; simpl in *;
    [ | lia].
  specialize (Hf a s1). destruct (f a s1) as [[r s2] t2].
  simpl in *. rewrite fetches_app. lia.
Qed.

Ltac fetch_bound :=
  repeat first
    [ apply fetch_le_ret | apply fetch_le_lift | apply fetch_le_get
    | apply fetch_le_modify | apply fetch_le_emit | apply fetch_le_print
    | apply fetch_le_get_weather
    | apply fetch_le_bind_quiet; [solve [fetch_bound] | intros ? ]
    | apply fetch_le_bind_then_quiet; [ | intros ?; solve [fetch_bound] ]
    | match goal with
      | |- fetch_le _ (if ?b then _ else _) => destruct b
      | |- fetch_le _ (match ?x with _ => _ end) => destruct x
      end ].

Lemma getitem_key_error (v : value) (k : string) (e : exn) :
  getitem v (KStr k) = Raise e -> e = KeyError \/ e = TypeError.
Proof.
  destruct v as [ | b | q | x | l | d]; simpl;
    try solve [intros H; inversion H; auto].
  destruct (lookup k d); intros H; inversion H; auto.
Qed.

Section Effects.

Variable np_exp : Q -> Q.

Lemma sensor_data_fetch_le env data :
  fetch_le 1 (sensor_data np_exp env data).
Proof.
  unfold sensor_data, output_payload, intelligence_layer, pulse_logic,
    safety_layer.
  fetch_bound.
Qed.

(** X17 - One cycle issues at most one weather request and publishes at
    most one record, and the record is its last effect; a cycle that ends
    in an exception has published nothing. *)
Theorem cycle_effects (env : Env) (data : value) (s : PlantBrain) :
  let out := sensor_data np_exp env data s in
  (fetches (trace_of out) <= 1)%nat
  /\ (emitted (trace_of out) = []
      \/ exists p tw,
          result_of out = Ok tt
          /\ trace_of out = tw ++ [Emit p]
          /\ emitted tw = [])
  /\ (forall e, result_of out = Raise e -> emitted (trace_of out) = []).
Proof.
  cbv zeta. split; [apply sensor_data_fetch_le | ].
  destruct (sensor_data np_exp env data s) as [[r s'] t] eqn:E.
  unfold result_of, trace_of. simpl.
  destruct (emitted t) as [ | p l] eqn:Hem.
  - split; [left; reflexivity | reflexivity].
  - assert (Hin : In p (emitted t)) by (rewrite Hem; left; reflexivity).
    destruct (published_anatomy _ _ _ _ _ _ _ _ E Hin)
      as (xs & xt & xl & avg_soil & avg_temp & avg_light & s2 & s3 & s4 & tw
          & d1 & cmd & vopt & vn & vp & vk & _ & _ & _ & _ & _ & _
          & _ & _ & Hr & Ht & Htw & _).
    split.
    + right. exists p, tw. auto.
    + intros e He. rewrite Hr in He. discriminate He.
Qed.

(** X18 - With an empty soil window a cycle is silent whatever the record
    is: it has no effect at all (no request, no print, no record), changes
    nothing but the windows, and ends normally or in the [KeyError] or
    [TypeError] of a failed field access. *)
Theorem empty_window_cycle_is_silent (env : Env) (data : value)
    (s : PlantBrain) :
  soil_buffer s = [] ->
  let out := sensor_data np_exp env data s in
  trace_of out = []
  /\ same_except_buffers s (state_of out)
  /\ (result_of out = Ok tt
      \/ result_of out = Raise KeyError
      \/ result_of out = Raise TypeError).
Proof.
  intros Hempty. cbv zeta.
  assert (Hid : forall b1 b2 b3,
             same_except_buffers s
               (set_light_buffer b3
                  (set_temp_buffer b2 (set_soil_buffer b1 s))))
    by (intros; reflexivity).
  assert (Hself : same_except_buffers s s)
    by (destruct s; reflexivity).
  assert (Hsoil : forall b1, same_except_buffers s (set_soil_buffer b1 s))
    by (intros; destruct s; reflexivity).
  assert (Htemp : forall b1 b2,
             same_except_buffers s
               (set_temp_buffer b2 (set_soil_buffer b1 s)))
    by (intros; destruct s; reflexivity).
  unfold sensor_data.
  destruct (getitem data (KStr "soil_moisture")) as [xs | e] eqn:Exs; run.
  2: { destruct (getitem_key_error _ _ _ Exs) as [-> | ->];
         unfold result_of, state_of, trace_of; simpl; auto. }
  destruct (getitem data (KStr "temperature")) as [xt | e] eqn:Ext; run.
  2: { destruct (getitem_key_error _ _ _ Ext) as [-> | ->];
         unfold result_of, state_of, trace_of; simpl; auto. }
  destruct (getitem data (KStr "light_intensity")) as [xl | e] eqn:Exl; run.
  2: { destruct (getitem_key_error _ _ _ Exl) as [-> | ->];
         unfold result_of, state_of, trace_of; simpl; auto. }
  cbn [soil_buffer set_light_buffer set_temp_buffer set_soil_buffer].
  rewrite Hempty. simpl.
  unfold result_of, state_of, trace_of. simpl. auto.
Qed.

End Effects.

(** ** The further theorems at concrete inputs *)

Lemma weather_refresh_success_witness :
  get_weather (1000 # 1)
    (weather_ok (VStr "Rain") (VNum (25 # 1)) (VNum (80 # 1))) init
  = (Ok tt,
     set_last_weather_fetch (1000 # 1)
       (set_outside_humidity (VNum (80 # 1))
          (set_outside_temp (VNum (25 # 1))
             (set_weather_condition (VStr "Rain") init))),
     [HttpGet; Print (WeatherUpdated (VStr "Rain") (VNum (25 # 1)))]).
Proof.
  apply (weather_refresh_success (1000 # 1) _ (VNum (200 # 1))
           (VList [VDict [("main"%string, VStr "Rain")]])
           (VDict [("main"%string, VStr "Rain")])
           (VStr "Rain")
           (VDict [("temp"%string, VNum (25 # 1));
                   ("humidity"%string, VNum (80 # 1))])
           (VNum (25 # 1)) (VNum (80 # 1)) init);
    try reflexivity.
  vm_compute. discriminate.
Defined.

Lemma weather_refresh_exception_witness :
  weather_condition (state_of (get_weather (1000 # 1) resp_no_humidity init))
  = VStr "Clouds"
  /\ outside_humidity
       (state_of (get_weather (1000 # 1) resp_no_humidity init))
     = outside_humidity init.
Proof.
  destruct (weather_refresh_exception (1000 # 1) resp_no_humidity init
              KeyError) as (_ & Hc & Hh & _).
  - vm_compute. discriminate.
  - reflexivity.
  - split; [exact Hc | exact Hh].
Defined.

Lemma weather_refresh_not_ok_witness :
  get_weather (1000 # 1) resp_unauthorized init
  = (Ok tt, set_last_weather_fetch (1000 # 1) init, [HttpGet]).
Proof.
  apply (weather_refresh_not_ok (1000 # 1) _ (VNum (401 # 1)) init);
    try reflexivity.
  vm_compute. discriminate.
Defined.

Lemma calculate_vpd_cases_witness :
  calculate_vpd exp_approx (- (2373 # 10)) (VNum (70 # 1))
  = Raise ZeroDivisionError
  /\ calculate_vpd exp_approx (28 # 1) (VStr "70") = Raise TypeError.
Proof.
  split.
  - apply (calculate_vpd_cases exp_approx (- (2373 # 10)) (VNum (70 # 1))).
    reflexivity.
  - apply (calculate_vpd_cases exp_approx (28 # 1) (VStr "70"));
      [vm_compute; discriminate | reflexivity].
Defined.

Lemma calculate_vpd_bounds_witness :
  match calculate_vpd (fun _ => 1) (25 # 1) (VNum (50 # 1)) with
  | Ok v => 0 <= v /\ v <= svp (fun _ => 1) (25 # 1)
  | Raise _ => False
  end.
Proof.
  destruct (calculate_vpd (fun _ => 1) (25 # 1) (VNum (50 # 1)))
    as [v | e] eqn:Hv; [ | revert Hv; vm_compute; discriminate].
  destruct (calculate_vpd_bounds (fun _ => 1) (fun _ => eq_refl) (25 # 1)
              (VNum (50 # 1)) (50 # 1) v eq_refl Hv) as (H & _).
  apply H; vm_compute; discriminate.
Defined.

Lemma windows_stay_bounded_witness :
  windows_bounded
    (fst (serve_all exp_approx
            [Connect "a"; SensorData (env_at 0) record_no_temperature;
             ManualControl (VDict []); SensorData (env_at 0) dry_record]
            init)).
Proof.
  apply (windows_stay_bounded exp_approx).
  vm_compute. repeat split; lia.
Defined.

Lemma published_record_mirrors_brain_witness :
  match emitted (trace_of dry_cycle) with
  | p :: _ =>
      condition (weather p) = weather_condition (state_of dry_cycle)
      /\ w_temp (weather p) = outside_temp (state_of dry_cycle)
      /\ humidity (weather p) = outside_humidity (state_of dry_cycle)
      /\ alert (system p) = alert_message (state_of dry_cycle)
      /\ pump_active (system p) = pump_status (state_of dry_cycle)
      /\ mean (soil_buffer (state_of dry_cycle))
         = Ok (last_sent_soil (state_of dry_cycle))
      /\ mean (temp_buffer (state_of dry_cycle))
         = Ok (last_sent_temp (state_of dry_cycle))
      /\ soil (sensors p) = py_round (last_sent_soil (state_of dry_cycle)) 1
      /\ temp (sensors p) = py_round (last_sent_temp (state_of dry_cycle)) 1
      /\ payload_battery_level (system p) = 85%Z
      /\ battery_level (state_of dry_cycle) = battery_level warm
  | [] => False
  end.
Proof.
  destruct (emitted (trace_of dry_cycle)) as [ | p l] eqn:E;
    [revert E; vm_compute; discriminate | ].
  apply (published_record_mirrors_brain exp_approx (env_at 0) dry_record
           warm (result_of dry_cycle) (state_of dry_cycle)
           (trace_of dry_cycle) p).
  - apply (outcome_eta dry_cycle).
  - rewrite E. left. reflexivity.
Defined.

Lemma running_pump_within_pulse_witness :
  pump_lock (state_of dry_cycle) = false
  /\ t_check (env_at 0) - last_pump_time (state_of dry_cycle) <= 10.
Proof.
  destruct (emitted (trace_of dry_cycle)) as [ | p l] eqn:E;
    [revert E; vm_compute; discriminate | ].
  apply (running_pump_within_pulse exp_approx (env_at 0) dry_record warm
           (result_of dry_cycle) (state_of dry_cycle) (trace_of dry_cycle) p).
  - apply (outcome_eta dry_cycle).
  - rewrite E. left. reflexivity.
  - vm_compute. reflexivity.
Defined.

Lemma activation_time_set_on_edge_only_witness :
  last_pump_time
    (state_of (sensor_data exp_approx (env_at (7 # 1)) dry_record warm))
  = 7 # 1.
Proof.
  destruct (emitted
              (trace_of
                 (sensor_data exp_approx (env_at (7 # 1)) dry_record warm)))
    as [ | p l] eqn:E; [revert E; vm_compute; discriminate | ].
  assert (Hlabel : algorithm_state (system p) = critical).
  { assert (H : forall q l',
               emitted
                 (trace_of
                    (sensor_data exp_approx (env_at (7 # 1)) dry_record warm))
               = q :: l' -> algorithm_state (system q) = critical)
      by (vm_compute; intros q l' H; inversion H; reflexivity).
    exact (H p l E). }
  destruct (activation_time_set_on_edge_only exp_approx (env_at (7 # 1))
              dry_record warm
              (result_of
                 (sensor_data exp_approx (env_at (7 # 1)) dry_record warm))
              (state_of
                 (sensor_data exp_approx (env_at (7 # 1)) dry_record warm))
              (trace_of
                 (sensor_data exp_approx (env_at (7 # 1)) dry_record warm))
              p) as (Hedge & _).
  - apply outcome_eta.
  - rewrite E. left. reflexivity.
  - apply Hedge; [reflexivity | exact Hlabel].
Defined.

Lemma pump_needs_dry_soil_witness :
  match emitted (trace_of dry_cycle) with
  | p :: _ =>
      In (algorithm_state (system p)) known_labels
      /\ (pump_active (system p) = true ->
          last_sent_soil (state_of dry_cycle) < 50
          /\ (weather_condition (state_of dry_cycle) = VStr "Rain" ->
              last_sent_soil (state_of dry_cycle) < 20))
  | [] => False
  end.
Proof.
  destruct (emitted (trace_of dry_cycle)) as [ | p l] eqn:E;
    [revert E; vm_compute; discriminate | ].
  apply (pump_needs_dry_soil exp_approx (env_at 0) dry_record warm
           (result_of dry_cycle) (state_of dry_cycle) (trace_of dry_cycle) p).
  - apply (outcome_eta dry_cycle).
  - rewrite E. left. reflexivity.
Defined.

Lemma published_windows_numeric_witness :
  forallb is_number (soil_buffer (state_of dry_cycle)) = true
  /\ forallb is_number (temp_buffer (state_of dry_cycle)) = true
  /\ forallb is_number (light_buffer (state_of dry_cycle)) = true.
Proof.
  destruct (emitted (trace_of dry_cycle)) as [ | p l] eqn:E;
    [revert E; vm_compute; discriminate | ].
  apply (published_windows_numeric exp_approx (env_at 0) dry_record warm
           (result_of dry_cycle) (state_of dry_cycle) (trace_of dry_cycle) p).
  - apply (outcome_eta dry_cycle).
  - rewrite E. left. reflexivity.
Defined.

Lemma unlocked_record_needs_vpd_witness :
  is_number (outside_humidity (state_of dry_cycle)) = true
  /\ ~ last_sent_temp (state_of dry_cycle) + 237.3 == 0.
Proof.
  destruct (emitted (trace_of dry_cycle)) as [ | p l] eqn:E;
    [revert E; vm_compute; discriminate | ].
  apply (unlocked_record_needs_vpd exp_approx (env_at 0) dry_record warm
           (result_of dry_cycle) (state_of dry_cycle) (trace_of dry_cycle) p).
  - apply (outcome_eta dry_cycle).
  - rewrite E. left. reflexivity.
  - vm_compute. reflexivity.
Defined.

Lemma pump_never_runs_locked_witness :
  pump_safe
    (fst (serve_all exp_approx
            [SensorData (env_at 0) dry_record;
             SensorData (env_at 0) dry_record;
             SensorData (env_at (1 # 1)) (wet_record (400 # 1))]
            init)).
Proof.
  apply (pump_never_runs_locked exp_approx).
  intros H. reflexivity.
Defined.

Lemma alert_stays_known_witness :
  alert_known
    (fst (serve_all exp_approx
            [SensorData (env_at 0) dry_record;
             SensorData (env_at (20 # 1)) dry_record]
            init)).
Proof.
  apply (alert_stays_known exp_approx). left. reflexivity.
Defined.

Lemma empty_window_cycle_is_silent_witness :
  trace_of (sensor_data exp_approx (env_at 0) record_no_temperature init) = []
  /\ same_except_buffers init
       (state_of (sensor_data exp_approx (env_at 0) record_no_temperature
                    init)).
Proof.
  destruct (empty_window_cycle_is_silent exp_approx (env_at 0)
              record_no_temperature init) as (Ht & Hs & _).
  - reflexivity.
  - split; [exact Ht | exact Hs].
Defined.
